(** * x11_socket: a minimal X11 client over a local socket

    A shallow embedding of [src/main.c]: the packed protocol records, the two
    exact-count transport wrappers, the connection bootstrap, the resource-ID
    allocator, the create-GC / create-window / map-window requests and the
    driver, followed by the properties the specification states about them.

    Conventions of the embedding.
    - C integers are [Z] with the wrap-around of their type written out
      ([u8], [u16], [u32] for the unsigned types, [s32] for [int]).
    - Memory is bytes ([Byte.byte]); multi-byte fields are stored in the byte
      order of the host, which is little-endian (the order byte ['l'] the
      handshake announces).  Packed records have no padding.
    - A pointer into the reply body is a byte offset from the start of the
      heap block; dereferencing outside the block is undefined behaviour.
    - The process is a computation over an explicit [world] (the bytes put on
      the socket, the lines printed on the error stream, the number of
      transport calls so far) against an [env] that scripts what the
      operating system and the server answer.
    - The program leaves every signal at its default action.  A [write] on a
      connection the peer has closed raises [SIGPIPE], which ends the
      process inside the call; signals sent from outside are not part of the
      embedding. *)

From Stdlib Require Import ZArith Lia.
From Stdlib Require Strings.Byte Strings.String.
From stdpp Require Import base list.
Import String.StringSyntax.
Delimit Scope string_scope with string.
Local Open Scope Z_scope.

Abbreviation byte := Byte.byte.
Abbreviation string := String.string.

(* ===================================================================== *)
(** ** C integer types *)
(* ===================================================================== *)

Definition u8 (z : Z) : Z := z mod 2 ^ 8.
Definition u16 (z : Z) : Z := z mod 2 ^ 16.
Definition u32 (z : Z) : Z := z mod 2 ^ 32.

(** [int]: 32 bits, two's complement.  A sum or a left shift that leaves the
    range wraps around, which is what the compilers of this program do with
    it (the left shifts of [init_gc] and [init_window] are on [int]). *)
Definition s32 (z : Z) : Z := (z + 2 ^ 31) mod 2 ^ 32 - 2 ^ 31.

(** [size_t]: 64 bits; [ssize_t] and the other conversions to it go through
    this wrap. *)
Definition size_t_of (z : Z) : Z := z mod 2 ^ 64.

Definition is_u16 (z : Z) : Prop := 0 <= z < 2 ^ 16.
Definition is_u32 (z : Z) : Prop := 0 <= z < 2 ^ 32.

(* ===================================================================== *)
(** ** Bytes and little-endian fields *)
(* ===================================================================== *)

Definition Z_of_byte (b : byte) : Z := Z.of_N (Byte.to_N b).

Definition byte_of_Z (z : Z) : byte :=
  match Byte.of_N (Z.to_N (z mod 256)) with
  | Some b => b
  | None => Byte.x00
  end.

Definition le16 (v : Z) : list byte :=
  [byte_of_Z v; byte_of_Z (Z.shiftr v 8)].

Definition le32 (v : Z) : list byte :=
  [byte_of_Z v; byte_of_Z (Z.shiftr v 8);
   byte_of_Z (Z.shiftr v 16); byte_of_Z (Z.shiftr v 24)].

(** The bytes of an array of 32-bit words, as [write] sees them. *)
Definition bytes_of_words (ws : list Z) : list byte :=
  concat (map le32 ws).

Definition word_of_bytes (b0 b1 b2 b3 : byte) : Z :=
  Z_of_byte b0 + 2 ^ 8 * Z_of_byte b1 + 2 ^ 16 * Z_of_byte b2
  + 2 ^ 24 * Z_of_byte b3.

(** The 32-bit words a receiver reads off a byte string, four bytes at a
    time; trailing bytes that do not fill a word are dropped. *)
Fixpoint words_of_bytes (bs : list byte) : list Z :=
  match bs with
  | b0 :: b1 :: b2 :: b3 :: rest =>
      word_of_bytes b0 b1 b2 b3 :: words_of_bytes rest
  | _ => []
  end.

(** Loads from a block of memory at a byte offset.  [None]: the access falls
    outside the block. *)
Definition rd8 (m : list byte) (off : Z) : option Z :=
  if off <? 0 then None else Z_of_byte <$> m !! Z.to_nat off.

Definition rd16 (m : list byte) (off : Z) : option Z :=
  match rd8 m off, rd8 m (off + 1) with
  | Some b0, Some b1 => Some (b0 + 2 ^ 8 * b1)
  | _, _ => None
  end.

Definition rd32 (m : list byte) (off : Z) : option Z :=
  match rd16 m off, rd16 m (off + 2) with
  | Some lo, Some hi => Some (lo + 2 ^ 16 * hi)
  | _, _ => None
  end.

(* ===================================================================== *)
(** ** X11 protocol definitions *)
(* ===================================================================== *)

Definition X11_DEFAULT_BORDER : Z := 0.
Definition X11_DEFAULT_GROUP : Z := 0.
Definition X11_EXPOSURES_NOT_ALLOWED : Z := 0.
Definition X11_GC_GRAPHICS_EXPOSURES : Z := Z.shiftl 1 16.

Definition X11_OPCODE_CREATE_WINDOW : Z := 1.
Definition X11_OPCODE_MAP_WINDOW : Z := 8.
Definition X11_OPCODE_CREATE_GC : Z := 16.

Definition X11_CW_BACK_PIXEL : Z := Z.shiftl 1 1.
Definition X11_CW_EVENT_MASK : Z := Z.shiftl 1 11.

Definition X11_EVENT_MASK_KEY_PRESS : Z := 1.
Definition X11_EVENT_MASK_POINTER_MOTION : Z := Z.shiftl 1 6.

(** [connection_request_t], packed: 1 + 1 + 2 + 2 + 2 + 2 + 2 bytes. *)
Record connection_request_t := {
  order : Z;
  pad1 : Z;
  req_major_version : Z;
  req_minor_version : Z;
  auth_proto_name_len : Z;
  auth_proto_data_len : Z;
  pad2 : Z
}.

Definition connection_request_bytes (r : connection_request_t) : list byte :=
  [byte_of_Z (order r); byte_of_Z (pad1 r)]
  ++ le16 (req_major_version r) ++ le16 (req_minor_version r)
  ++ le16 (auth_proto_name_len r) ++ le16 (auth_proto_data_len r)
  ++ le16 (pad2 r).

Definition sizeof_connection_request_t : Z := 12.

(** [connection_reply_header_t], packed: 1 + 1 + 2 + 2 + 2 bytes. *)
Record connection_reply_header_t := {
  success : Z;
  pad : Z;
  major_version : Z;
  minor_version : Z;
  len : Z
}.

Definition sizeof_connection_reply_header_t : Z := 8.

Definition zero_header : connection_reply_header_t :=
  {| success := 0; pad := 0; major_version := 0; minor_version := 0;
     len := 0 |}.

(** The header as eight received bytes lay it out in memory. *)
Definition connection_reply_header_of_bytes (bs : list byte)
  : option connection_reply_header_t :=
  match rd8 bs 0, rd8 bs 1, rd16 bs 2, rd16 bs 4, rd16 bs 6 with
  | Some s, Some p, Some ma, Some mi, Some l =>
      Some {| success := s; pad := p; major_version := ma;
              minor_version := mi; len := l |}
  | _, _, _, _, _ => None
  end.

(** Field offsets of [connection_reply_success_body_t] (packed). *)
Definition off_release : Z := 0.
Definition off_id_base : Z := 4.
Definition off_id_mask : Z := 8.
Definition off_motion_buffer_size : Z := 12.
Definition off_vendor_len : Z := 16.
Definition off_request_max : Z := 18.
Definition off_num_screens : Z := 20.
Definition off_num_pixmap_formats : Z := 21.
Definition off_vendor_string : Z := 32.

Definition sizeof_pixmap_format_t : Z := 8.

(** Field offsets of [screen_t] (packed, 40 bytes). *)
Definition off_root_id : Z := 0.
Definition off_root_visual_id : Z := 32.
Definition sizeof_screen_t : Z := 40.

Definition id_base (body : list byte) : option Z := rd32 body off_id_base.
Definition vendor_len (body : list byte) : option Z :=
  rd16 body off_vendor_len.
Definition num_screens (body : list byte) : option Z :=
  rd8 body off_num_screens.
Definition num_pixmap_formats (body : list byte) : option Z :=
  rd8 body off_num_pixmap_formats.

(** [scr[i].root_id] and [scr[i].root_visual_id] for a [screen_t *scr] that
    points [scr] bytes into the block [body]. *)
Definition root_id (body : list byte) (scr i : Z) : option Z :=
  rd32 body (scr + i * sizeof_screen_t + off_root_id).
Definition root_visual_id (body : list byte) (scr i : Z) : option Z :=
  rd32 body (scr + i * sizeof_screen_t + off_root_visual_id).

(* ===================================================================== *)
(** ** Session state *)
(* ===================================================================== *)

Record state_t := {
  socket_fd : Z;
  connection_reply_header : connection_reply_header_t;
  (** the heap block the body pointer refers to; empty for a null pointer *)
  connection_reply_success_body : list byte;
  (** byte offsets into [connection_reply_success_body] *)
  pixmap_formats : Z;
  screens : Z;
  next_resource_id : Z;
  graphics_context_id : Z;
  window_id : Z
}.

(** [state_t state = {0};] *)
Definition zero_state : state_t :=
  {| socket_fd := 0; connection_reply_header := zero_header;
     connection_reply_success_body := [];
     pixmap_formats := 0; screens := 0;
     next_resource_id := 0; graphics_context_id := 0; window_id := 0 |}.

Definition set_socket_fd (v : Z) (s : state_t) : state_t :=
  {| socket_fd := v;
     connection_reply_header := connection_reply_header s;
     connection_reply_success_body := connection_reply_success_body s;
     pixmap_formats := pixmap_formats s; screens := screens s;
     next_resource_id := next_resource_id s;
     graphics_context_id := graphics_context_id s;
     window_id := window_id s |}.

Definition set_connection_reply_header (v : connection_reply_header_t)
  (s : state_t) : state_t :=
  {| socket_fd := socket_fd s;
     connection_reply_header := v;
     connection_reply_success_body := connection_reply_success_body s;
     pixmap_formats := pixmap_formats s; screens := screens s;
     next_resource_id := next_resource_id s;
     graphics_context_id := graphics_context_id s;
     window_id := window_id s |}.

Definition set_connection_reply_success_body (v : list byte) (s : state_t)
  : state_t :=
  {| socket_fd := socket_fd s;
     connection_reply_header := connection_reply_header s;
     connection_reply_success_body := v;
     pixmap_formats := pixmap_formats s; screens := screens s;
     next_resource_id := next_resource_id s;
     graphics_context_id := graphics_context_id s;
     window_id := window_id s |}.

Definition set_pixmap_formats (v : Z) (s : state_t) : state_t :=
  {| socket_fd := socket_fd s;
     connection_reply_header := connection_reply_header s;
     connection_reply_success_body := connection_reply_success_body s;
     pixmap_formats := v; screens := screens s;
     next_resource_id := next_resource_id s;
     graphics_context_id := graphics_context_id s;
     window_id := window_id s |}.

Definition set_screens (v : Z) (s : state_t) : state_t :=
  {| socket_fd := socket_fd s;
     connection_reply_header := connection_reply_header s;
     connection_reply_success_body := connection_reply_success_body s;
     pixmap_formats := pixmap_formats s; screens := v;
     next_resource_id := next_resource_id s;
     graphics_context_id := graphics_context_id s;
     window_id := window_id s |}.

Definition set_next_resource_id (v : Z) (s : state_t) : state_t :=
  {| socket_fd := socket_fd s;
     connection_reply_header := connection_reply_header s;
     connection_reply_success_body := connection_reply_success_body s;
     pixmap_formats := pixmap_formats s; screens := screens s;
     next_resource_id := v;
     graphics_context_id := graphics_context_id s;
     window_id := window_id s |}.

Definition set_graphics_context_id (v : Z) (s : state_t) : state_t :=
  {| socket_fd := socket_fd s;
     connection_reply_header := connection_reply_header s;
     connection_reply_success_body := connection_reply_success_body s;
     pixmap_formats := pixmap_formats s; screens := screens s;
     next_resource_id := next_resource_id s;
     graphics_context_id := v;
     window_id := window_id s |}.

Definition set_window_id (v : Z) (s : state_t) : state_t :=
  {| socket_fd := socket_fd s;
     connection_reply_header := connection_reply_header s;
     connection_reply_success_body := connection_reply_success_body s;
     pixmap_formats := pixmap_formats s; screens := screens s;
     next_resource_id := next_resource_id s;
     graphics_context_id := graphics_context_id s;
     window_id := v |}.

(* ===================================================================== *)
(** ** The process and its environment *)
(* ===================================================================== *)

(** What a call of [write] on a stream socket does.  It returns: the number
    of bytes moved, or -1.  Or the peer has closed the connection, and the
    kernel raises [SIGPIPE] in the caller: the source calls plain [write],
    installs no handler and neither ignores nor blocks the signal, so its
    default action ends the process inside the call. *)
Inductive write_result : Type :=
| Returns (r : Z)
| Raises_SIGPIPE.

Definition SIGPIPE : Z := 13.

(** What the operating system and the server answer.  Transport calls are
    numbered from 0 in the order the process makes them. *)
Record env := {
  (** result of [socket]: a descriptor, or negative *)
  socket_ret : Z;
  (** result of [connect] *)
  connect_ret : Z;
  (** content of the credential file; [None]: [fopen] returns null *)
  xauthority : option (list byte);
  (** what the k-th [write] does, asked on descriptor [fd] for [count]
      bytes *)
  write_ret : nat -> Z -> Z -> write_result;
  (** bytes the k-th [recvfrom] delivers, asked on [fd] for [count] bytes;
      [None]: the call fails with -1 *)
  recv_ret : nat -> Z -> Z -> option (list byte)
}.

(** What the process has done so far that is visible from outside. *)
Record world := {
  (** one entry per [write] call, oldest first: the descriptor and the bytes
      the call moved *)
  writes : list (Z * list byte);
  (** number of [recvfrom] calls *)
  recvs : nat;
  (** lines printed on the error stream, oldest first *)
  errs : list string
}.

Definition world0 : world := {| writes := []; recvs := 0%nat; errs := [] |}.

(** All bytes put on the transport, in order. *)
Definition sent (w : world) : list byte := concat (map snd (writes w)).

(** The world after a [write] that moved the first [r] bytes of [buf]. *)
Definition wrote (w : world) (fd : Z) (buf : list byte) (r : Z) : world :=
  {| writes := writes w ++ [(fd, take (Z.to_nat r) buf)];
     recvs := recvs w; errs := errs w |}.

(** The world after one more [recvfrom]. *)
Definition received (w : world) : world :=
  {| writes := writes w; recvs := S (recvs w); errs := errs w |}.

(** The world after one more line on the error stream. *)
Definition complained (w : world) (msg : string) : world :=
  {| writes := writes w; recvs := recvs w; errs := errs w ++ [msg] |}.
Arguments complained w msg%_string.

Inductive outcome (A : Type) : Type :=
| Done (a : A)        (** the code ran to the end of the function *)
| Exited (code : Z)   (** the process called [exit code] *)
| Killed (sig : Z)    (** the process was terminated by signal [sig] *)
| Undefined.          (** no defined result: an access outside an object, an
                          indeterminate value used, or a loop out of fuel *)
Arguments Done {A} a.
Arguments Exited {A} code.
Arguments Killed {A} sig.
Arguments Undefined {A}.

Definition M (A : Type) : Type := env -> world -> world * outcome A.

Definition ret {A} (a : A) : M A := fun _ w => (w, Done a).

Definition bind {A B} (m : M A) (k : A -> M B) : M B := fun e w =>
  match m e w with
  | (w', Done a) => k a e w'
  | (w', Exited c) => (w', Exited c)
  | (w', Killed sig) => (w', Killed sig)
  | (w', Undefined) => (w', Undefined)
  end.

Notation "x <- m ;; k" := (bind m (fun x => k))
  (at level 90, m at level 89, right associativity).
Notation "m ;;; k" := (bind m (fun _ => k))
  (at level 90, right associativity).

Definition lift {A} (o : option A) : M A := fun _ w =>
  match o with
  | Some a => (w, Done a)
  | None => (w, Undefined)
  end.

(** The status the parent sees for [exit code]: the low eight bits. *)
Definition exit_status (code : Z) : Z := code mod 256.

(** [FATAL_ERROR(msg)]: [fprintf(stderr, msg "\n"); exit(-1);] *)
Definition FATAL_ERROR {A} (msg : string) : M A := fun _ w =>
  (complained w msg, Exited (-1)).
Arguments FATAL_ERROR {A} msg%_string.

(** System calls. *)
Definition socket : M Z := fun e w => (w, Done (socket_ret e)).

Definition connect (fd : Z) : M Z := fun e w => (w, Done (connect_ret e)).

Definition fopen : M (option (list byte)) := fun e w =>
  (w, Done (xauthority e)).

(** [write(fd, buf, count)] with [buf] the [count] bytes at the pointer: a
    call that returns has moved the first [r] of them, where [r] is the
    result; a call on a connection the peer has closed moves none, and the
    process is terminated by [SIGPIPE] before the call returns. *)
Definition write (fd : Z) (buf : list byte) (count : Z) : M Z := fun e w =>
  match write_ret e (length (writes w)) fd count with
  | Returns r => (wrote w fd buf r, Done r)
  | Raises_SIGPIPE => (wrote w fd buf 0, Killed SIGPIPE)
  end.

(** [recvfrom(fd, buf, count, 0, NULL, NULL)]: the result and the bytes now in
    [buf].  The call never delivers more than [count] bytes. *)
Definition recvfrom (fd : Z) (count : Z) : M (Z * list byte) := fun e w =>
  match recv_ret e (recvs w) fd count with
  | Some bs =>
      let got := take (Z.to_nat count) bs in
      (received w, Done (Z.of_nat (length got), got))
  | None => (received w, Done (-1, []))
  end.

(* ===================================================================== *)
(** ** Transport I/O primitives *)
(* ===================================================================== *)

Definition fatal_write (fd : Z) (buf : list byte) (count : Z) : M unit :=
  r <- write fd buf count ;;
  if negb (size_t_of r =? count) then FATAL_ERROR "Failed to write."
  else ret tt.

Definition fatal_read (fd : Z) (count : Z) : M (list byte) :=
  rb <- recvfrom fd count ;;
  if negb (size_t_of (fst rb) =? count) then FATAL_ERROR "Failed to read."
  else ret (snd rb).

(* ===================================================================== *)
(** ** Connection bootstrap *)
(* ===================================================================== *)

(** The string literal ["MIT-MAGIC-COOKIE-1\0\0"]: 18 characters and the two
    null bytes written in the literal (its terminator is not sent). *)
Definition auth_proto_name : list byte :=
  String.list_byte_of_string "MIT-MAGIC-COOKIE-1" ++ [Byte.x00; Byte.x00].

(** The [count] bytes at [buf + off] of an array whose first [length buf]
    bytes are known; [None] when the range leaves them. *)
Definition bytes_at (buf : list byte) (off count : Z) : option (list byte) :=
  if (0 <=? off) && (off + count <=? Z.of_nat (length buf))
  then Some (take (Z.to_nat count) (drop (Z.to_nat off) buf))
  else None.

Definition x11_init (state : state_t) : M state_t :=
  (* Open socket and connect. *)
  fd <- socket ;;
  let state := set_socket_fd fd state in
  if socket_fd state <? 0 then FATAL_ERROR "Create socket failed" else
  c <- connect (socket_fd state) ;;
  if c <? 0 then FATAL_ERROR "Couldn't connect" else
  (* Read Xauthority. *)
  xauth_file <- fopen ;;
  match xauth_file with
  | None => FATAL_ERROR "Couldn't open .Xauthority."
  | Some content =>
    (* fread into char xauth_cookie[4096] *)
    let xauth_cookie := take 4096 content in
    let xauth_len := size_t_of (Z.of_nat (length xauth_cookie)) in
    if xauth_len <? 0 then FATAL_ERROR "Couldn't read from .Xauthority." else
    (* Send connection request. *)
    let request :=
      {| order := 108 (* 'l' *); pad1 := 0;
         req_major_version := 11; req_minor_version := 0;
         auth_proto_name_len := 18; auth_proto_data_len := 16;
         pad2 := 0 |} in
    fatal_write (socket_fd state) (connection_request_bytes request)
                sizeof_connection_request_t ;;;
    fatal_write (socket_fd state) auth_proto_name 20 ;;;
    cookie <- lift (bytes_at xauth_cookie (xauth_len - 16) 16) ;;
    fatal_write (socket_fd state) cookie 16 ;;;
    (* Read connection reply header. *)
    hdr_bytes <- fatal_read (socket_fd state)
                            sizeof_connection_reply_header_t ;;
    hdr <- lift (connection_reply_header_of_bytes hdr_bytes) ;;
    let state := set_connection_reply_header hdr state in
    if success (connection_reply_header state) =? 0
    then FATAL_ERROR "Connection reply indicated failure." else
    (* Read rest of connection reply (malloc is taken to succeed). *)
    body <- fatal_read (socket_fd state)
                       (size_t_of (len (connection_reply_header state) * 4)) ;;
    let state := set_connection_reply_success_body body state in
    (* Set some pointers into the connection reply. *)
    vl <- lift (vendor_len (connection_reply_success_body state)) ;;
    let state := set_pixmap_formats (off_vendor_string + vl) state in
    npf <- lift (num_pixmap_formats (connection_reply_success_body state)) ;;
    let state :=
      set_screens (pixmap_formats state + npf * sizeof_pixmap_format_t)
                  state in
    base <- lift (id_base (connection_reply_success_body state)) ;;
    ret (set_next_resource_id base state)
  end.

(* ===================================================================== *)
(** ** Resource ID allocator *)
(* ===================================================================== *)

(** [return state->next_resource_id++;] on a [uint32_t]. *)
Definition generate_id (state : state_t) : Z * state_t :=
  (next_resource_id state,
   set_next_resource_id (u32 (next_resource_id state + 1)) state).

(* ===================================================================== *)
(** ** Counting the bits of a mask *)
(* ===================================================================== *)

(** [while (value) { count += value & 1; value >>= 1; }], at most [fuel]
    iterations; [None] if the loop has not ended by then. *)
Fixpoint popcnt_loop (fuel : nat) (value count : Z) : option Z :=
  if value =? 0 then Some count
  else match fuel with
       | O => None
       | S fuel' =>
           popcnt_loop fuel' (Z.shiftr value 1) (s32 (count + Z.land value 1))
       end.

(** [popcnt]: the [int] count is returned as [unsigned].  A [uint32_t] is
    zero after 32 right shifts, so 32 iterations are all the loop can make
    ([popcnt_terminates] below). *)
Definition popcnt (value : Z) : option Z :=
  u32 <$> popcnt_loop 32 value 0.

(* ===================================================================== *)
(** ** Request scratch buffers *)
(* ===================================================================== *)

(** A local [uint32_t packet[n]]: [None] is a word not yet assigned. *)
Abbreviation packet_t := (list (option Z)).

Definition new_packet (n : nat) : packet_t := replicate n None.

(** [packet[i] = v]; [None]: the index is outside the array. *)
Definition store (packet : packet_t) (i : Z) (v : Z) : option packet_t :=
  if (0 <=? i) && (i <? Z.of_nat (length packet))
  then Some (<[Z.to_nat i := Some (u32 v)]> packet)
  else None.

(** [for (int i = ...; i < flag_count; ++i) packet[base + i] = value_list[i];]
    with [todo] iterations left.  [None]: a load outside [value_list] or a
    store outside [packet]. *)
Fixpoint store_values (base : Z) (value_list : list Z) (i : Z) (todo : nat)
  (packet : packet_t) : option packet_t :=
  match todo with
  | O => Some packet
  | S todo' =>
      v ← (if i <? 0 then None else value_list !! Z.to_nat i);
      packet' ← store packet (base + i) v;
      store_values base value_list (i + 1) todo' packet'
  end.

(** The first [n] words of the array as [write] reads them; [None] when one
    of them is outside the array or was never assigned. *)
Definition packet_words (packet : packet_t) (n : Z) : option (list Z) :=
  if (0 <=? n) && (n <=? Z.of_nat (length packet))
  then mapM id (take (Z.to_nat n) packet)
  else None.

(* ===================================================================== *)
(** ** Graphics context initializer *)
(* ===================================================================== *)

(** The body of [init_gc] between the allocation of the ID and the
    [fatal_write]: the request length [len] and the scratch buffer after all
    its stores.  These statements make no call, so they are one computation
    that either yields the buffer or has no defined result. *)
Definition init_gc_packet (state : state_t) (value_mask : Z)
  (value_list : list Z) : option (Z * packet_t) :=
  pc ← popcnt value_mask;
  let flag_count := u16 pc in
  let len := u16 (4 + flag_count) in
  let packet := new_packet (4 + 32) in
  packet ← store packet 0
             (Z.lor X11_OPCODE_CREATE_GC (s32 (Z.shiftl len 16)));
  packet ← store packet 1 (graphics_context_id state);
  root ← root_id (connection_reply_success_body state) (screens state) 0;
  packet ← store packet 2 root;
  packet ← store packet 3 value_mask;
  packet ← store_values 4 value_list 0 (Z.to_nat flag_count) packet;
  Some (len, packet).

Definition init_gc (state : state_t) (value_mask : Z) (value_list : list Z)
  : M state_t :=
  let (id, state) := generate_id state in
  let state := set_graphics_context_id id state in
  lp <- lift (init_gc_packet state value_mask value_list) ;;
  let (len, packet) := (lp : Z * packet_t) in
  ws <- lift (packet_words packet len) ;;
  fatal_write (socket_fd state) (bytes_of_words ws)
              (size_t_of (s32 (len * 4))) ;;;
  ret state.

(* ===================================================================== *)
(** ** Window initializer and mapper *)
(* ===================================================================== *)

(** The stores of [init_window] into its scratch buffer, as for
    [init_gc_packet]. *)
Definition init_window_packet (state : state_t) (x y w h : Z)
  (window_parent visual value_mask : Z) (value_list : list Z)
  : option (Z * packet_t) :=
  pc ← popcnt value_mask;
  let flag_count := u16 pc in
  let len := u16 (8 + flag_count) in
  let packet := new_packet (8 + 32) in
  packet ← store packet 0
             (Z.lor X11_OPCODE_CREATE_WINDOW (s32 (Z.shiftl len 16)));
  packet ← store packet 1 (window_id state);
  packet ← store packet 2 window_parent;
  packet ← store packet 3 (Z.lor x (s32 (Z.shiftl y 16)));
  packet ← store packet 4 (Z.lor w (s32 (Z.shiftl h 16)));
  packet ← store packet 5
             (Z.lor (s32 (Z.shiftl X11_DEFAULT_BORDER 16)) X11_DEFAULT_GROUP);
  packet ← store packet 6 visual;
  packet ← store packet 7 value_mask;
  packet ← store_values 8 value_list 0 (Z.to_nat flag_count) packet;
  Some (len, packet).

Definition init_window (state : state_t) (x y w h : Z)
  (window_parent visual value_mask : Z) (value_list : list Z) : M state_t :=
  let (id, state) := generate_id state in
  let state := set_window_id id state in
  lp <- lift (init_window_packet state x y w h window_parent visual
                                 value_mask value_list) ;;
  let (len, packet) := (lp : Z * packet_t) in
  ws <- lift (packet_words packet len) ;;
  fatal_write (socket_fd state) (bytes_of_words ws)
              (size_t_of (s32 (len * 4))) ;;;
  ret state.

Definition map_window_packet (state : state_t) : option (Z * packet_t) :=
  let len := 2 in
  let packet := new_packet (Z.to_nat len) in
  packet ← store packet 0
             (Z.lor X11_OPCODE_MAP_WINDOW (s32 (Z.shiftl len 16)));
  packet ← store packet 1 (window_id state);
  Some (len, packet).

Definition map_window (state : state_t) : M state_t :=
  lp <- lift (map_window_packet state) ;;
  let (len, packet) := (lp : Z * packet_t) in
  ws <- lift (packet_words packet len) ;;
  fatal_write (socket_fd state) (bytes_of_words ws) 8 ;;;
  ret state.

(* ===================================================================== *)
(** ** Driver *)
(* ===================================================================== *)

(** [main] up to its last statement, [while (1) sleep(1);].  That loop makes
    no transport call and never ends, so [Done state] here means: the process
    has entered the idle loop in session state [state]. *)
Definition main : M state_t :=
  state <- x11_init zero_state ;;
  state <- init_gc state X11_GC_GRAPHICS_EXPOSURES
                   [X11_EXPOSURES_NOT_ALLOWED] ;;
  parent <- lift (root_id (connection_reply_success_body state)
                          (screens state) 0) ;;
  visual <- lift (root_visual_id (connection_reply_success_body state)
                                 (screens state) 0) ;;
  state <- init_window state 0 0 320 240 parent visual
                       X11_CW_BACK_PIXEL [0xff00ff] ;;
  map_window state.

(* ===================================================================== *)
(** ** Definitions used to state the properties *)
(* ===================================================================== *)

(** The number of bits set among the low [n] bits of [v]. *)
Definition bits_upto (n : nat) (v : Z) : Z :=
  foldr Z.add 0 (map (fun i => Z.b2z (Z.testbit v (Z.of_nat i))) (seq 0 n)).

(** The population count of a 32-bit mask. *)
Definition bit_count (v : Z) : Z := bits_upto 32 v.

(** [n] consecutive calls of the allocator: the values returned, in order,
    and the state after the last call. *)
Fixpoint generate_ids (n : nat) (state : state_t) : list Z * state_t :=
  match n with
  | O => ([], state)
  | S n' =>
      let (id, state) := generate_id state in
      let (ids, state) := generate_ids n' state in
      (id :: ids, state)
  end.

(** A buffer whose first words are assigned and whose remaining [n] are not. *)
Definition filled (ws : list Z) (n : nat) : packet_t :=
  map Some ws ++ replicate n None.

(** The fields of a session state that are [uint32_t] hold 32-bit values. *)
Record state_ok (state : state_t) : Prop := {
  next_resource_id_u32 : is_u32 (next_resource_id state);
  graphics_context_id_u32 : is_u32 (graphics_context_id state);
  window_id_u32 : is_u32 (window_id state)
}.

(** The statements of [x11_init] that follow the handshake, from the read of
    the reply header on, in a session state whose descriptor is set. *)
Definition x11_init_reply (state : state_t) : M state_t :=
  hdr_bytes <- fatal_read (socket_fd state)
                          sizeof_connection_reply_header_t ;;
  hdr <- lift (connection_reply_header_of_bytes hdr_bytes) ;;
  let state := set_connection_reply_header hdr state in
  if success (connection_reply_header state) =? 0
  then FATAL_ERROR "Connection reply indicated failure." else
  body <- fatal_read (socket_fd state)
                     (size_t_of (len (connection_reply_header state) * 4)) ;;
  let state := set_connection_reply_success_body body state in
  vl <- lift (vendor_len (connection_reply_success_body state)) ;;
  let state := set_pixmap_formats (off_vendor_string + vl) state in
  npf <- lift (num_pixmap_formats (connection_reply_success_body state)) ;;
  let state :=
    set_screens (pixmap_formats state + npf * sizeof_pixmap_format_t)
                state in
  base <- lift (id_base (connection_reply_success_body state)) ;;
  ret (set_next_resource_id base state).

(** The bytes [fread] leaves in [xauth_cookie]. *)
Definition credential_read (content : list byte) : list byte :=
  take 4096 content.

(** The last 16 bytes of what was read. *)
Definition cookie_of (content : list byte) : list byte :=
  drop (length (credential_read content) - 16) (credential_read content).

(** The 12 bytes of the connection request record. *)
Definition request_header : list byte :=
  [Byte.x6c; Byte.x00; Byte.x0b; Byte.x00; Byte.x00; Byte.x00;
   Byte.x12; Byte.x00; Byte.x10; Byte.x00; Byte.x00; Byte.x00].

(** The world once the three parts of the handshake are on the wire. *)
Definition handshaken (fd : Z) (content : list byte) : world :=
  {| writes := [(fd, request_header); (fd, auth_proto_name);
                (fd, cookie_of content)];
     recvs := 0%nat; errs := [] |}.

(** A computation that puts nothing on the transport. *)
Definition quiet {A} (m : M A) : Prop :=
  forall e w, writes (fst (m e w)) = writes w.

(** The transport moves every byte it is asked to move. *)
Definition write_complete (e : env) (k : nat) (fd count : Z) : Prop :=
  write_ret e k fd count = Returns count.

(** The reply as the server lays it out on the wire.  The records are the
    packed structures of the source; the order of the parts of the success
    body, and the padding of the vendor string, are those of the data model
    of the specification (the source has no encoder: it only reads). *)
Module Wire.

(** [screen_t] *)
Record screen_t := {
  root_id : Z; colormap : Z; white : Z; black : Z; input_mask : Z;
  width : Z; height : Z; width_mm : Z; height_mm : Z;
  maps_min : Z; maps_max : Z;
  root_visual_id : Z;
  backing_store : Z; save_unders : Z; depth : Z; allowed_depths_len : Z
}.

Definition screen_bytes (s : screen_t) : list byte :=
  le32 (root_id s) ++ le32 (colormap s) ++ le32 (white s) ++ le32 (black s)
  ++ le32 (input_mask s)
  ++ le16 (width s) ++ le16 (height s)
  ++ le16 (width_mm s) ++ le16 (height_mm s)
  ++ le16 (maps_min s) ++ le16 (maps_max s)
  ++ le32 (root_visual_id s)
  ++ [byte_of_Z (backing_store s); byte_of_Z (save_unders s);
      byte_of_Z (depth s); byte_of_Z (allowed_depths_len s)].

(** [pixmap_format_t] *)
Record pixmap_format_t := {
  pf_depth : Z; bpp : Z; pf_scanline_pad : Z
}.

Definition pixmap_format_bytes (f : pixmap_format_t) : list byte :=
  [byte_of_Z (pf_depth f); byte_of_Z (bpp f); byte_of_Z (pf_scanline_pad f)]
  ++ replicate 5 Byte.x00.

(** The fields of [connection_reply_success_body_t] that are not counts of
    what follows. *)
Record setup_t := {
  release : Z; id_base : Z; id_mask : Z; motion_buffer_size : Z;
  request_max : Z;
  image_byte_order : Z; bitmap_bit_order : Z;
  scanline_unit : Z; scanline_pad : Z;
  keycode_min : Z; keycode_max : Z
}.

(** The fixed 32-byte prefix of the success body. *)
Definition prefix_bytes (s : setup_t) (vendor_len num_screens
  num_pixmap_formats : Z) : list byte :=
  le32 (release s) ++ le32 (id_base s) ++ le32 (id_mask s)
  ++ le32 (motion_buffer_size s)
  ++ le16 vendor_len ++ le16 (request_max s)
  ++ [byte_of_Z num_screens; byte_of_Z num_pixmap_formats;
      byte_of_Z (image_byte_order s); byte_of_Z (bitmap_bit_order s);
      byte_of_Z (scanline_unit s); byte_of_Z (scanline_pad s);
      byte_of_Z (keycode_min s); byte_of_Z (keycode_max s)]
  ++ le32 0.

(** Bytes that round a length up to a 4-byte boundary. *)
Definition pad4 (n : nat) : nat := Z.to_nat ((- Z.of_nat n) mod 4).

(** The success body as the data model of the specification describes it:
    the fixed prefix, the vendor string padded to a 4-byte boundary, the
    pixel-format descriptors, the screen descriptors, and whatever follows
    them (the allowed-depth records).  The length and the two counts in the
    prefix are those of the parts. *)
Definition success_body (s : setup_t) (vendor : list byte)
  (formats : list pixmap_format_t) (scrs : list screen_t)
  (rest : list byte) : list byte :=
  prefix_bytes s (Z.of_nat (length vendor)) (Z.of_nat (length scrs))
               (Z.of_nat (length formats))
  ++ vendor ++ replicate (pad4 (length vendor)) Byte.x00
  ++ concat (map pixmap_format_bytes formats)
  ++ concat (map screen_bytes scrs)
  ++ rest.

(** The 8-byte reply header. *)
Definition header_bytes (success major minor len : Z) : list byte :=
  [byte_of_Z success; Byte.x00] ++ le16 major ++ le16 minor ++ le16 len.

End Wire.

(** A run in which the descriptor is [fd], the connection is accepted, the
    credential file holds [cred], every write is complete, and the server
    answers the handshake with the header [hdr] followed by the body
    [body]. *)
Record served (e : env) (fd : Z) (cred hdr body : list byte) : Prop := {
  served_socket : socket_ret e = fd;
  served_fd : 0 <= fd;
  served_connect : 0 <= connect_ret e;
  served_cred : xauthority e = Some cred;
  served_write : forall k fd' count, write_complete e k fd' count;
  served_hdr : recv_ret e 0%nat fd 8 = Some hdr;
  served_body : recv_ret e 1%nat fd (Z.of_nat (length body)) = Some body
}.

(** A scripted server for examples. *)
Definition mock_server (fd : Z) (cred hdr body : list byte) : env :=
  {| socket_ret := fd; connect_ret := 0;
     xauthority := Some cred;
     write_ret := fun _ _ count => Returns count;
     recv_ret := fun k _ _ =>
       match k with
       | O => Some hdr
       | _ => Some body
       end |}.

(** Example data: an 18-byte credential file, a screen with root window 100
    and root visual 200, and a setup record whose resource-ID base is
    [0x400000]. *)
Definition example_cred : list byte :=
  map byte_of_Z [1; 2; 3; 4; 5; 6; 7; 8; 9; 10; 11; 12; 13; 14; 15; 16; 17; 18].

Definition example_screen : Wire.screen_t :=
  {| Wire.root_id := 100; Wire.colormap := 32; Wire.white := 0xffffff;
     Wire.black := 0; Wire.input_mask := 0;
     Wire.width := 1024; Wire.height := 768;
     Wire.width_mm := 271; Wire.height_mm := 203;
     Wire.maps_min := 1; Wire.maps_max := 1;
     Wire.root_visual_id := 200;
     Wire.backing_store := 0; Wire.save_unders := 0; Wire.depth := 24;
     Wire.allowed_depths_len := 0 |}.

Definition example_setup : Wire.setup_t :=
  {| Wire.release := 12101004; Wire.id_base := 0x400000;
     Wire.id_mask := 0x1fffff; Wire.motion_buffer_size := 256;
     Wire.request_max := 65535;
     Wire.image_byte_order := 0; Wire.bitmap_bit_order := 0;
     Wire.scanline_unit := 32; Wire.scanline_pad := 32;
     Wire.keycode_min := 8; Wire.keycode_max := 255 |}.

(** A reply with the given vendor string, no pixel format and the example
    screen, and the server that sends it. *)
Definition example_body (vendor : list byte) : list byte :=
  Wire.success_body example_setup vendor [] [example_screen] [].

Definition example_server (vendor : list byte) : env :=
  mock_server 3 example_cred
    (Wire.header_bytes 1 11 0 (Z.of_nat (length (example_body vendor)) / 4))
    (example_body vendor).

(** The session state [x11_init] leaves for a reply header [h] and body
    [body] in which the vendor length, the format count and the ID base read
    [vl], [npf] and [base]. *)
Definition bootstrapped (state : state_t) (h : connection_reply_header_t)
  (body : list byte) (vl npf base : Z) : state_t :=
  {| socket_fd := socket_fd state;
     connection_reply_header := h;
     connection_reply_success_body := body;
     pixmap_formats := off_vendor_string + vl;
     screens := off_vendor_string + vl + npf * sizeof_pixmap_format_t;
     next_resource_id := base;
     graphics_context_id := graphics_context_id state;
     window_id := window_id state |}.

(** The session state after [init_gc]. *)
Definition after_init_gc (state : state_t) : state_t :=
  set_graphics_context_id (next_resource_id state)
    (set_next_resource_id (u32 (next_resource_id state + 1)) state).

(** The session state after [init_window]. *)
Definition after_init_window (state : state_t) : state_t :=
  set_window_id (next_resource_id state)
    (set_next_resource_id (u32 (next_resource_id state + 1)) state).

(** The session state the bootstrap leaves against the example server whose
    vendor string is empty. *)
Definition example_state : state_t :=
  bootstrapped (set_socket_fd 3 zero_state)
    {| success := 1; pad := 0; major_version := 11; minor_version := 0;
       len := 18 |}
    (example_body []) 0 0 0x400000.

(** The world after one more complete [write] of [bs] on [fd]. *)
Definition sent_more (w : world) (fd : Z) (bs : list byte) : world :=
  {| writes := writes w ++ [(fd, bs)]; recvs := recvs w; errs := errs w |}.

(** Two vendor strings: one of 20 bytes, which needs no padding, and one of
    a single byte, which the server pads with three. *)
Definition vendor_xorg : list byte :=
  String.list_byte_of_string "The X.Org Foundation".

Definition vendor_x : list byte := String.list_byte_of_string "X".

(** The words of the requests the driver sent after the handshake, one list
    per write. *)
Definition requests_sent (w : world) : list (list Z) :=
  map (fun c => words_of_bytes (snd c)) (drop 3 (writes w)).

(** A transport that moves one byte fewer than asked, in both directions. *)
Definition short_transport : env :=
  {| socket_ret := 3; connect_ret := 0;
     xauthority := Some example_cred;
     write_ret := fun _ _ count => Returns (count - 1);
     recv_ret := fun _ _ count =>
       Some (replicate (Z.to_nat (count - 1)) Byte.x00) |}.


(** What [init_gc], [init_window] and [map_window] all leave alone: the
    descriptor, the reply header, the reply body and the two views into
    it. *)
Record same_connection (state state' : state_t) : Prop := {
  same_socket_fd : socket_fd state' = socket_fd state;
  same_connection_reply_header :
    connection_reply_header state' = connection_reply_header state;
  same_connection_reply_success_body :
    connection_reply_success_body state'
    = connection_reply_success_body state;
  same_pixmap_formats : pixmap_formats state' = pixmap_formats state;
  same_screens : screens state' = screens state
}.

(** The three requests of the driver, as arrays of 32-bit words. *)
Definition create_gc_words (gc drawable mask : Z) (values : list Z)
  : list Z :=
  [Z.lor 16 (Z.shiftl (4 + Z.of_nat (length values)) 16); gc; drawable; mask]
  ++ values.

Definition create_window_words (wid parent x y w h visual mask : Z)
  (values : list Z) : list Z :=
  [Z.lor 1 (Z.shiftl (8 + Z.of_nat (length values)) 16); wid; parent;
   Z.lor x (Z.shiftl y 16); Z.lor w (Z.shiftl h 16); 0; visual; mask]
  ++ values.

Definition map_window_words (wid : Z) : list Z := [0x00020008; wid].

(* ===================================================================== *)
(** ** Definitions used to state the behaviour of whole runs *)
(* ===================================================================== *)

(** The lines the process can print: the messages of the [FATAL_ERROR] calls
    that can be reached. *)
Definition diagnostics : list string :=
  ["Create socket failed"; "Couldn't connect"; "Couldn't open .Xauthority.";
   "Failed to write."; "Failed to read.";
   "Connection reply indicated failure."]%string.

(** The discipline of the error stream, for a computation started with
    nothing printed: it prints only when it exits, and then it calls
    [exit(-1)] after exactly one of the [diagnostics]. *)
Definition tidy {A} (m : M A) : Prop :=
  forall e w, errs w = [] ->
    match m e w with
    | (w', Exited code) =>
        code = -1 /\ exists msg, In msg diagnostics /\ errs w' = [msg]
    | (w', _) => errs w' = []
    end.

(** A budget of transport calls: the computation adds at most [nw] entries
    to the log of writes, keeping the entries already there, and makes at
    most [nr] calls of [recvfrom]. *)
Definition within {A} (nw nr : nat) (m : M A) : Prop :=
  forall e w,
    (exists more, writes (fst (m e w)) = writes w ++ more
                  /\ (length more <= nw)%nat)
    /\ (recvs w <= recvs (fst (m e w)) <= recvs w + nr)%nat.

(** What the kernel guarantees of a [write] that returns: the result is -1
    or the number of bytes moved, which is at most the count asked for. *)
Definition posix_write (e : env) : Prop :=
  forall k fd count r, 0 <= count ->
    write_ret e k fd count = Returns r -> -1 <= r <= count.

(** A server that rejects the handshake: its reply header starts with a zero
    byte.  The reason that follows the header is [reason]. *)
Definition rejecting_server (reason : list byte) : env :=
  mock_server 3 example_cred
    (Wire.header_bytes 0 11 0 (Z.of_nat (length reason) / 4)) reason.

(* ===================================================================== *)
(** * Properties *)
(* ===================================================================== *)

(** ** Integers and bytes *)

Lemma u32_id z : is_u32 z -> u32 z = z.
Proof. unfold is_u32, u32. intros H. apply Z.mod_small. lia. Qed.

Lemma u16_id z : is_u16 z -> u16 z = z.
Proof. unfold is_u16, u16. intros H. apply Z.mod_small. lia. Qed.

Lemma u32_range z : is_u32 (u32 z).
Proof. unfold is_u32, u32. apply Z.mod_pos_bound. lia. Qed.

Lemma s32_id z : - 2 ^ 31 <= z < 2 ^ 31 -> s32 z = z.
Proof. unfold s32. intros H. rewrite Z.mod_small; lia. Qed.

(** Conversion to [uint32_t] forgets the detour through [int]. *)
Lemma u32_s32 z : u32 (s32 z) = u32 z.
Proof.
  unfold u32, s32.
  rewrite Zminus_mod, Zmod_mod, <- Zminus_mod.
  f_equal. lia.
Qed.

Lemma u32_land z : u32 z = Z.land z (Z.ones 32).
Proof. unfold u32. rewrite Z.land_ones by lia. reflexivity. Qed.

(** [uint32_t w = a | (int)b] keeps the low 32 bits of [a | b]. *)
Lemma u32_lor_s32 a b :
  is_u32 a -> is_u32 b -> u32 (Z.lor a (s32 b)) = Z.lor a b.
Proof.
  intros Ha Hb.
  rewrite u32_land, Z.land_lor_distr_l, <- !u32_land, u32_s32.
  rewrite !u32_id; auto.
Qed.

Lemma size_t_of_id z : 0 <= z < 2 ^ 64 -> size_t_of z = z.
Proof. unfold size_t_of. intros H. apply Z.mod_small. lia. Qed.

Lemma Z_of_byte_range b : 0 <= Z_of_byte b < 256.
Proof.
  unfold Z_of_byte. pose proof (Byte.to_N_bounded b). lia.
Qed.

Lemma Z_of_byte_of_Z z : Z_of_byte (byte_of_Z z) = z mod 256.
Proof.
  unfold Z_of_byte, byte_of_Z.
  pose proof (Z.mod_pos_bound z 256 ltac:(lia)) as Hr.
  destruct (Byte.of_N (Z.to_N (z mod 256))) as [b|] eqn:E.
  - apply Byte.to_of_N in E. rewrite E. lia.
  - apply Byte.of_N_None_iff in E. lia.
Qed.

Lemma byte_of_Z_of_byte b : byte_of_Z (Z_of_byte b) = b.
Proof.
  unfold byte_of_Z. pose proof (Z_of_byte_range b) as Hr.
  rewrite Z.mod_small by lia. unfold Z_of_byte.
  rewrite N2Z.id, Byte.of_to_N. reflexivity.
Qed.

Lemma word_of_le32 v :
  is_u32 v ->
  word_of_bytes (byte_of_Z v) (byte_of_Z (Z.shiftr v 8))
                (byte_of_Z (Z.shiftr v 16)) (byte_of_Z (Z.shiftr v 24)) = v.
Proof.
  unfold is_u32, word_of_bytes. intros H.
  rewrite !Z_of_byte_of_Z, !Z.shiftr_div_pow2 by lia.
  change (2 ^ 8) with 256. change (2 ^ 16) with 65536.
  change (2 ^ 24) with 16777216. change (2 ^ 32) with 4294967296 in H.
  Z.div_mod_to_equations. lia.
Qed.

Lemma words_of_bytes_of_words ws :
  Forall is_u32 ws -> words_of_bytes (bytes_of_words ws) = ws.
Proof.
  induction 1 as [|v ws Hv _ IH]; [reflexivity|].
  unfold bytes_of_words in *. cbn [map concat le32 app words_of_bytes].
  rewrite IH, word_of_le32; auto.
Qed.

Lemma length_bytes_of_words ws :
  length (bytes_of_words ws) = (4 * length ws)%nat.
Proof.
  unfold bytes_of_words. induction ws as [|v ws IH]; [reflexivity|].
  cbn [map concat]. rewrite length_app, IH. cbn [le32 length]. lia.
Qed.

Lemma bytes_of_words_app ws1 ws2 :
  bytes_of_words (ws1 ++ ws2) = bytes_of_words ws1 ++ bytes_of_words ws2.
Proof. unfold bytes_of_words. rewrite map_app, concat_app. reflexivity. Qed.

(** ** The bit count *)

Lemma bits_upto_S n v :
  bits_upto (S n) v = Z.b2z (Z.testbit v 0) + bits_upto n (Z.shiftr v 1).
Proof.
  unfold bits_upto. rewrite <- cons_seq, <- seq_shift.
  cbn [map foldr]. rewrite map_map. do 2 f_equal.
  apply map_ext. intros i. rewrite Z.shiftr_spec by lia.
  do 2 f_equal. lia.
Qed.

Lemma bits_upto_bounds n v : 0 <= bits_upto n v <= Z.of_nat n.
Proof.
  revert v. induction n as [|n IH]; intros v.
  - unfold bits_upto. simpl. lia.
  - rewrite bits_upto_S. specialize (IH (Z.shiftr v 1)).
    destruct (Z.testbit v 0); simpl Z.b2z; lia.
Qed.

Lemma bits_upto_zero n : bits_upto n 0 = 0.
Proof.
  induction n as [|n IH]; [reflexivity|].
  rewrite bits_upto_S, Z.shiftr_0_l, IH. reflexivity.
Qed.

Lemma bit_count_bounds v : 0 <= bit_count v <= 32.
Proof. unfold bit_count. pose proof (bits_upto_bounds 32 v). lia. Qed.

Lemma land_1_bit v : Z.land v 1 = Z.b2z (Z.testbit v 0).
Proof.
  change 1 with (Z.ones 1). rewrite Z.land_ones by lia.
  rewrite Z.bit0_mod. reflexivity.
Qed.

(** The loop adds to [count] the bits of [value], provided [fuel] covers the
    width of [value]. *)
Lemma popcnt_loop_spec fuel : forall value count,
  0 <= value < 2 ^ Z.of_nat fuel ->
  0 <= count -> count + Z.of_nat fuel < 2 ^ 31 ->
  popcnt_loop fuel value count = Some (count + bits_upto fuel value).
Proof.
  induction fuel as [|fuel IH]; intros value count Hv Hc Hf.
  - assert (value = 0) by (simpl in Hv; lia). subst.
    simpl. f_equal. unfold bits_upto. simpl. lia.
  - cbn [popcnt_loop]. destruct (value =? 0) eqn:E.
    + apply Z.eqb_eq in E. subst. rewrite bits_upto_zero. f_equal. lia.
    + rewrite land_1_bit, bits_upto_S.
      assert (Hb : 0 <= Z.b2z (Z.testbit value 0) <= 1)
        by (destruct (Z.testbit value 0); simpl; lia).
      rewrite s32_id by lia.
      rewrite IH.
      * f_equal. lia.
      * rewrite Z.shiftr_div_pow2 by lia. change (2 ^ 1) with 2.
        rewrite Nat2Z.inj_succ, Z.pow_succ_r in Hv by lia.
        split; [apply Z.div_pos; lia|].
        apply Z.div_lt_upper_bound; lia.
      * lia.
      * lia.
Qed.

(** The loop of [popcnt] ends within 32 iterations on every [uint32_t], and
    the result is the number of bits set. *)
Lemma popcnt_terminates value :
  is_u32 value -> popcnt value = Some (bit_count value).
Proof.
  intros Hv. unfold popcnt.
  rewrite (popcnt_loop_spec 32 value 0); [|exact Hv|lia|simpl; lia].
  cbn [fmap option_fmap option_map]. f_equal.
  apply u32_id. pose proof (bit_count_bounds value).
  unfold is_u32, bit_count in *. lia.
Qed.

Example popcnt_examples :
  popcnt 0 = Some 0 /\ popcnt 1 = Some 1 /\ popcnt 5 = Some 2
  /\ popcnt 0xFFFFFFFF = Some 32.
Proof. repeat split; reflexivity. Qed.

(** Boolean comparisons on [Z] whose outcome follows by arithmetic. *)
Ltac zbool :=
  repeat match goal with
    | |- (_ && _)%bool = true => apply andb_true_iff; split
    | |- (_ <=? _) = true => apply Z.leb_le
    | |- (_ <? _) = true => apply Z.ltb_lt
    | |- (_ =? _) = true => apply Z.eqb_eq
    | |- (_ <=? _) = false => apply Z.leb_gt
    | |- (_ <? _) = false => apply Z.ltb_ge
    | |- (_ =? _) = false => apply Z.eqb_neq
    end;
  lia.

(** ** Scratch buffers *)

Lemma new_packet_filled n : new_packet n = filled [] n.
Proof. reflexivity. Qed.

Lemma length_filled ws n : length (filled ws n) = (length ws + n)%nat.
Proof. unfold filled. rewrite length_app, length_map, length_replicate. lia. Qed.

(** Which words of a buffer have been assigned. *)
Lemma filled_lookup ws n (i : nat) :
  is_Some (filled ws n !! i) <->
  (i < length ws + n)%nat.
Proof.
  rewrite lookup_lt_is_Some, length_filled. reflexivity.
Qed.

Lemma filled_assigned ws n (i : nat) :
  (exists v, filled ws n !! i = Some (Some v)) <-> (i < length ws)%nat.
Proof.
  unfold filled. split.
  - intros [v Hv]. destruct (decide (i < length ws)%nat) as [|Hge]; [done|].
    rewrite lookup_app_r in Hv by (rewrite length_map; lia).
    apply lookup_replicate in Hv. destruct Hv as [Hv _]. discriminate.
  - intros Hlt. destruct (lookup_lt_is_Some_2 ws i Hlt) as [v Hv].
    exists v. rewrite lookup_app_l by (rewrite length_map; lia).
    rewrite list_lookup_fmap, Hv. reflexivity.
Qed.

(** Storing into the first unassigned word. *)
Lemma store_next ws n i v :
  i = Z.of_nat (length ws) ->
  store (filled ws (S n)) i v = Some (filled (ws ++ [u32 v]) n).
Proof.
  intros ->. unfold store. rewrite length_filled.
  replace ((0 <=? Z.of_nat (length ws))
           && (Z.of_nat (length ws) <? Z.of_nat (length ws + S n)))
    with true by (symmetry; zbool).
  f_equal. rewrite Nat2Z.id. unfold filled.
  replace (length ws) with (length (map Some ws) + 0)%nat at 1
    by (rewrite length_map; lia).
  rewrite insert_app_r. cbn [replicate]. simpl.
  rewrite map_app, <- app_assoc. reflexivity.
Qed.

(** A store past the end of the buffer has no defined result. *)
Lemma store_full ws i v :
  Z.of_nat (length ws) <= i -> store (filled ws 0) i v = None.
Proof.
  intros Hi. unfold store. rewrite length_filled.
  replace (i <? Z.of_nat (length ws + 0)) with false
    by (symmetry; zbool).
  rewrite andb_false_r. reflexivity.
Qed.

(** The copying loop assigns the next [todo] words, in order. *)
Lemma store_values_spec base value_list : forall todo i ws n,
  0 <= i ->
  base + i = Z.of_nat (length ws) ->
  (Z.to_nat i + todo <= length value_list)%nat ->
  (todo <= n)%nat ->
  store_values base value_list i todo (filled ws n)
  = Some (filled (ws ++ map u32 (take todo (drop (Z.to_nat i) value_list)))
                 (n - todo)).
Proof.
  induction todo as [|todo IH]; intros i ws n Hi Hb Hl Hn.
  - cbn [store_values take map]. rewrite app_nil_r, Nat.sub_0_r. reflexivity.
  - cbn [store_values].
    replace (i <? 0) with false by (symmetry; zbool).
    destruct (lookup_lt_is_Some_2 value_list (Z.to_nat i) ltac:(lia))
      as [v Hv].
    rewrite Hv. cbn [mbind option_bind].
    destruct n as [|n]; [lia|].
    rewrite store_next by exact Hb. cbn [mbind option_bind].
    rewrite IH; [|lia| |lia|lia].
    + rewrite Nat.sub_succ. do 2 f_equal. rewrite <- app_assoc. f_equal.
      rewrite (drop_S _ _ _ Hv). cbn [take map app].
      replace (Z.to_nat (i + 1)) with (S (Z.to_nat i)) by lia.
      reflexivity.
    + rewrite length_app. cbn [length]. lia.
Qed.

(** [write] reads back exactly the assigned words. *)
Lemma packet_words_filled ws n len :
  len = Z.of_nat (length ws) ->
  packet_words (filled ws n) len = Some ws.
Proof.
  intros ->. unfold packet_words. rewrite length_filled.
  replace ((0 <=? Z.of_nat (length ws))
           && (Z.of_nat (length ws) <=? Z.of_nat (length ws + n)))
    with true by (symmetry; zbool).
  rewrite Nat2Z.id. unfold filled.
  rewrite take_app_length' by (rewrite length_map; reflexivity).
  induction ws as [|w ws IH]; [reflexivity|].
  cbn [map mapM id]. rewrite IH. reflexivity.
Qed.

(** ** Running the process *)

Lemma bind_done {A B} (m : M A) (k : A -> M B) e w w' a :
  m e w = (w', Done a) -> bind m k e w = k a e w'.
Proof. unfold bind. intros ->. reflexivity. Qed.

Lemma bind_exited {A B} (m : M A) (k : A -> M B) e w w' c :
  m e w = (w', Exited c) -> bind m k e w = (w', Exited c).
Proof. unfold bind. intros ->. reflexivity. Qed.

Lemma lift_some {A B} (o : option A) (k : A -> M B) a e w :
  o = Some a -> bind (lift o) k e w = k a e w.
Proof. intros ->. reflexivity. Qed.

Lemma fatal_write_ok fd buf count e w :
  0 <= count < 2 ^ 64 ->
  write_complete e (length (writes w)) fd count ->
  fatal_write fd buf count e w = (wrote w fd buf count, Done tt).
Proof.
  intros Hc Hw. unfold fatal_write, bind, write. rewrite Hw.
  rewrite size_t_of_id, Z.eqb_refl by exact Hc. reflexivity.
Qed.




Lemma fatal_read_ok fd count bs e w :
  0 <= count < 2 ^ 64 ->
  recv_ret e (recvs w) fd count = Some bs ->
  Z.of_nat (length bs) = count ->
  fatal_read fd count e w = (received w, Done bs).
Proof.
  intros Hc Hr Hl. unfold fatal_read, bind, recvfrom. rewrite Hr.
  rewrite firstn_all2 by lia. cbn [fst snd].
  rewrite Hl, size_t_of_id, Z.eqb_refl by exact Hc. reflexivity.
Qed.

(** ** Loads *)

Lemma rd8_range m off v : rd8 m off = Some v -> 0 <= v < 2 ^ 8.
Proof.
  unfold rd8. destruct (off <? 0); [discriminate|].
  destruct (m !! Z.to_nat off) as [b|]; [|discriminate].
  cbn. intros [= <-]. apply Z_of_byte_range.
Qed.

Lemma rd16_range m off v : rd16 m off = Some v -> is_u16 v.
Proof.
  unfold rd16, is_u16.
  destruct (rd8 m off) as [b0|] eqn:E0; [|discriminate].
  destruct (rd8 m (off + 1)) as [b1|] eqn:E1; [|discriminate].
  apply rd8_range in E0, E1. intros [= <-]. lia.
Qed.

Lemma rd32_range m off v : rd32 m off = Some v -> is_u32 v.
Proof.
  unfold rd32, is_u32.
  destruct (rd16 m off) as [lo|] eqn:E0; [|discriminate].
  destruct (rd16 m (off + 2)) as [hi|] eqn:E1; [|discriminate].
  apply rd16_range in E0, E1. unfold is_u16 in *. intros [= <-]. lia.
Qed.

(** ** The requests *)

(** The first word of a request: the opcode below the length. *)
Lemma request_word0 opcode len :
  0 <= opcode < 2 ^ 8 -> 0 <= len < 2 ^ 16 ->
  u32 (Z.lor opcode (s32 (Z.shiftl len 16))) = Z.lor opcode (Z.shiftl len 16).
Proof.
  intros Ho Hl. apply u32_lor_s32; unfold is_u32.
  - lia.
  - rewrite Z.shiftl_mul_pow2 by lia. lia.
Qed.

(** Two 16-bit halves packed into a word. *)
Lemma packed_halves lo hi :
  is_u16 lo -> is_u16 hi ->
  u32 (Z.lor lo (s32 (Z.shiftl hi 16))) = Z.lor lo (Z.shiftl hi 16).
Proof.
  unfold is_u16. intros Hlo Hhi. apply u32_lor_s32; unfold is_u32.
  - lia.
  - rewrite Z.shiftl_mul_pow2 by lia. lia.
Qed.

Lemma map_u32_id ws : Forall is_u32 ws -> map u32 ws = ws.
Proof.
  induction 1 as [|v ws Hv _ IH]; [reflexivity|].
  cbn [map]. rewrite IH, u32_id; auto.
Qed.

Lemma Forall_take_u32 n ws : Forall is_u32 ws -> Forall is_u32 (take n ws).
Proof. apply Forall_take. Qed.

Section Requests.

Variable state : state_t.
Hypothesis state_types : state_ok state.

Variable value_mask : Z.
Hypothesis value_mask_u32 : is_u32 value_mask.

Variable value_list : list Z.
Hypothesis value_list_u32 : Forall is_u32 value_list.
Hypothesis value_list_long :
  bit_count value_mask <= Z.of_nat (length value_list).

(** The values the request carries: one per bit of the mask. *)
Let values := take (Z.to_nat (bit_count value_mask)) value_list.

Lemma length_values : Z.of_nat (length values) = bit_count value_mask.
Proof.
  unfold values. pose proof (bit_count_bounds value_mask).
  rewrite length_take. lia.
Qed.

Lemma length_gc_words gc root :
  4 + bit_count value_mask
  = Z.of_nat (length (create_gc_words gc root value_mask values)).
Proof.
  unfold create_gc_words.
  rewrite length_app, Nat2Z.inj_add, length_values. reflexivity.
Qed.

Lemma init_gc_packet_spec root :
  root_id (connection_reply_success_body state) (screens state) 0
    = Some root ->
  init_gc_packet (after_init_gc state) value_mask value_list
  = Some (4 + bit_count value_mask,
          filled (create_gc_words (next_resource_id state) root value_mask
                                  values)
                 (32 - Z.to_nat (bit_count value_mask))).
Proof.
  intros Hroot. pose proof (bit_count_bounds value_mask) as Hk.
  destruct state_types as [Hn _ _].
  unfold init_gc_packet.
  rewrite (popcnt_terminates _ value_mask_u32). cbn [mbind option_bind].
  rewrite (u16_id (bit_count value_mask)) by (unfold is_u16; lia).
  rewrite (u16_id (4 + bit_count value_mask)) by (unfold is_u16; lia).
  rewrite new_packet_filled. change (4 + 32)%nat with 36%nat.
  rewrite store_next by reflexivity. cbn [mbind option_bind app].
  rewrite store_next by reflexivity. cbn [mbind option_bind app].
  cbn [after_init_gc set_graphics_context_id set_next_resource_id
       connection_reply_success_body screens graphics_context_id].
  rewrite Hroot. cbn [mbind option_bind].
  rewrite store_next by reflexivity. cbn [mbind option_bind app].
  rewrite store_next by reflexivity. cbn [mbind option_bind app].
  rewrite store_values_spec; [|lia|reflexivity|simpl; lia|lia].
  cbn [mbind option_bind]. do 3 f_equal.
  change (drop (Z.to_nat 0) value_list) with value_list. fold values.
  rewrite map_u32_id by (apply Forall_take_u32, value_list_u32).
  unfold create_gc_words. rewrite length_values.
  unfold X11_OPCODE_CREATE_GC.
  rewrite request_word0 by lia.
  rewrite !u32_id; auto. eapply rd32_range, Hroot.
Qed.

(** [init_gc] allocates the ID, builds the request and hands it to
    [fatal_write]. *)
Lemma init_gc_run root e w :
  root_id (connection_reply_success_body state) (screens state) 0
    = Some root ->
  init_gc state value_mask value_list e w
  = (fatal_write (socket_fd state)
       (bytes_of_words (create_gc_words (next_resource_id state) root
                                        value_mask values))
       (4 * (4 + bit_count value_mask)) ;;;
     ret (after_init_gc state)) e w.
Proof.
  intros Hroot. pose proof (bit_count_bounds value_mask) as Hk.
  unfold init_gc, generate_id. fold (after_init_gc state).
  rewrite (lift_some _ _ _ _ _ (init_gc_packet_spec _ Hroot)).
  rewrite (lift_some _ _ _ _ _ (packet_words_filled _ _ _ (length_gc_words _ _))).
  rewrite s32_id, size_t_of_id by lia.
  replace ((4 + bit_count value_mask) * 4)
    with (4 * (4 + bit_count value_mask)) by lia.
  reflexivity.
Qed.

Variables x y width height window_parent visual : Z.
Hypothesis x_u16 : is_u16 x.
Hypothesis y_u16 : is_u16 y.
Hypothesis width_u16 : is_u16 width.
Hypothesis height_u16 : is_u16 height.
Hypothesis window_parent_u32 : is_u32 window_parent.
Hypothesis visual_u32 : is_u32 visual.

Lemma length_window_words wid :
  8 + bit_count value_mask
  = Z.of_nat (length (create_window_words wid window_parent x y width
                        height visual value_mask values)).
Proof.
  unfold create_window_words.
  rewrite length_app, Nat2Z.inj_add, length_values. reflexivity.
Qed.

Lemma init_window_packet_spec :
  init_window_packet (after_init_window state) x y width height
                     window_parent visual value_mask value_list
  = Some (8 + bit_count value_mask,
          filled (create_window_words (next_resource_id state)
                    window_parent x y width height visual value_mask
                    values)
                 (32 - Z.to_nat (bit_count value_mask))).
Proof.
  pose proof (bit_count_bounds value_mask) as Hk.
  destruct state_types as [Hn _ _].
  unfold init_window_packet.
  rewrite (popcnt_terminates _ value_mask_u32). cbn [mbind option_bind].
  rewrite (u16_id (bit_count value_mask)) by (unfold is_u16; lia).
  rewrite (u16_id (8 + bit_count value_mask)) by (unfold is_u16; lia).
  rewrite new_packet_filled. change (8 + 32)%nat with 40%nat.
  do 8 (rewrite store_next by reflexivity; cbn [mbind option_bind app]).
  rewrite store_values_spec; [|lia|reflexivity|simpl; lia|lia].
  cbn [mbind option_bind]. do 3 f_equal.
  change (drop (Z.to_nat 0) value_list) with value_list. fold values.
  rewrite map_u32_id by (apply Forall_take_u32, value_list_u32).
  unfold create_window_words. rewrite length_values.
  unfold X11_OPCODE_CREATE_WINDOW.
  rewrite request_word0 by lia.
  rewrite !packed_halves by assumption.
  cbn [after_init_window set_window_id set_next_resource_id window_id].
  rewrite !u32_id; auto.
  change (is_u32 0). unfold is_u32. lia.
Qed.

(** [init_window] allocates the ID, builds the request and hands it to
    [fatal_write]. *)
Lemma init_window_run e w :
  init_window state x y width height window_parent visual value_mask
              value_list e w
  = (fatal_write (socket_fd state)
       (bytes_of_words (create_window_words (next_resource_id state)
                          window_parent x y width height visual value_mask
                          values))
       (4 * (8 + bit_count value_mask)) ;;;
     ret (after_init_window state)) e w.
Proof.
  pose proof (bit_count_bounds value_mask) as Hk.
  unfold init_window, generate_id. fold (after_init_window state).
  rewrite (lift_some _ _ _ _ _ init_window_packet_spec).
  rewrite (lift_some _ _ _ _ _
             (packet_words_filled _ _ _ (length_window_words _))).
  rewrite s32_id, size_t_of_id by lia.
  replace ((8 + bit_count value_mask) * 4)
    with (4 * (8 + bit_count value_mask)) by lia.
  reflexivity.
Qed.

Lemma map_window_packet_spec :
  map_window_packet state
  = Some (2, filled (map_window_words (window_id state)) 0).
Proof.
  destruct state_types as [_ _ Hw].
  unfold map_window_packet.
  rewrite new_packet_filled. change (Z.to_nat 2) with 2%nat.
  do 2 (rewrite store_next by reflexivity; cbn [mbind option_bind app]).
  rewrite (u32_id (window_id state)) by exact Hw. reflexivity.
Qed.

Lemma map_window_run e w :
  map_window state e w
  = (fatal_write (socket_fd state)
       (bytes_of_words (map_window_words (window_id state))) 8 ;;;
     ret state) e w.
Proof.
  unfold map_window.
  rewrite (lift_some _ _ _ _ _ map_window_packet_spec).
  rewrite (lift_some _ _ _ _ _
             (packet_words_filled (map_window_words (window_id state))
                                  0 2 eq_refl)).
  reflexivity.
Qed.

End Requests.

(** ** The handshake *)

Lemma quiet_ret {A} (a : A) : quiet (ret a).
Proof. intros e w. reflexivity. Qed.

Lemma quiet_lift {A} (o : option A) : quiet (lift o).
Proof. intros e w. destruct o; reflexivity. Qed.

Lemma quiet_FATAL_ERROR {A} msg : quiet (@FATAL_ERROR A msg).
Proof. intros e w. reflexivity. Qed.

Lemma quiet_bind {A B} (m : M A) (k : A -> M B) :
  quiet m -> (forall a, quiet (k a)) -> quiet (bind m k).
Proof.
  intros Hm Hk e w. unfold bind. specialize (Hm e w).
  destruct (m e w) as [w' [a| | |]]; cbn [fst] in *; [|assumption..].
  rewrite Hk. exact Hm.
Qed.

Lemma quiet_fatal_read fd count : quiet (fatal_read fd count).
Proof.
  intros e w. unfold fatal_read, bind, recvfrom.
  destruct (recv_ret e (recvs w) fd count) as [bs|]; cbn [fst snd];
    match goal with |- context [if ?c then _ else _] => destruct c end;
    reflexivity.
Qed.

Lemma quiet_x11_init_reply state : quiet (x11_init_reply state).
Proof.
  unfold x11_init_reply.
  apply quiet_bind; [apply quiet_fatal_read|intros hdr_bytes].
  apply quiet_bind; [apply quiet_lift|intros hdr].
  cbv zeta.
  match goal with |- context [if ?c then _ else _] => destruct c end;
    [apply quiet_FATAL_ERROR|].
  apply quiet_bind; [apply quiet_fatal_read|intros body].
  repeat (apply quiet_bind; [apply quiet_lift|intros ?]).
  apply quiet_ret.
Qed.

Lemma length_credential_read content :
  (length (credential_read content) <= 4096)%nat.
Proof. unfold credential_read. rewrite length_take. lia. Qed.

Lemma length_cookie_of content :
  (16 <= length (credential_read content))%nat ->
  length (cookie_of content) = 16%nat.
Proof. unfold cookie_of. rewrite length_drop. lia. Qed.

(** Up to the third write, [x11_init] is the handshake. *)
Lemma x11_init_handshake state e fd content :
  socket_ret e = fd -> 0 <= fd -> 0 <= connect_ret e ->
  xauthority e = Some content ->
  (16 <= length (credential_read content))%nat ->
  write_complete e 0 fd 12 ->
  write_complete e 1 fd 20 ->
  write_complete e 2 fd 16 ->
  x11_init state e world0
  = x11_init_reply (set_socket_fd fd state) e (handshaken fd content).
Proof.
  intros Hs Hfd Hc Hx Hlen W0 W1 W2.
  pose proof (length_credential_read content) as Hmax.
  unfold x11_init. fold (credential_read content).
  unfold bind at 1. unfold socket at 1. rewrite Hs.
  cbn [set_socket_fd socket_fd].
  replace (fd <? 0) with false by (symmetry; zbool).
  unfold bind at 1. unfold connect at 1.
  replace (connect_ret e <? 0) with false by (symmetry; zbool).
  unfold bind at 1. unfold fopen at 1. rewrite Hx.
  cbv zeta. fold (credential_read content).
  rewrite size_t_of_id by lia.
  replace (Z.of_nat (length (credential_read content)) <? 0) with false
    by (symmetry; zbool).
  rewrite (bind_done _ _ _ _ _ _
             (fatal_write_ok fd _ 12 e world0 ltac:(lia) W0)).
  rewrite (bind_done _ _ _ _ _ _
             (fatal_write_ok fd _ 20 e (wrote world0 fd _ 12)
                             ltac:(lia) W1)).
  assert (Hcookie :
    bytes_at (credential_read content)
             (Z.of_nat (length (credential_read content)) - 16) 16
    = Some (cookie_of content)).
  { unfold bytes_at.
    replace ((0 <=? Z.of_nat (length (credential_read content)) - 16)
             && (Z.of_nat (length (credential_read content)) - 16 + 16
                 <=? Z.of_nat (length (credential_read content))))
      with true by (symmetry; zbool).
    f_equal. unfold cookie_of.
    replace (Z.to_nat (Z.of_nat (length (credential_read content)) - 16))
      with (length (credential_read content) - 16)%nat by lia.
    apply firstn_all2. rewrite length_drop. lia. }
  rewrite (lift_some _ _ _ _ _ Hcookie).
  rewrite (bind_done _ _ _ _ _ _
             (fatal_write_ok fd _ 16 e (wrote (wrote world0 fd _ 12) fd _ 20)
                             ltac:(lia) W2)).
  unfold wrote, handshaken. cbn [writes recvs errs world0 app].
  rewrite (firstn_all2 (cookie_of content))
    by (rewrite length_cookie_of by exact Hlen; simpl; lia).
  reflexivity.
Qed.

(** C2, as amended.  When the read of the credential file yields at least 16
    bytes and the transport takes the three writes whole, the bootstrap puts
    exactly 48 bytes on the wire: the 12-byte connection request (order byte
    ['l'], a zero byte, major version 11, minor version 0, name length 18,
    data length 16, two zero bytes, the 16-bit fields little-endian), the 20
    bytes ["MIT-MAGIC-COOKIE-1"] and two null bytes, and the last 16 bytes of
    what was read.  It writes nothing else, whatever the server replies. *)
Theorem handshake_is_48_bytes state e fd content :
  socket_ret e = fd -> 0 <= fd -> 0 <= connect_ret e ->
  xauthority e = Some content ->
  (16 <= length (credential_read content))%nat ->
  write_complete e 0 fd 12 ->
  write_complete e 1 fd 20 ->
  write_complete e 2 fd 16 ->
  let w := fst (x11_init state e world0) in
  writes w = [(fd, request_header); (fd, auth_proto_name);
              (fd, cookie_of content)]
  /\ sent w = request_header ++ auth_proto_name ++ cookie_of content
  /\ length (sent w) = 48%nat
  /\ request_header
     = [byte_of_Z 108; Byte.x00] ++ le16 11 ++ le16 0 ++ le16 18 ++ le16 16
       ++ [Byte.x00; Byte.x00]
  /\ length request_header = 12%nat
  /\ auth_proto_name
     = String.list_byte_of_string "MIT-MAGIC-COOKIE-1" ++ [Byte.x00; Byte.x00]
  /\ length auth_proto_name = 20%nat
  /\ cookie_of content
     = drop (length (credential_read content) - 16) (credential_read content)
  /\ length (cookie_of content) = 16%nat.
Proof.
  intros Hs Hfd Hc Hx Hlen W0 W1 W2 w.
  assert (Hw : writes w = writes (handshaken fd content)).
  { subst w. rewrite (x11_init_handshake state e fd content) by assumption.
    apply quiet_x11_init_reply. }
  pose proof (length_cookie_of content Hlen) as Hck.
  assert (Hsent : sent w = request_header ++ auth_proto_name
                           ++ cookie_of content).
  { unfold sent. rewrite Hw. cbn [handshaken writes map snd concat].
    rewrite app_nil_r. reflexivity. }
  repeat split; try reflexivity; try assumption.
  rewrite Hsent, !length_app, Hck. reflexivity.
Qed.

Lemma handshake_is_48_bytes_witness :
  let w := fst (x11_init zero_state (example_server []) world0) in
  writes w = [(3, request_header); (3, auth_proto_name);
              (3, map byte_of_Z
                    [3; 4; 5; 6; 7; 8; 9; 10; 11; 12; 13; 14; 15; 16; 17; 18])]
  /\ length (sent w) = 48%nat.
Proof.
  pose proof (handshake_is_48_bytes zero_state (example_server []) 3
                example_cred eq_refl ltac:(lia) ltac:(simpl; lia) eq_refl
                ltac:(simpl; lia) eq_refl eq_refl eq_refl) as H.
  cbv zeta in *. destruct H as (Hw & _ & Hl & _). split.
  - rewrite Hw. reflexivity.
  - exact Hl.
Defined.

(** C2 as stated fails: with a 16-byte credential file the handshake is 48
    bytes long, not 44, because the connection request record is 12 bytes,
    not 8. *)
Lemma handshake_is_not_44_bytes :
  let w := fst (x11_init zero_state
                  (mock_server 3 (drop 2 example_cred) [] []) world0) in
  length (drop 2 example_cred) = 16%nat
  /\ length (sent w) = 48%nat
  /\ length (sent w) <> 44%nat
  /\ take 12 (sent w) = request_header
  /\ Z.of_nat (length request_header) = sizeof_connection_request_t.
Proof. vm_compute. repeat split; congruence. Qed.

(** ** Parsing the reply *)

Lemma rd8_inside m off v :
  rd8 m off = Some v -> 0 <= off < Z.of_nat (length m).
Proof.
  unfold rd8. destruct (off <? 0) eqn:E; [discriminate|].
  apply Z.ltb_ge in E.
  destruct (m !! Z.to_nat off) as [b|] eqn:Hb; [|discriminate].
  apply lookup_lt_Some in Hb. lia.
Qed.

Lemma rd8_is_Some m off :
  0 <= off < Z.of_nat (length m) -> is_Some (rd8 m off).
Proof.
  intros H. unfold rd8. replace (off <? 0) with false by (symmetry; zbool).
  destruct (lookup_lt_is_Some_2 m (Z.to_nat off) ltac:(lia)) as [b ->].
  eexists. reflexivity.
Qed.

Lemma rd16_is_Some m off :
  0 <= off -> off + 2 <= Z.of_nat (length m) -> is_Some (rd16 m off).
Proof.
  intros H0 H1. unfold rd16.
  destruct (rd8_is_Some m off ltac:(lia)) as [b0 ->].
  destruct (rd8_is_Some m (off + 1) ltac:(lia)) as [b1 ->].
  eexists. reflexivity.
Qed.

Lemma rd32_is_Some m off :
  0 <= off -> off + 4 <= Z.of_nat (length m) -> is_Some (rd32 m off).
Proof.
  intros H0 H1. unfold rd32.
  destruct (rd16_is_Some m off ltac:(lia) ltac:(lia)) as [lo ->].
  destruct (rd16_is_Some m (off + 2) ltac:(lia) ltac:(lia)) as [hi ->].
  eexists. reflexivity.
Qed.

Lemma rd16_inside m off v :
  rd16 m off = Some v -> 0 <= off /\ off + 2 <= Z.of_nat (length m).
Proof.
  unfold rd16.
  destruct (rd8 m off) as [b0|] eqn:E0; [|discriminate].
  destruct (rd8 m (off + 1)) as [b1|] eqn:E1; [|discriminate].
  apply rd8_inside in E0, E1. lia.
Qed.

Lemma header_len_range bs h :
  connection_reply_header_of_bytes bs = Some h -> is_u16 (len h).
Proof.
  unfold connection_reply_header_of_bytes.
  destruct (rd8 bs 0); [|discriminate].
  destruct (rd8 bs 1); [|discriminate].
  destruct (rd16 bs 2); [|discriminate].
  destruct (rd16 bs 4); [|discriminate].
  destruct (rd16 bs 6) as [l|] eqn:E; [|discriminate].
  intros [= <-]. cbn [len]. eapply rd16_range, E.
Qed.

Lemma x11_init_reply_run state e w hdr body h vl npf base :
  recv_ret e (recvs w) (socket_fd state) 8 = Some hdr ->
  length hdr = 8%nat ->
  connection_reply_header_of_bytes hdr = Some h ->
  success h <> 0 ->
  recv_ret e (S (recvs w)) (socket_fd state) (len h * 4) = Some body ->
  Z.of_nat (length body) = len h * 4 ->
  vendor_len body = Some vl ->
  num_pixmap_formats body = Some npf ->
  id_base body = Some base ->
  x11_init_reply state e w
  = (received (received w), Done (bootstrapped state h body vl npf base)).
Proof.
  intros Hh Hhl Hdec Hs Hb Hbl Hvl Hnpf Hbase.
  pose proof (header_len_range _ _ Hdec) as Hlen. unfold is_u16 in Hlen.
  unfold x11_init_reply.
  rewrite (bind_done _ _ _ _ _ _
             (fatal_read_ok _ 8 hdr e w ltac:(lia) Hh ltac:(lia))).
  rewrite (lift_some _ _ _ _ _ Hdec).
  cbn [set_connection_reply_header connection_reply_header socket_fd].
  replace (success h =? 0) with false by (symmetry; zbool).
  rewrite size_t_of_id by lia.
  rewrite (bind_done _ _ _ _ _ _
             (fatal_read_ok _ (len h * 4) body e (received w)
                            ltac:(lia) Hb Hbl)).
  cbn [set_connection_reply_success_body connection_reply_success_body].
  rewrite (lift_some _ _ _ _ _ Hvl).
  cbn [set_pixmap_formats connection_reply_success_body pixmap_formats].
  rewrite (lift_some _ _ _ _ _ Hnpf).
  cbn [set_screens connection_reply_success_body].
  rewrite (lift_some _ _ _ _ _ Hbase).
  reflexivity.
Qed.

(** The whole bootstrap against a server that answers with header [hdr] and
    body [body]. *)
Lemma x11_init_run state e fd cred hdr body h vl npf :
  served e fd cred hdr body ->
  (16 <= length (credential_read cred))%nat ->
  length hdr = 8%nat ->
  connection_reply_header_of_bytes hdr = Some h ->
  success h <> 0 ->
  len h * 4 = Z.of_nat (length body) ->
  vendor_len body = Some vl ->
  num_pixmap_formats body = Some npf ->
  exists base,
    id_base body = Some base
    /\ x11_init state e world0
       = (received (received (handshaken fd cred)),
          Done (bootstrapped (set_socket_fd fd state) h body vl npf base)).
Proof.
  intros [Hs Hfd Hc Hx Hw Hh Hb] Hcred Hhl Hdec Hsucc Hlen Hvl Hnpf.
  destruct (rd32_is_Some body off_id_base) as [base Hbase].
  { unfold off_id_base. lia. }
  { apply rd16_inside in Hvl. unfold off_vendor_len, off_id_base in *. lia. }
  exists base. split; [exact Hbase|].
  rewrite (x11_init_handshake state e fd cred) by (try apply Hw; assumption).
  apply x11_init_reply_run with (hdr := hdr); try assumption.
  - rewrite Hlen. exact Hb.
  - symmetry. exact Hlen.
Qed.

(** C3.  For every success body in which the vendor length reads [L], the
    pixel-format count [P] and the screen count [S], the bootstrap sets the
    pixel-format pointer [L] bytes past the 32-byte fixed prefix of the body
    and the screen pointer [P * 8] bytes past the pixel-format pointer. *)
Theorem reply_arrays_located state e fd cred hdr body h L P S :
  served e fd cred hdr body ->
  (16 <= length (credential_read cred))%nat ->
  length hdr = 8%nat ->
  connection_reply_header_of_bytes hdr = Some h ->
  success h <> 0 ->
  len h * 4 = Z.of_nat (length body) ->
  vendor_len body = Some L ->
  num_pixmap_formats body = Some P ->
  num_screens body = Some S ->
  exists w' state',
    x11_init state e world0 = (w', Done state')
    /\ connection_reply_success_body state' = body
    /\ pixmap_formats state' = 32 + L
    /\ screens state' = pixmap_formats state' + P * 8
    /\ 0 <= L /\ 0 <= P /\ 0 <= S.
Proof.
  intros Hsrv Hcred Hhl Hdec Hsucc Hlen HL HP HS.
  destruct (x11_init_run state e fd cred hdr body h L P
              Hsrv Hcred Hhl Hdec Hsucc Hlen HL HP) as (base & _ & Hrun).
  eexists _, _. split; [exact Hrun|].
  apply rd16_range in HL. apply rd8_range in HP, HS. unfold is_u16 in HL.
  cbn [bootstrapped connection_reply_success_body pixmap_formats screens].
  unfold off_vendor_string, sizeof_pixmap_format_t.
  repeat split; lia.
Qed.

Lemma mock_server_served fd cred hdr body :
  0 <= fd -> served (mock_server fd cred hdr body) fd cred hdr body.
Proof.
  intros Hfd. split; try reflexivity; try assumption; simpl; lia.
Qed.

Lemma reply_arrays_located_witness :
  let vendor := map byte_of_Z [88; 46; 79; 114; 103] in
  let format := {| Wire.pf_depth := 24; Wire.bpp := 32;
                   Wire.pf_scanline_pad := 32 |} in
  let body := Wire.success_body example_setup vendor [format; format]
                                [example_screen] [] in
  let hdr := Wire.header_bytes 1 11 0 24 in
  exists w' state',
    x11_init zero_state (mock_server 3 example_cred hdr body) world0
    = (w', Done state')
    /\ pixmap_formats state' = 32 + 5
    /\ screens state' = 32 + 5 + 2 * 8.
Proof.
  intros vendor format body hdr.
  destruct (reply_arrays_located zero_state
              (mock_server 3 example_cred hdr body) 3 example_cred hdr body
              {| success := 1; pad := 0; major_version := 11;
                 minor_version := 0; len := 24 |}
              5 2 1
              (mock_server_served 3 example_cred hdr body ltac:(lia))
              ltac:(simpl; lia) eq_refl eq_refl ltac:(cbn [success]; lia)
              eq_refl eq_refl eq_refl eq_refl)
    as (w' & state' & Hrun & _ & Hpf & Hscr & _).
  exists w', state'. split; [exact Hrun|]. split; [exact Hpf|].
  rewrite Hscr, Hpf. reflexivity.
Defined.

(** ** Sending the requests *)

Lemma send_request fd ws n (state : state_t) e w :
  n = Z.of_nat (length ws) -> n < 2 ^ 32 ->
  write_complete e (length (writes w)) fd (4 * n) ->
  (fatal_write fd (bytes_of_words ws) (4 * n) ;;; ret state) e w
  = (sent_more w fd (bytes_of_words ws), Done state).
Proof.
  intros Hn Hlt Hw.
  rewrite (bind_done _ _ _ _ _ _
             (fatal_write_ok fd _ (4 * n) e w ltac:(lia) Hw)).
  unfold ret, wrote, sent_more. rewrite firstn_all2; [reflexivity|].
  rewrite length_bytes_of_words. lia.
Qed.

(** The opcode and the length can be read back from the first word. *)
Lemma request_word0_fields opcode n :
  0 <= opcode < 2 ^ 8 -> 0 <= n ->
  Z.land (Z.lor opcode (Z.shiftl n 16)) 255 = opcode
  /\ Z.shiftr (Z.lor opcode (Z.shiftl n 16)) 16 = n.
Proof.
  intros Ho Hn. split.
  - change 255 with (Z.ones 8).
    rewrite Z.land_lor_distr_l, !Z.land_ones by lia.
    rewrite Z.shiftl_mul_pow2 by lia.
    change (2 ^ 16) with (2 ^ 8 * 2 ^ 8).
    rewrite Z.mul_assoc, Z.mod_mul by lia.
    rewrite Z.lor_0_r. apply Z.mod_small. lia.
  - rewrite Z.shiftr_lor, Z.shiftr_shiftl_l by lia.
    rewrite Z.sub_diag, Z.shiftl_0_r.
    rewrite Z.shiftr_div_pow2 by lia.
    rewrite Z.div_small by lia. apply Z.lor_0_l.
Qed.

(** C4.  For every 32-bit mask and every list of as many 32-bit values as
    the mask has bits, [init_gc] makes one write of [(4 + popcount) * 4]
    bytes.  Read as little-endian words they are: opcode 16 with the length
    [4 + popcount] in the high 16 bits, the graphics-context ID just
    allocated, the root window of the first screen, the mask, and the values
    in order. *)
Theorem create_gc_request state value_mask value_list root e w :
  state_ok state ->
  is_u32 value_mask ->
  Forall is_u32 value_list ->
  Z.of_nat (length value_list) = bit_count value_mask ->
  root_id (connection_reply_success_body state) (screens state) 0
    = Some root ->
  write_complete e (length (writes w)) (socket_fd state)
                 (4 * (4 + bit_count value_mask)) ->
  exists bs,
    init_gc state value_mask value_list e w
    = (sent_more w (socket_fd state) bs, Done (after_init_gc state))
    /\ Z.of_nat (length bs) = (4 + bit_count value_mask) * 4
    /\ graphics_context_id (after_init_gc state) = next_resource_id state
    /\ words_of_bytes bs
       = [Z.lor 16 (Z.shiftl (4 + bit_count value_mask) 16);
          graphics_context_id (after_init_gc state); root; value_mask]
         ++ value_list
    /\ Z.land (Z.lor 16 (Z.shiftl (4 + bit_count value_mask) 16)) 255 = 16
    /\ Z.shiftr (Z.lor 16 (Z.shiftl (4 + bit_count value_mask) 16)) 16
       = 4 + bit_count value_mask.
Proof.
  intros Hst HM Hvl Hlen Hroot Hw.
  pose proof (bit_count_bounds value_mask) as Hk.
  assert (Htake : take (Z.to_nat (bit_count value_mask)) value_list
                  = value_list) by (apply firstn_all2; lia).
  pose proof (init_gc_run state Hst value_mask HM value_list Hvl
                ltac:(lia) root e w Hroot) as Hrun.
  rewrite Htake in Hrun.
  rewrite send_request in Hrun;
    [|unfold create_gc_words; rewrite length_app, Nat2Z.inj_add;
      simpl length; lia|lia|exact Hw].
  eexists. split; [exact Hrun|]. split.
  { rewrite length_bytes_of_words. unfold create_gc_words.
    rewrite length_app. simpl length. lia. }
  split; [reflexivity|]. split.
  - rewrite words_of_bytes_of_words.
    { unfold create_gc_words. rewrite Hlen. reflexivity. }
    destruct Hst as [Hn _ _].
    unfold create_gc_words. apply Forall_app. split; [|exact Hvl].
    apply List.Forall_forall. intros v Hv. cbn [In] in Hv.
    destruct Hv as [<-|[<-|[<-|[<-|[]]]]]; try assumption.
    + rewrite Hlen.
      rewrite <- (request_word0 16 (4 + bit_count value_mask)) by lia.
      apply u32_range.
    + eapply rd32_range, Hroot.
  - apply request_word0_fields; lia.
Qed.

(** The case the driver uses: the mask is bit 16 and the value list is [0];
    20 bytes are sent and word 4 is 0. *)
Lemma create_gc_request_witness :
  exists bs state',
    init_gc example_state X11_GC_GRAPHICS_EXPOSURES [0]
            (example_server []) (handshaken 3 example_cred)
    = (sent_more (handshaken 3 example_cred) 3 bs, Done state')
    /\ length bs = 20%nat
    /\ words_of_bytes bs = [0x00050010; 0x400000; 100; 0x10000; 0].
Proof.
  destruct (create_gc_request example_state X11_GC_GRAPHICS_EXPOSURES [0]
              100 (example_server []) (handshaken 3 example_cred))
    as (bs & Hrun & Hlen & Hgc & Hws & _).
  - split; vm_compute; split; congruence.
  - vm_compute. split; congruence.
  - apply List.Forall_cons; [|apply List.Forall_nil].
    vm_compute. split; congruence.
  - reflexivity.
  - reflexivity.
  - reflexivity.
  - exists bs, (after_init_gc example_state). split; [exact Hrun|]. split.
    + apply Nat2Z.inj. rewrite Hlen. reflexivity.
    + rewrite Hws. reflexivity.
Defined.

Lemma packed_halves_u32 lo hi :
  is_u16 lo -> is_u16 hi -> is_u32 (Z.lor lo (Z.shiftl hi 16)).
Proof.
  intros Hlo Hhi. rewrite <- (packed_halves lo hi) by assumption.
  apply u32_range.
Qed.

(** C5.  For 16-bit [x], [y], [width], [height], a 32-bit parent, visual and
    mask, and a list of as many 32-bit values as the mask has bits,
    [init_window] makes one write of [(8 + popcount) * 4] bytes.  Read as
    little-endian words they are: opcode 1 with the length [8 + popcount] in
    the high 16 bits, the window ID just allocated, the parent,
    [x | y << 16], [width | height << 16], 0 for the default border and
    group, the visual, the mask, and the values in the order given. *)
Theorem create_window_request state x y width height window_parent visual
  value_mask value_list e w :
  state_ok state ->
  is_u16 x -> is_u16 y -> is_u16 width -> is_u16 height ->
  is_u32 window_parent -> is_u32 visual ->
  is_u32 value_mask ->
  Forall is_u32 value_list ->
  Z.of_nat (length value_list) = bit_count value_mask ->
  write_complete e (length (writes w)) (socket_fd state)
                 (4 * (8 + bit_count value_mask)) ->
  exists bs,
    init_window state x y width height window_parent visual value_mask
                value_list e w
    = (sent_more w (socket_fd state) bs, Done (after_init_window state))
    /\ Z.of_nat (length bs) = (8 + bit_count value_mask) * 4
    /\ window_id (after_init_window state) = next_resource_id state
    /\ words_of_bytes bs
       = [Z.lor 1 (Z.shiftl (8 + bit_count value_mask) 16);
          window_id (after_init_window state); window_parent;
          Z.lor x (Z.shiftl y 16); Z.lor width (Z.shiftl height 16);
          0; visual; value_mask]
         ++ value_list
    /\ Z.land (Z.lor 1 (Z.shiftl (8 + bit_count value_mask) 16)) 255 = 1
    /\ Z.shiftr (Z.lor 1 (Z.shiftl (8 + bit_count value_mask) 16)) 16
       = 8 + bit_count value_mask.
Proof.
  intros Hst Hx Hy Hwd Hht Hp Hv HM Hvl Hlen Hw.
  pose proof (bit_count_bounds value_mask) as Hk.
  assert (Htake : take (Z.to_nat (bit_count value_mask)) value_list
                  = value_list) by (apply firstn_all2; lia).
  pose proof (init_window_run state Hst value_mask HM value_list Hvl
                ltac:(lia) x y width height window_parent visual
                Hx Hy Hwd Hht Hp Hv e w) as Hrun.
  rewrite Htake in Hrun.
  rewrite send_request in Hrun;
    [|unfold create_window_words; rewrite length_app, Nat2Z.inj_add;
      simpl length; lia|lia|exact Hw].
  eexists. split; [exact Hrun|]. split.
  { rewrite length_bytes_of_words. unfold create_window_words.
    rewrite length_app. simpl length. lia. }
  split; [reflexivity|]. split.
  - rewrite words_of_bytes_of_words.
    { unfold create_window_words. rewrite Hlen. reflexivity. }
    destruct Hst as [Hn _ _].
    unfold create_window_words. apply Forall_app. split; [|exact Hvl].
    apply List.Forall_forall. intros v Hin. cbn [In] in Hin.
    destruct Hin as [<-|[<-|[<-|[<-|[<-|[<-|[<-|[<-|[]]]]]]]]];
      try assumption; try (apply packed_halves_u32; assumption).
    + rewrite Hlen.
      rewrite <- (request_word0 1 (8 + bit_count value_mask)) by lia.
      apply u32_range.
    + unfold is_u32. lia.
  - apply request_word0_fields; lia.
Qed.

(** The case the driver uses: position (0,0), size 320x240, the mask is bit 1
    and the value list is [0xFF00FF]; 36 bytes are sent and word 4 is
    [0x00F00140]. *)
Lemma create_window_request_witness :
  exists bs state',
    init_window example_state 0 0 320 240 100 200 X11_CW_BACK_PIXEL
                [0xFF00FF] (example_server []) (handshaken 3 example_cred)
    = (sent_more (handshaken 3 example_cred) 3 bs, Done state')
    /\ length bs = 36%nat
    /\ words_of_bytes bs
       = [0x00090001; 0x400000; 100; 0; 0x00F00140; 0; 200; 2; 0xFF00FF].
Proof.
  destruct (create_window_request example_state 0 0 320 240 100 200
              X11_CW_BACK_PIXEL [0xFF00FF]
              (example_server []) (handshaken 3 example_cred))
    as (bs & Hrun & Hlen & Hid & Hws & _).
  - split; vm_compute; split; congruence.
  - vm_compute. split; congruence.
  - vm_compute. split; congruence.
  - vm_compute. split; congruence.
  - vm_compute. split; congruence.
  - vm_compute. split; congruence.
  - vm_compute. split; congruence.
  - vm_compute. split; congruence.
  - apply List.Forall_cons; [|apply List.Forall_nil].
    vm_compute. split; congruence.
  - reflexivity.
  - reflexivity.
  - exists bs, (after_init_window example_state).
    split; [exact Hrun|]. split.
    + apply Nat2Z.inj. rewrite Hlen. reflexivity.
    + rewrite Hws. reflexivity.
Defined.

(** C6.  For every session state whose window ID is [W], [map_window] makes
    one write of exactly 8 bytes: the word [0x00020008] (opcode 8, length 2
    in the high 16 bits) and the word [W]. *)
Theorem map_window_request state e w :
  state_ok state ->
  write_complete e (length (writes w)) (socket_fd state) 8 ->
  exists bs,
    map_window state e w = (sent_more w (socket_fd state) bs, Done state)
    /\ length bs = 8%nat
    /\ words_of_bytes bs = [0x00020008; window_id state]
    /\ Z.land 0x00020008 255 = X11_OPCODE_MAP_WINDOW
    /\ Z.shiftr 0x00020008 16 = 2.
Proof.
  intros Hst Hw.
  pose proof (map_window_run state Hst e w) as Hrun.
  rewrite (send_request _ _ 2) in Hrun; [|reflexivity|lia|exact Hw].
  eexists. split; [exact Hrun|]. split; [reflexivity|].
  split; [|split; reflexivity].
  apply words_of_bytes_of_words. destruct Hst as [_ _ Hwid].
  unfold map_window_words.
  apply List.Forall_cons; [unfold is_u32; lia|].
  apply List.Forall_cons; [exact Hwid|apply List.Forall_nil].
Qed.

Lemma map_window_request_witness :
  exists bs,
    map_window (after_init_window (after_init_gc example_state))
               (example_server []) (handshaken 3 example_cred)
    = (sent_more (handshaken 3 example_cred) 3 bs,
       Done (after_init_window (after_init_gc example_state)))
    /\ length bs = 8%nat
    /\ words_of_bytes bs = [0x00020008; 0x400001].
Proof.
  destruct (map_window_request
              (after_init_window (after_init_gc example_state))
              (example_server []) (handshaken 3 example_cred))
    as (bs & Hrun & Hlen & Hws & _).
  - split; vm_compute; split; congruence.
  - reflexivity.
  - exists bs. split; [exact Hrun|]. split; [exact Hlen|].
    rewrite Hws. reflexivity.
Defined.

(** ** The allocator *)

Lemma u32_add_l a b : u32 (u32 a + b) = u32 (a + b).
Proof. unfold u32. apply Zplus_mod_idemp_l. Qed.

Lemma generate_ids_spec n : forall state,
  is_u32 (next_resource_id state) ->
  fst (generate_ids n state)
  = map (fun i => u32 (next_resource_id state + Z.of_nat i)) (seq 0 n)
  /\ next_resource_id (snd (generate_ids n state))
     = u32 (next_resource_id state + Z.of_nat n).
Proof.
  induction n as [|n IH]; intros state Hb.
  - cbn [generate_ids fst snd seq map]. split; [reflexivity|].
    rewrite Z.add_0_r, u32_id; auto.
  - cbn [generate_ids]. unfold generate_id.
    specialize (IH (set_next_resource_id (u32 (next_resource_id state + 1))
                                         state) (u32_range _)).
    destruct (generate_ids n _) as [ids state'].
    cbn [fst snd set_next_resource_id next_resource_id] in *.
    destruct IH as [-> ->]. split.
    + rewrite <- cons_seq, <- seq_shift. cbn [map].
      rewrite Z.add_0_r, (u32_id (next_resource_id state)) by exact Hb.
      f_equal.
      rewrite map_map. apply map_ext. intros i.
      rewrite u32_add_l. f_equal. lia.
    + rewrite u32_add_l. f_equal. lia.
Qed.

Lemma u32_add_inj b i j :
  0 <= i < 2 ^ 32 -> 0 <= j < 2 ^ 32 -> u32 (b + i) = u32 (b + j) -> i = j.
Proof.
  unfold u32. intros Hi Hj H.
  change (2 ^ 32) with 4294967296 in *.
  Z.div_mod_to_equations. lia.
Qed.

(** C7, as amended.  Seeded with a 32-bit value [B], [N] consecutive calls
    of the allocator return [B], [B+1], ..., [B+N-1] reduced modulo 2^32, in
    that order: exactly [B], ..., [B+N-1] when [B + N <= 2^32], and without a
    repeated value when [N <= 2^32].  Each call returns the current value of
    the counter and then adds one to it modulo 2^32. *)
Theorem generate_id_sequence state N :
  is_u32 (next_resource_id state) ->
  let B := next_resource_id state in
  generate_id state = (B, set_next_resource_id (u32 (B + 1)) state)
  /\ fst (generate_ids N state)
     = map (fun i => u32 (B + Z.of_nat i)) (seq 0 N)
  /\ next_resource_id (snd (generate_ids N state)) = u32 (B + Z.of_nat N)
  /\ (Z.of_nat N <= 2 ^ 32 -> NoDup (fst (generate_ids N state)))
  /\ (B + Z.of_nat N <= 2 ^ 32 ->
      fst (generate_ids N state) = map (fun i => B + Z.of_nat i) (seq 0 N)).
Proof.
  intros Hb B.
  destruct (generate_ids_spec N state Hb) as [Hids Hnext]. fold B in Hids, Hnext.
  split; [reflexivity|]. split; [exact Hids|]. split; [exact Hnext|].
  split.
  - intros HN. rewrite Hids.
    apply (NoDup_fmap_2_strong (fun i => u32 (B + Z.of_nat i)));
      [|apply NoDup_seq].
    intros i j Hi Hj Heq.
    apply elem_of_seq in Hi, Hj.
    apply u32_add_inj in Heq; lia.
  - intros HN. rewrite Hids. apply map_ext_in. intros i Hi.
    apply in_seq in Hi. apply u32_id. unfold is_u32 in *. lia.
Qed.

Lemma generate_id_sequence_witness :
  fst (generate_ids 3 example_state) = [0x400000; 0x400001; 0x400002]
  /\ NoDup (fst (generate_ids 3 example_state)).
Proof.
  destruct (generate_id_sequence example_state 3) as (_ & _ & _ & Hnd & Hids).
  - vm_compute. split; congruence.
  - split.
    + rewrite Hids by (vm_compute; congruence). reflexivity.
    + apply Hnd. vm_compute. congruence.
Defined.

Lemma generate_ids_lookup n (i : nat) :
  (i < n)%nat ->
  fst (generate_ids n zero_state) !! i = Some (u32 (Z.of_nat i)).
Proof.
  intros Hi.
  assert (Hb : is_u32 (next_resource_id zero_state))
    by (unfold is_u32; cbn [zero_state next_resource_id]; lia).
  rewrite (proj1 (generate_ids_spec n zero_state Hb)).
  rewrite list_lookup_fmap, lookup_seq_lt by exact Hi.
  reflexivity.
Qed.

(** C7 as stated fails.  The counter is a [uint32_t]: seeded with [2^32 - 1]
    the second call returns 0, which is [B + 1] only modulo [2^32]; and
    seeded with 0, the call after [2^32] calls returns 0 again, the value the
    first call returned, so the values of [2^32 + 1] consecutive calls are
    not pairwise distinct. *)
Lemma generate_id_wraps_and_repeats :
  fst (generate_ids 2 (set_next_resource_id 4294967295 zero_state))
  = [4294967295; 0]
  /\ fst (generate_ids (Z.to_nat 4294967297) zero_state) !! Z.to_nat 0
     = Some 0
  /\ fst (generate_ids (Z.to_nat 4294967297) zero_state)
       !! Z.to_nat 4294967296 = Some 0
  /\ ~ NoDup (fst (generate_ids (Z.to_nat 4294967297) zero_state)).
Proof.
  assert (H0 : fst (generate_ids (Z.to_nat 4294967297) zero_state)
                 !! Z.to_nat 0 = Some 0).
  { rewrite generate_ids_lookup by (apply Z2Nat.inj_lt; lia).
    rewrite Z2Nat.id by lia. exact eq_refl. }
  assert (H1 : fst (generate_ids (Z.to_nat 4294967297) zero_state)
                 !! Z.to_nat 4294967296 = Some 0).
  { rewrite generate_ids_lookup by (apply Z2Nat.inj_lt; lia).
    rewrite Z2Nat.id by lia. exact eq_refl. }
  split; [reflexivity|]. split; [exact H0|]. split; [exact H1|].
  intros Hnd. pose proof (NoDup_lookup _ _ _ _ Hnd H0 H1) as Heq.
  apply Z2Nat.inj in Heq; lia.
Qed.

(** ** Short transfers *)

(** A result in [ssize_t] that differs from the count still differs after
    the conversion to [size_t]. *)
Lemma size_t_of_mismatch r count :
  0 <= count < 2 ^ 63 -> - 2 ^ 63 <= r < 2 ^ 63 -> r <> count ->
  size_t_of r <> count.
Proof.
  unfold size_t_of. intros Hc Hr Hne.
  change (2 ^ 63) with 9223372036854775808 in *.
  change (2 ^ 64) with 18446744073709551616.
  Z.div_mod_to_equations. lia.
Qed.




(** The driver against that transport stops at its first write. *)
Example main_on_short_transport :
  main short_transport world0
  = ({| writes := [(3, take 11 request_header)]; recvs := 0;
        errs := ["Failed to write."%string] |},
     Exited (-1)).
Proof. reflexivity. Qed.

(** ** Bounds of the scratch buffers *)

(** C9.  The count [popcnt] computes for a 32-bit mask is its number of set
    bits, at most 32.  So, given at least that many values, every store of
    [init_gc] falls inside its 36-word buffer and assigns exactly the words
    [0 .. 4 + popcount - 1], and every store of [init_window] falls inside
    its 40-word buffer and assigns exactly the words
    [0 .. 8 + popcount - 1]. *)
Theorem scratch_buffers_in_bounds state value_mask value_list root
  x y width height window_parent visual :
  state_ok state ->
  is_u32 value_mask ->
  Forall is_u32 value_list ->
  bit_count value_mask <= Z.of_nat (length value_list) ->
  root_id (connection_reply_success_body state) (screens state) 0
    = Some root ->
  is_u16 x -> is_u16 y -> is_u16 width -> is_u16 height ->
  is_u32 window_parent -> is_u32 visual ->
  popcnt value_mask = Some (bit_count value_mask)
  /\ 0 <= bit_count value_mask <= 32
  /\ (exists packet,
        init_gc_packet (after_init_gc state) value_mask value_list
        = Some (4 + bit_count value_mask, packet)
        /\ length packet = 36%nat
        /\ 4 + bit_count value_mask <= 36
        /\ forall i : nat,
             (exists v, packet !! i = Some (Some v))
             <-> Z.of_nat i < 4 + bit_count value_mask)
  /\ (exists packet,
        init_window_packet (after_init_window state) x y width height
                           window_parent visual value_mask value_list
        = Some (8 + bit_count value_mask, packet)
        /\ length packet = 40%nat
        /\ 8 + bit_count value_mask <= 40
        /\ forall i : nat,
             (exists v, packet !! i = Some (Some v))
             <-> Z.of_nat i < 8 + bit_count value_mask).
Proof.
  intros Hst HM Hvl Hlen Hroot Hx Hy Hwd Hht Hp Hv.
  pose proof (bit_count_bounds value_mask) as Hk.
  split; [apply popcnt_terminates, HM|]. split; [exact Hk|]. split.
  - eexists. split.
    { apply (init_gc_packet_spec state Hst value_mask HM value_list Hvl Hlen
               root Hroot). }
    pose proof (length_gc_words value_mask value_list Hlen
                  (next_resource_id state) root) as Hl.
    split; [rewrite length_filled; lia|]. split; [lia|].
    intros i. rewrite filled_assigned. lia.
  - eexists. split.
    { apply (init_window_packet_spec state Hst value_mask HM value_list Hvl
               Hlen x y width height window_parent visual
               Hx Hy Hwd Hht Hp Hv). }
    pose proof (length_window_words value_mask value_list Hlen
                  x y width height window_parent visual
                  (next_resource_id state)) as Hl.
    split; [rewrite length_filled; lia|]. split; [lia|].
    intros i. rewrite filled_assigned. lia.
Qed.

(** With all 32 bits of the mask set, both buffers are filled to their last
    word and no further. *)
Lemma scratch_buffers_in_bounds_witness :
  popcnt 0xFFFFFFFF = Some 32
  /\ (exists packet,
        init_gc_packet (after_init_gc example_state) 0xFFFFFFFF
                       (map Z.of_nat (seq 0 32))
        = Some (36, packet)
        /\ length packet = 36%nat)
  /\ (exists packet,
        init_window_packet (after_init_window example_state) 0 0 320 240
                           100 200 0xFFFFFFFF (map Z.of_nat (seq 0 32))
        = Some (40, packet)
        /\ length packet = 40%nat).
Proof.
  destruct (scratch_buffers_in_bounds example_state 0xFFFFFFFF
              (map Z.of_nat (seq 0 32)) 100 0 0 320 240 100 200)
    as (Hpop & _ & (p1 & Hp1 & Hl1 & _) & (p2 & Hp2 & Hl2 & _)).
  - split; vm_compute; split; congruence.
  - vm_compute. split; congruence.
  - apply List.Forall_forall. intros v Hin.
    apply in_map_iff in Hin. destruct Hin as (n & <- & Hn).
    apply in_seq in Hn. unfold is_u32. lia.
  - vm_compute. congruence.
  - reflexivity.
  - vm_compute. split; congruence.
  - vm_compute. split; congruence.
  - vm_compute. split; congruence.
  - vm_compute. split; congruence.
  - vm_compute. split; congruence.
  - vm_compute. split; congruence.
  - split; [exact Hpop|]. split; eexists; split; eassumption.
Defined.

(** One value too few and the copying loop reads past the value list; one
    word past the end and a store has no defined result. *)
Example value_list_too_short :
  init_gc_packet (after_init_gc example_state) 3 [7] = None
  /\ store (new_packet 36) 36 0 = None.
Proof. split; reflexivity. Qed.

(** ** What the requests leave unchanged *)

Lemma fatal_write_done {A} fd buf count (a : A) e w w' st :
  (fatal_write fd buf count ;;; ret a) e w = (w', Done st) -> st = a.
Proof.
  unfold fatal_write, bind, write, ret.
  destruct (write_ret _ _ _ _) as [r|]; [|discriminate].
  destruct (negb _); cbn; [discriminate|]. intros [= _ <-]. reflexivity.
Qed.

Lemma init_gc_done state value_mask value_list e w state' :
  snd (init_gc state value_mask value_list e w) = Done state' ->
  state' = after_init_gc state.
Proof.
  unfold init_gc, generate_id. fold (after_init_gc state).
  unfold bind at 1. unfold lift at 1.
  destruct (init_gc_packet _ _ _) as [[len packet]|]; [|discriminate].
  unfold bind at 1. unfold lift at 1.
  destruct (packet_words _ _) as [ws|]; [|discriminate].
  destruct (bind _ _ e w) as [w' out] eqn:E. cbn [snd]. intros ->.
  eapply fatal_write_done, E.
Qed.

Lemma init_window_done state x y width height window_parent visual
  value_mask value_list e w state' :
  snd (init_window state x y width height window_parent visual value_mask
                   value_list e w) = Done state' ->
  state' = after_init_window state.
Proof.
  unfold init_window, generate_id. fold (after_init_window state).
  unfold bind at 1. unfold lift at 1.
  destruct (init_window_packet _ _ _ _ _ _ _ _ _) as [[len packet]|];
    [|discriminate].
  unfold bind at 1. unfold lift at 1.
  destruct (packet_words _ _) as [ws|]; [|discriminate].
  destruct (bind _ _ e w) as [w' out] eqn:E. cbn [snd]. intros ->.
  eapply fatal_write_done, E.
Qed.

Lemma map_window_done state e w state' :
  snd (map_window state e w) = Done state' -> state' = state.
Proof.
  unfold map_window.
  unfold bind at 1. unfold lift at 1.
  destruct (map_window_packet _) as [[len packet]|]; [|discriminate].
  unfold bind at 1. unfold lift at 1.
  destruct (packet_words _ _) as [ws|]; [|discriminate].
  destruct (bind _ _ e w) as [w' out] eqn:E. cbn [snd]. intros ->.
  eapply fatal_write_done, E.
Qed.

(** C10.  Whenever it returns, [init_gc] has changed only the
    graphics-context ID and the next resource ID, [init_window] only the
    window ID and the next resource ID, and [map_window] nothing.  The next
    resource ID goes up by one modulo [2^32]: by exactly one below
    [2^32 - 1], and from [2^32 - 1] to 0.  The descriptor, the reply header,
    the reply body and the two views into it are as before. *)
Theorem requests_frame state e w :
  (forall value_mask value_list state',
     snd (init_gc state value_mask value_list e w) = Done state' ->
     same_connection state state'
     /\ window_id state' = window_id state
     /\ graphics_context_id state' = next_resource_id state
     /\ next_resource_id state' = u32 (next_resource_id state + 1))
  /\ (forall x y width height window_parent visual value_mask value_list
             state',
        snd (init_window state x y width height window_parent visual
                         value_mask value_list e w) = Done state' ->
        same_connection state state'
        /\ graphics_context_id state' = graphics_context_id state
        /\ window_id state' = next_resource_id state
        /\ next_resource_id state' = u32 (next_resource_id state + 1))
  /\ (forall state', snd (map_window state e w) = Done state' ->
                     state' = state)
  /\ (0 <= next_resource_id state < 2 ^ 32 - 1 ->
      u32 (next_resource_id state + 1) = next_resource_id state + 1)
  /\ (next_resource_id state = 2 ^ 32 - 1 ->
      u32 (next_resource_id state + 1) = 0).
Proof.
  split; [|split; [|split; [|split]]].
  - intros value_mask value_list state' H.
    apply init_gc_done in H. subst state'.
    split; [split; reflexivity|]. repeat split.
  - intros x y width height window_parent visual value_mask value_list
           state' H.
    apply init_window_done in H. subst state'.
    split; [split; reflexivity|]. repeat split.
  - intros state'. apply map_window_done.
  - intros H. apply u32_id. unfold is_u32. lia.
  - intros ->. reflexivity.
Qed.

Lemma requests_frame_witness :
  let e := example_server [] in
  let w := handshaken 3 example_cred in
  let state1 := after_init_gc example_state in
  let state2 := after_init_window state1 in
  let last := set_next_resource_id 0xFFFFFFFF example_state in
  snd (init_gc example_state X11_GC_GRAPHICS_EXPOSURES [0] e w) = Done state1
  /\ same_connection example_state state1
  /\ next_resource_id state1 = next_resource_id example_state + 1
  /\ snd (init_window state1 0 0 320 240 100 200 X11_CW_BACK_PIXEL
                      [0xFF00FF] e w) = Done state2
  /\ same_connection state1 state2
  /\ next_resource_id state2 = next_resource_id state1 + 1
  /\ snd (map_window state2 e w) = Done state2
  /\ snd (init_gc last X11_GC_GRAPHICS_EXPOSURES [0] e w)
     = Done (after_init_gc last)
  /\ next_resource_id (after_init_gc last) = 0.
Proof.
  intros e w state1 state2 last.
  assert (H1 : snd (init_gc example_state X11_GC_GRAPHICS_EXPOSURES [0] e w)
               = Done state1) by reflexivity.
  assert (H2 : snd (init_window state1 0 0 320 240 100 200 X11_CW_BACK_PIXEL
                                [0xFF00FF] e w) = Done state2)
    by reflexivity.
  assert (H3 : snd (map_window state2 e w) = Done state2) by reflexivity.
  assert (H4 : snd (init_gc last X11_GC_GRAPHICS_EXPOSURES [0] e w)
               = Done (after_init_gc last)) by reflexivity.
  destruct (requests_frame example_state e w) as (Hgc & _ & _ & Hinc1 & _).
  destruct (requests_frame state1 e w) as (_ & Hwin & _ & Hinc2 & _).
  destruct (requests_frame last e w) as (Hgc' & _ & _ & _ & Hwrap).
  destruct (Hgc _ _ _ H1) as (Hs1 & _ & _ & Hn1).
  destruct (Hwin _ _ _ _ _ _ _ _ _ H2) as (Hs2 & _ & _ & Hn2).
  destruct (Hgc' _ _ _ H4) as (_ & _ & _ & Hn4).
  split; [exact H1|]. split; [exact Hs1|]. split.
  { rewrite Hn1. apply Hinc1. vm_compute. split; congruence. }
  split; [exact H2|]. split; [exact Hs2|]. split.
  { rewrite Hn2. apply Hinc2. vm_compute. split; congruence. }
  split; [exact H3|]. split; [exact H4|].
  rewrite Hn4. apply Hwrap. reflexivity.
Defined.

(** C10 as stated fails on a session whose next resource ID is [2^32 - 1],
    the largest value of the field: [init_gc] and [init_window] both return
    with the field at 0, which is not the old value plus one. *)
Lemma requests_frame_counter_wraps :
  let state := set_next_resource_id 0xFFFFFFFF example_state in
  let e := example_server [] in
  let w := handshaken 3 example_cred in
  exists state1 state2,
    snd (init_gc state X11_GC_GRAPHICS_EXPOSURES [0] e w) = Done state1
    /\ snd (init_window state 0 0 320 240 100 200 X11_CW_BACK_PIXEL
                        [0xFF00FF] e w) = Done state2
    /\ next_resource_id state = 0xFFFFFFFF
    /\ next_resource_id state1 = 0
    /\ next_resource_id state2 = 0
    /\ next_resource_id state1 <> next_resource_id state + 1
    /\ next_resource_id state2 <> next_resource_id state + 1.
Proof.
  intros state e w.
  exists (after_init_gc state), (after_init_window state).
  split; [reflexivity|]. split; [reflexivity|].
  split; [reflexivity|]. split; [reflexivity|]. split; [reflexivity|].
  split; vm_compute; discriminate.
Qed.

(** ** Loads from a laid-out reply *)

Lemma le16_value v :
  is_u16 v ->
  Z_of_byte (byte_of_Z v) + 2 ^ 8 * Z_of_byte (byte_of_Z (Z.shiftr v 8)) = v.
Proof.
  unfold is_u16. intros H.
  rewrite !Z_of_byte_of_Z, !Z.shiftr_div_pow2 by lia.
  change (2 ^ 8) with 256. change (2 ^ 16) with 65536 in H.
  Z.div_mod_to_equations. lia.
Qed.

Lemma le32_value v :
  is_u32 v ->
  Z_of_byte (byte_of_Z v) + 2 ^ 8 * Z_of_byte (byte_of_Z (Z.shiftr v 8))
  + 2 ^ 16 * (Z_of_byte (byte_of_Z (Z.shiftr v 16))
              + 2 ^ 8 * Z_of_byte (byte_of_Z (Z.shiftr v 24))) = v.
Proof.
  unfold is_u32. intros H.
  rewrite !Z_of_byte_of_Z, !Z.shiftr_div_pow2 by lia.
  change (2 ^ 8) with 256. change (2 ^ 16) with 65536.
  change (2 ^ 24) with 16777216. change (2 ^ 32) with 4294967296 in H.
  Z.div_mod_to_equations. lia.
Qed.

(** A byte of a slice is a byte of the block. *)
Lemma slice_lookup (m bs : list byte) (n k i : nat) :
  take k (drop n m) = bs -> (i < k)%nat -> m !! (n + i)%nat = bs !! i.
Proof.
  intros <- Hi. rewrite lookup_take_lt, lookup_drop by exact Hi. reflexivity.
Qed.

Lemma rd8_slice m off b :
  0 <= off -> take 1 (drop (Z.to_nat off) m) = [b] ->
  rd8 m off = Some (Z_of_byte b).
Proof.
  intros Hoff H. unfold rd8.
  replace (off <? 0) with false by (symmetry; zbool).
  pose proof (slice_lookup _ _ _ _ 0 H ltac:(lia)) as H0.
  rewrite Nat.add_0_r in H0. rewrite H0. reflexivity.
Qed.

Lemma rd16_slice m off b0 b1 :
  0 <= off -> take 2 (drop (Z.to_nat off) m) = [b0; b1] ->
  rd16 m off = Some (Z_of_byte b0 + 2 ^ 8 * Z_of_byte b1).
Proof.
  intros Hoff H. unfold rd16, rd8.
  replace (off <? 0) with false by (symmetry; zbool).
  replace (off + 1 <? 0) with false by (symmetry; zbool).
  pose proof (slice_lookup _ _ _ _ 0 H ltac:(lia)) as H0.
  pose proof (slice_lookup _ _ _ _ 1 H ltac:(lia)) as H1.
  rewrite Nat.add_0_r in H0.
  replace (Z.to_nat (off + 1)) with (Z.to_nat off + 1)%nat by lia.
  rewrite H0, H1. reflexivity.
Qed.

Lemma rd32_slice m off b0 b1 b2 b3 :
  0 <= off -> take 4 (drop (Z.to_nat off) m) = [b0; b1; b2; b3] ->
  rd32 m off
  = Some (Z_of_byte b0 + 2 ^ 8 * Z_of_byte b1
          + 2 ^ 16 * (Z_of_byte b2 + 2 ^ 8 * Z_of_byte b3)).
Proof.
  intros Hoff H. unfold rd32, rd16, rd8.
  replace (off <? 0) with false by (symmetry; zbool).
  replace (off + 1 <? 0) with false by (symmetry; zbool).
  replace (off + 2 <? 0) with false by (symmetry; zbool).
  replace (off + 2 + 1 <? 0) with false by (symmetry; zbool).
  pose proof (slice_lookup _ _ _ _ 0 H ltac:(lia)) as H0.
  pose proof (slice_lookup _ _ _ _ 1 H ltac:(lia)) as H1.
  pose proof (slice_lookup _ _ _ _ 2 H ltac:(lia)) as H2.
  pose proof (slice_lookup _ _ _ _ 3 H ltac:(lia)) as H3.
  rewrite Nat.add_0_r in H0.
  replace (Z.to_nat (off + 1)) with (Z.to_nat off + 1)%nat by lia.
  replace (Z.to_nat (off + 2)) with (Z.to_nat off + 2)%nat by lia.
  replace (Z.to_nat (off + 2 + 1)) with (Z.to_nat off + 3)%nat by lia.
  rewrite H0, H1, H2, H3. reflexivity.
Qed.

Lemma rd16_le16_at m off v :
  0 <= off -> is_u16 v -> take 2 (drop (Z.to_nat off) m) = le16 v ->
  rd16 m off = Some v.
Proof.
  intros Hoff Hv H. rewrite (rd16_slice m off _ _ Hoff H).
  rewrite le16_value by exact Hv. reflexivity.
Qed.

Lemma rd32_le32_at m off v :
  0 <= off -> is_u32 v -> take 4 (drop (Z.to_nat off) m) = le32 v ->
  rd32 m off = Some v.
Proof.
  intros Hoff Hv H. rewrite (rd32_slice m off _ _ _ _ Hoff H).
  rewrite le32_value by exact Hv. reflexivity.
Qed.

(** The fields the bootstrap reads from a body laid out as on the wire. *)
Lemma success_body_id_base s vendor formats scrs rest :
  is_u32 (Wire.id_base s) ->
  id_base (Wire.success_body s vendor formats scrs rest)
  = Some (Wire.id_base s).
Proof.
  intros H. apply rd32_le32_at; [unfold off_id_base; lia|exact H|].
  reflexivity.
Qed.

Lemma success_body_vendor_len s vendor formats scrs rest :
  Z.of_nat (length vendor) < 2 ^ 16 ->
  vendor_len (Wire.success_body s vendor formats scrs rest)
  = Some (Z.of_nat (length vendor)).
Proof.
  intros H. apply rd16_le16_at; [unfold off_vendor_len; lia| |].
  - unfold is_u16. lia.
  - reflexivity.
Qed.

Lemma success_body_no_formats s vendor scrs rest :
  num_pixmap_formats (Wire.success_body s vendor [] scrs rest) = Some 0.
Proof.
  unfold num_pixmap_formats.
  rewrite (rd8_slice _ off_num_pixmap_formats (byte_of_Z 0));
    [reflexivity|unfold off_num_pixmap_formats; lia|reflexivity].
Qed.

Lemma pad4_aligned n : Z.of_nat n mod 4 = 0 -> Wire.pad4 n = 0%nat.
Proof.
  intros H. unfold Wire.pad4.
  rewrite Z.mod_opp_l_z by (lia || exact H). reflexivity.
Qed.

Lemma length_prefix_bytes s vl ns npf :
  length (Wire.prefix_bytes s vl ns npf) = 32%nat.
Proof. reflexivity. Qed.

(** What follows the vendor string when its length needs no padding and
    there is no pixel format: the first screen. *)
Lemma success_body_drop_vendor s vendor scr rest :
  Z.of_nat (length vendor) mod 4 = 0 ->
  drop (Z.to_nat (32 + Z.of_nat (length vendor)))
       (Wire.success_body s vendor [] [scr] rest)
  = Wire.screen_bytes scr ++ rest.
Proof.
  intros Hal. unfold Wire.success_body.
  rewrite pad4_aligned by exact Hal.
  cbn [replicate map concat app]. rewrite app_nil_r.
  rewrite app_assoc. apply drop_app_length'.
  rewrite length_app, length_prefix_bytes. lia.
Qed.

Lemma success_body_root_id s vendor scr rest :
  Z.of_nat (length vendor) mod 4 = 0 ->
  is_u32 (Wire.root_id scr) ->
  root_id (Wire.success_body s vendor [] [scr] rest)
          (off_vendor_string + Z.of_nat (length vendor)
           + 0 * sizeof_pixmap_format_t) 0
  = Some (Wire.root_id scr).
Proof.
  intros Hal Hr. unfold root_id.
  replace (off_vendor_string + Z.of_nat (length vendor)
           + 0 * sizeof_pixmap_format_t + 0 * sizeof_screen_t + off_root_id)
    with (32 + Z.of_nat (length vendor))
    by (unfold off_vendor_string, off_root_id; lia).
  apply rd32_le32_at; [lia|exact Hr|].
  rewrite success_body_drop_vendor by exact Hal. reflexivity.
Qed.

Lemma success_body_root_visual_id s vendor scr rest :
  Z.of_nat (length vendor) mod 4 = 0 ->
  is_u32 (Wire.root_visual_id scr) ->
  root_visual_id (Wire.success_body s vendor [] [scr] rest)
                 (off_vendor_string + Z.of_nat (length vendor)
                  + 0 * sizeof_pixmap_format_t) 0
  = Some (Wire.root_visual_id scr).
Proof.
  intros Hal Hv. unfold root_visual_id.
  replace (off_vendor_string + Z.of_nat (length vendor)
           + 0 * sizeof_pixmap_format_t + 0 * sizeof_screen_t
           + off_root_visual_id)
    with (32 + Z.of_nat (length vendor) + 32)
    by (unfold off_vendor_string, off_root_visual_id; lia).
  apply rd32_le32_at; [lia|exact Hv|].
  replace (Z.to_nat (32 + Z.of_nat (length vendor) + 32))
    with (Z.to_nat (32 + Z.of_nat (length vendor)) + 32)%nat by lia.
  rewrite <- drop_drop, success_body_drop_vendor by exact Hal.
  reflexivity.
Qed.

(** The reply header as the bootstrap reads it back. *)
Lemma header_bytes_decoded succ major minor l :
  0 <= succ < 2 ^ 8 -> is_u16 l ->
  exists h,
    connection_reply_header_of_bytes (Wire.header_bytes succ major minor l)
    = Some h
    /\ success h = succ /\ len h = l.
Proof.
  intros Hs Hl. unfold connection_reply_header_of_bytes.
  pose (hb := Wire.header_bytes succ major minor l). fold hb.
  rewrite (rd8_slice hb 0 (byte_of_Z succ) ltac:(lia) eq_refl).
  rewrite (rd8_slice hb 1 Byte.x00 ltac:(lia) eq_refl).
  rewrite (rd16_slice hb 2 _ _ ltac:(lia) eq_refl).
  rewrite (rd16_slice hb 4 _ _ ltac:(lia) eq_refl).
  rewrite (rd16_le16_at hb 6 l ltac:(lia) Hl eq_refl).
  eexists. split; [reflexivity|]. cbn [success len].
  split; [|reflexivity]. rewrite Z_of_byte_of_Z. apply Z.mod_small. lia.
Qed.

(** ** The driver *)

Lemma init_gc_sends state value_mask value_list root e w :
  state_ok state ->
  is_u32 value_mask ->
  Forall is_u32 value_list ->
  Z.of_nat (length value_list) = bit_count value_mask ->
  root_id (connection_reply_success_body state) (screens state) 0
    = Some root ->
  write_complete e (length (writes w)) (socket_fd state)
                 (4 * (4 + bit_count value_mask)) ->
  init_gc state value_mask value_list e w
  = (sent_more w (socket_fd state)
       (bytes_of_words (create_gc_words (next_resource_id state) root
                                        value_mask value_list)),
     Done (after_init_gc state)).
Proof.
  intros Hst HM Hvl Hlen Hroot Hw.
  pose proof (bit_count_bounds value_mask) as Hk.
  rewrite (init_gc_run state Hst value_mask HM value_list Hvl
             ltac:(lia) root e w Hroot).
  rewrite firstn_all2 by lia.
  apply send_request; [|lia|exact Hw].
  unfold create_gc_words. rewrite length_app, Nat2Z.inj_add.
  simpl length. lia.
Qed.

Lemma init_window_sends state x y width height window_parent visual
  value_mask value_list e w :
  state_ok state ->
  is_u16 x -> is_u16 y -> is_u16 width -> is_u16 height ->
  is_u32 window_parent -> is_u32 visual ->
  is_u32 value_mask ->
  Forall is_u32 value_list ->
  Z.of_nat (length value_list) = bit_count value_mask ->
  write_complete e (length (writes w)) (socket_fd state)
                 (4 * (8 + bit_count value_mask)) ->
  init_window state x y width height window_parent visual value_mask
              value_list e w
  = (sent_more w (socket_fd state)
       (bytes_of_words (create_window_words (next_resource_id state)
                          window_parent x y width height visual value_mask
                          value_list)),
     Done (after_init_window state)).
Proof.
  intros Hst Hx Hy Hwd Hht Hp Hv HM Hvl Hlen Hw.
  pose proof (bit_count_bounds value_mask) as Hk.
  rewrite (init_window_run state Hst value_mask HM value_list Hvl
             ltac:(lia) x y width height window_parent visual
             Hx Hy Hwd Hht Hp Hv e w).
  rewrite firstn_all2 by lia.
  apply send_request; [|lia|exact Hw].
  unfold create_window_words. rewrite length_app, Nat2Z.inj_add.
  simpl length. lia.
Qed.

Lemma map_window_sends state e w :
  state_ok state ->
  write_complete e (length (writes w)) (socket_fd state) 8 ->
  map_window state e w
  = (sent_more w (socket_fd state)
       (bytes_of_words (map_window_words (window_id state))),
     Done state).
Proof.
  intros Hst Hw. rewrite (map_window_run state Hst e w).
  apply (send_request _ _ 2); [reflexivity|lia|exact Hw].
Qed.

(** The words of the three requests the driver sends for a resource-ID base
    [base], root window [root] and root visual [visual]. *)
Lemma driver_requests_u32 : Forall is_u32 [0] /\ Forall is_u32 [0xff00ff].
Proof.
  split; (apply List.Forall_cons; [|apply List.Forall_nil]);
    unfold is_u32; lia.
Qed.

(** C1, as amended.  Against a server that accepts the connection and
    answers with a success reply whose vendor string has a length that is a
    multiple of 4, no pixel format and one screen (root window [R], root
    visual [V]), the driver allocates the graphics-context ID [id_base] and
    the window ID [id_base + 1] (32-bit addition), and after the three
    handshake writes it makes exactly three more, in order: the create-GC
    request for drawable [R], the create-window request for parent [R] and
    visual [V] at (0,0) with size 320x240, and the map-window request for
    the window ID; then it enters the idle loop, having read the reply in
    two reads and printed nothing. *)
Theorem driver_sends_three_requests e fd cred setup vendor scr rest
  succ major minor :
  let body := Wire.success_body setup vendor [] [scr] rest in
  let hdr := Wire.header_bytes succ major minor
                               (Z.of_nat (length body) / 4) in
  let B := Wire.id_base setup in
  let R := Wire.root_id scr in
  let V := Wire.root_visual_id scr in
  served e fd cred hdr body ->
  (16 <= length (credential_read cred))%nat ->
  0 < succ < 2 ^ 8 ->
  Z.of_nat (length vendor) mod 4 = 0 ->
  Z.of_nat (length vendor) < 2 ^ 16 ->
  Z.of_nat (length body) mod 4 = 0 ->
  Z.of_nat (length body) / 4 < 2 ^ 16 ->
  is_u32 B -> is_u32 R -> is_u32 V ->
  exists w' state',
    main e world0 = (w', Done state')
    /\ graphics_context_id state' = B
    /\ window_id state' = u32 (B + 1)
    /\ writes w'
       = writes (handshaken fd cred)
         ++ [(fd, bytes_of_words (create_gc_words B R (Z.shiftl 1 16) [0]));
             (fd, bytes_of_words
                    (create_window_words (u32 (B + 1)) R 0 0 320 240 V
                                         (Z.shiftl 1 1) [0xff00ff]));
             (fd, bytes_of_words (map_window_words (u32 (B + 1))))]
    /\ recvs w' = 2%nat
    /\ errs w' = [].
Proof.
  intros body hdr B R V Hsrv Hcred Hsucc Hal Hvl Hbl Hbw HB HR HV.
  assert (Hlen16 : is_u16 (Z.of_nat (length body) / 4)).
  { unfold is_u16. split; [apply Z.div_pos; lia|exact Hbw]. }
  destruct (header_bytes_decoded succ major minor _ ltac:(lia) Hlen16)
    as (h & Hdec & Hhs & Hhl). fold hdr in Hdec.
  assert (Hwords : len h * 4 = Z.of_nat (length body)).
  { rewrite Hhl. pose proof (Z.div_mod (Z.of_nat (length body)) 4). lia. }
  destruct (x11_init_run zero_state e fd cred hdr body h
              (Z.of_nat (length vendor)) 0 Hsrv Hcred eq_refl Hdec
              ltac:(lia) Hwords
              (success_body_vendor_len _ _ _ _ _ Hvl)
              (success_body_no_formats _ _ _ _))
    as (base & Hbase & Hinit).
  unfold body in Hbase. rewrite success_body_id_base in Hbase by exact HB.
  injection Hbase as <-. fold B body in Hinit.
  set (w2 := received (received (handshaken fd cred))) in *.
  set (st0 := bootstrapped (set_socket_fd fd zero_state) h body
                (Z.of_nat (length vendor)) 0 B) in *.
  assert (Hroot : root_id (connection_reply_success_body st0) (screens st0) 0
                  = Some R)
    by (apply success_body_root_id; assumption).
  assert (Hvis : root_visual_id (connection_reply_success_body st0)
                                (screens st0) 0 = Some V)
    by (apply success_body_root_visual_id; assumption).
  assert (Hst0 : state_ok st0).
  { split; cbn; [exact HB|unfold is_u32; lia..]. }
  assert (Hst1 : state_ok (after_init_gc st0)).
  { split; cbn; [apply u32_range|exact HB|unfold is_u32; lia]. }
  assert (Hst2 : state_ok (after_init_window (after_init_gc st0))).
  { split; cbn; [apply u32_range|exact HB|apply u32_range]. }
  destruct driver_requests_u32 as [Hv0 Hv1].
  destruct Hsrv as [_ _ _ _ Hw _ _].
  unfold main.
  rewrite (bind_done _ _ _ _ _ _ Hinit).
  rewrite (bind_done _ _ _ _ _ _
             (init_gc_sends st0 X11_GC_GRAPHICS_EXPOSURES
                [X11_EXPOSURES_NOT_ALLOWED] R e w2 Hst0
                ltac:(unfold is_u32; vm_compute; split; congruence)
                Hv0 eq_refl Hroot (Hw _ _ _))).
  rewrite (lift_some _ _ _ _ _ Hroot).
  rewrite (lift_some _ _ _ _ _ Hvis).
  rewrite (bind_done _ _ _ _ _ _
             (init_window_sends (after_init_gc st0) 0 0 320 240 R V
                X11_CW_BACK_PIXEL [0xff00ff] e _ Hst1
                ltac:(unfold is_u16; lia) ltac:(unfold is_u16; lia)
                ltac:(unfold is_u16; lia) ltac:(unfold is_u16; lia)
                HR HV
                ltac:(unfold is_u32; vm_compute; split; congruence)
                Hv1 eq_refl (Hw _ _ _))).
  rewrite (map_window_sends _ e _ Hst2 (Hw _ _ _)).
  eexists _, _. split; [reflexivity|].
  repeat split.
Qed.

Lemma driver_sends_three_requests_witness :
  exists w' state',
    main (example_server vendor_xorg) world0 = (w', Done state')
    /\ graphics_context_id state' = 0x400000
    /\ window_id state' = 0x400001
    /\ requests_sent w'
       = [[0x00050010; 0x400000; 100; 0x10000; 0];
          [0x00090001; 0x400001; 100; 0; 0x00F00140; 0; 200; 2; 0xFF00FF];
          [0x00020008; 0x400001]]
    /\ length (writes w') = 6%nat.
Proof.
  destruct (driver_sends_three_requests (example_server vendor_xorg) 3
              example_cred example_setup vendor_xorg example_screen []
              1 11 0
              (mock_server_served 3 example_cred _ _ ltac:(lia))
              ltac:(simpl; lia) ltac:(lia) eq_refl ltac:(simpl; lia)
              eq_refl ltac:(vm_compute; congruence)
              ltac:(vm_compute; split; congruence)
              ltac:(vm_compute; split; congruence)
              ltac:(vm_compute; split; congruence))
    as (w' & state' & Hrun & Hgc & Hwin & Hwr & _).
  exists w', state'. split; [exact Hrun|]. split; [exact Hgc|].
  split; [exact Hwin|]. unfold requests_sent. rewrite Hwr.
  split; reflexivity.
Defined.

(** C1 as stated fails.  A server whose vendor string is one byte long pads
    it with three bytes, so its one screen (root window 100, root visual
    200) starts 36 bytes into the body; the bootstrap looks 33 bytes in.
    The driver reaches the idle loop, but its create-GC and create-window
    requests name drawable and parent [0x64000000] and visual [0xC8000100],
    not 100 and 200. *)
Lemma driver_misreads_padded_vendor :
  let r := main (example_server vendor_x) world0 in
  example_body vendor_x
  = Wire.success_body example_setup vendor_x [] [example_screen] []
  /\ Wire.root_id example_screen = 100
  /\ Wire.root_visual_id example_screen = 200
  /\ (exists state', snd r = Done state' /\ screens state' = 33)
  /\ requests_sent (fst r)
     = [[0x00050010; 0x400000; 0x64000000; 0x10000; 0];
        [0x00090001; 0x400001; 0x64000000; 0; 0x00F00140; 0; 0xC8000100; 2;
         0xFF00FF];
        [0x00020008; 0x400001]].
Proof.
  intros r. split; [reflexivity|]. split; [reflexivity|].
  split; [reflexivity|]. split.
  - eexists. split; [vm_compute; reflexivity|reflexivity].
  - vm_compute. reflexivity.
Qed.

(* ===================================================================== *)
(** * Further properties of the code *)
(* ===================================================================== *)

(** ** Masks built from several bits *)

Lemma bits_upto_lor n a b :
  Z.land a b = 0 ->
  bits_upto n (Z.lor a b) = bits_upto n a + bits_upto n b.
Proof.
  intros Hd. unfold bits_upto.
  induction (seq 0 n) as [|i l IH]; [reflexivity|].
  cbn [map foldr]. rewrite IH.
  assert (Hi : Z.testbit a (Z.of_nat i) && Z.testbit b (Z.of_nat i) = false).
  { rewrite <- Z.land_spec, Hd. apply Z.bits_0. }
  rewrite Z.lor_spec.
  destruct (Z.testbit a (Z.of_nat i)), (Z.testbit b (Z.of_nat i));
    try discriminate; cbn [orb Z.b2z]; lia.
Qed.

Lemma lor_u32 a b : is_u32 a -> is_u32 b -> is_u32 (Z.lor a b).
Proof.
  intros Ha Hb.
  rewrite <- (u32_id a Ha), <- (u32_id b Hb) at 1.
  rewrite !u32_land, <- Z.land_lor_distr_l, <- u32_land.
  apply u32_range.
Qed.

Lemma bit_count_single k :
  0 <= k < 32 -> is_u32 (Z.shiftl 1 k) /\ bit_count (Z.shiftl 1 k) = 1.
Proof.
  intros Hk. rewrite <- (Z2Nat.id k) by lia.
  assert (Hn : (Z.to_nat k < 32)%nat) by lia.
  generalize dependent (Z.to_nat k). intros n Hn. clear Hk.
  do 32 (destruct n as [|n];
         [split; [unfold is_u32; vm_compute; split; congruence
                 |vm_compute; reflexivity]|]).
  lia.
Qed.

Lemma bit_count_zero_iff v : is_u32 v -> (bit_count v = 0 <-> v = 0).
Proof.
  intros Hv. split; [|intros ->; apply bits_upto_zero].
  intros H0. apply Z.bits_inj_0. intros i.
  destruct (Z.testbit v i) eqn:Hb; [exfalso|reflexivity].
  assert (Hi : 0 <= i < 32).
  { destruct (Z.lt_ge_cases i 0) as [Hneg|Hpos];
      [rewrite Z.testbit_neg_r in Hb by lia; discriminate|].
    destruct (Z.lt_ge_cases i 32) as [|Hge]; [lia|].
    unfold is_u32 in Hv.
    rewrite Z.bits_above_log2 in Hb; [discriminate|lia|].
    assert (v <> 0) by (intros ->; rewrite Z.bits_0 in Hb; discriminate).
    apply Z.log2_lt_pow2; [lia|].
    apply Z.lt_le_trans with (2 ^ 32); [lia|].
    apply Z.pow_le_mono_r; lia. }
  unfold bit_count, bits_upto in H0. clear Hv.
  assert (Hin : In (Z.to_nat i) (seq 0 32)) by (apply in_seq; lia).
  revert H0 Hin. generalize (seq 0 32). intros l.
  induction l as [|j l IH]; [intros _ []|].
  cbn [map foldr In]. intros Hsum [->|Hin].
  - rewrite Z2Nat.id, Hb in Hsum by lia. cbn [Z.b2z] in Hsum.
    assert (0 <= foldr Z.add 0
                   (map (fun i0 => Z.b2z (Z.testbit v (Z.of_nat i0))) l)).
    { clear. induction l as [|j l IH]; cbn [map foldr]; [lia|].
      destruct (Z.testbit v (Z.of_nat j)); cbn [Z.b2z]; lia. }
    lia.
  - apply IH; [|exact Hin].
    assert (0 <= foldr Z.add 0
                   (map (fun i0 => Z.b2z (Z.testbit v (Z.of_nat i0))) l)).
    { clear. induction l as [|k l IH]; cbn [map foldr]; [lia|].
      destruct (Z.testbit v (Z.of_nat k)); cbn [Z.b2z]; lia. }
    destruct (Z.testbit v (Z.of_nat j)); cbn [Z.b2z] in Hsum; lia.
Qed.

(** X1.  [popcnt] is additive over masks that share no bit, gives 1 for
    every single-bit mask of a [uint32_t], and gives 0 for the empty mask
    only: a mask or-ed together from [n] distinct attribute bits asks for
    [n] values. *)
Theorem popcnt_of_combined_masks a b :
  is_u32 a -> is_u32 b -> Z.land a b = 0 ->
  (exists ca cb,
     popcnt a = Some ca /\ popcnt b = Some cb
     /\ popcnt (Z.lor a b) = Some (ca + cb))
  /\ (forall k, 0 <= k < 32 -> popcnt (Z.shiftl 1 k) = Some 1)
  /\ (popcnt a = Some 0 <-> a = 0).
Proof.
  intros Ha Hb Hd. split; [|split].
  - exists (bit_count a), (bit_count b).
    rewrite !popcnt_terminates by (try apply lor_u32; assumption).
    repeat split. f_equal. apply bits_upto_lor, Hd.
  - intros k Hk. destruct (bit_count_single k Hk) as [Hu H1].
    rewrite popcnt_terminates by exact Hu. f_equal. exact H1.
  - rewrite popcnt_terminates by exact Ha. split.
    + intros [= H0]. apply bit_count_zero_iff; assumption.
    + intros ->. reflexivity.
Qed.

Lemma popcnt_of_combined_masks_witness :
  popcnt (Z.lor X11_CW_BACK_PIXEL X11_CW_EVENT_MASK) = Some 2
  /\ popcnt X11_GC_GRAPHICS_EXPOSURES = Some 1.
Proof.
  destruct (popcnt_of_combined_masks X11_CW_BACK_PIXEL X11_CW_EVENT_MASK)
    as ((ca & cb & Ha & Hb & Hab) & Hone & _).
  - vm_compute. split; congruence.
  - vm_compute. split; congruence.
  - reflexivity.
  - split.
    + rewrite Hab. vm_compute in Ha, Hb.
      injection Ha as <-. injection Hb as <-. reflexivity.
    + apply (Hone 16). lia.
Defined.

(** ** The bootstrap when something is missing *)

Lemma x11_init_socket_fails state e w :
  socket_ret e < 0 ->
  x11_init state e w = (complained w "Create socket failed", Exited (-1)).
Proof.
  intros H. unfold x11_init. unfold bind at 1. unfold socket at 1.
  cbn [set_socket_fd socket_fd].
  replace (socket_ret e <? 0) with true by (symmetry; zbool).
  reflexivity.
Qed.

Lemma x11_init_connect_fails state e w :
  0 <= socket_ret e -> connect_ret e < 0 ->
  x11_init state e w = (complained w "Couldn't connect", Exited (-1)).
Proof.
  intros Hs Hc. unfold x11_init. unfold bind at 1. unfold socket at 1.
  cbn [set_socket_fd socket_fd].
  replace (socket_ret e <? 0) with false by (symmetry; zbool).
  unfold bind at 1. unfold connect at 1.
  replace (connect_ret e <? 0) with true by (symmetry; zbool).
  reflexivity.
Qed.

Lemma x11_init_fopen_fails state e w :
  0 <= socket_ret e -> 0 <= connect_ret e -> xauthority e = None ->
  x11_init state e w
  = (complained w "Couldn't open .Xauthority.", Exited (-1)).
Proof.
  intros Hs Hc Hx. unfold x11_init. unfold bind at 1. unfold socket at 1.
  cbn [set_socket_fd socket_fd].
  replace (socket_ret e <? 0) with false by (symmetry; zbool).
  unfold bind at 1. unfold connect at 1.
  replace (connect_ret e <? 0) with false by (symmetry; zbool).
  unfold bind at 1. unfold fopen at 1. rewrite Hx. reflexivity.
Qed.

(** X2.  When [socket] fails, or [connect] fails, or the credential file
    cannot be opened, the process prints the one line that names the step,
    exits with status 255, and has put nothing on the transport and read
    nothing from it: the failures are checked in that order and before the
    first byte of the handshake. *)
Theorem setup_failure_sends_nothing e :
  socket_ret e < 0 \/ connect_ret e < 0 \/ xauthority e = None ->
  exists msg,
    main e world0
    = ({| writes := []; recvs := 0; errs := [msg] |}, Exited (-1))
    /\ exit_status (-1) = 255
    /\ msg = (if socket_ret e <? 0 then "Create socket failed"
              else if connect_ret e <? 0 then "Couldn't connect"
              else "Couldn't open .Xauthority.")%string.
Proof.
  intros H.
  destruct (socket_ret e <? 0) eqn:Es.
  - apply Z.ltb_lt in Es. eexists. split; [|split; reflexivity].
    unfold main. apply bind_exited. apply x11_init_socket_fails, Es.
  - apply Z.ltb_ge in Es. destruct (connect_ret e <? 0) eqn:Ec.
    + apply Z.ltb_lt in Ec. eexists. split; [|split; reflexivity].
      unfold main. apply bind_exited.
      apply x11_init_connect_fails; assumption.
    + apply Z.ltb_ge in Ec. destruct H as [H|[H|H]]; [lia|lia|].
      eexists. split; [|split; reflexivity].
      unfold main. apply bind_exited.
      apply x11_init_fopen_fails; assumption.
Qed.

Lemma setup_failure_sends_nothing_witness :
  main {| socket_ret := 3; connect_ret := -1; xauthority := None;
          write_ret := fun _ _ count => Returns count;
          recv_ret := fun _ _ _ => None |} world0
  = ({| writes := []; recvs := 0; errs := ["Couldn't connect"%string] |},
     Exited (-1)).
Proof.
  destruct (setup_failure_sends_nothing
              {| socket_ret := 3; connect_ret := -1; xauthority := None;
                 write_ret := fun _ _ count => Returns count;
                 recv_ret := fun _ _ _ => None |})
    as (msg & Hrun & _ & Hmsg).
  - right. left. simpl. lia.
  - rewrite Hrun, Hmsg. reflexivity.
Defined.

(** Every 8-byte header decodes, and its success flag is its first byte. *)
Lemma header_of_8_bytes hdr :
  length hdr = 8%nat ->
  exists h,
    connection_reply_header_of_bytes hdr = Some h
    /\ rd8 hdr 0 = Some (success h).
Proof.
  intros Hl. unfold connection_reply_header_of_bytes.
  destruct (rd8_is_Some hdr 0 ltac:(lia)) as [s ->].
  destruct (rd8_is_Some hdr 1 ltac:(lia)) as [p ->].
  destruct (rd16_is_Some hdr 2 ltac:(lia) ltac:(lia)) as [ma ->].
  destruct (rd16_is_Some hdr 4 ltac:(lia) ltac:(lia)) as [mi ->].
  destruct (rd16_is_Some hdr 6 ltac:(lia) ltac:(lia)) as [l ->].
  eexists. split; reflexivity.
Qed.

(** X3.  When the reply header of the server starts with a zero byte, the
    process exits with ["Connection reply indicated failure."] after the
    48-byte handshake and a single read of 8 bytes: the reason the server
    sends after the header is never read. *)
Theorem rejected_handshake_reads_header_only state e fd content hdr :
  socket_ret e = fd -> 0 <= fd -> 0 <= connect_ret e ->
  xauthority e = Some content ->
  (16 <= length (credential_read content))%nat ->
  write_complete e 0 fd 12 ->
  write_complete e 1 fd 20 ->
  write_complete e 2 fd 16 ->
  recv_ret e 0%nat fd 8 = Some hdr ->
  length hdr = 8%nat ->
  rd8 hdr 0 = Some 0 ->
  x11_init state e world0
  = (complained (received (handshaken fd content))
                "Connection reply indicated failure.",
     Exited (-1))
  /\ recvs (received (handshaken fd content)) = 1%nat
  /\ length (sent (handshaken fd content)) = 48%nat.
Proof.
  intros Hs Hfd Hc Hx Hlen W0 W1 W2 Hr Hl H0.
  destruct (header_of_8_bytes hdr Hl) as (h & Hdec & Hsucc).
  rewrite H0 in Hsucc. injection Hsucc as Hsucc.
  split; [|split; [reflexivity|]].
  - rewrite (x11_init_handshake state e fd content) by assumption.
    unfold x11_init_reply. cbn [set_socket_fd socket_fd].
    rewrite (bind_done _ _ _ _ _ _
               (fatal_read_ok fd 8 hdr e (handshaken fd content)
                              ltac:(lia) Hr ltac:(lia))).
    rewrite (lift_some _ _ _ _ _ Hdec).
    cbn [set_connection_reply_header connection_reply_header].
    rewrite <- Hsucc. reflexivity.
  - unfold sent. cbn [handshaken writes map snd concat].
    rewrite app_nil_r, !length_app, length_cookie_of by exact Hlen.
    reflexivity.
Qed.

Lemma rejected_handshake_reads_header_only_witness :
  main (rejecting_server (map byte_of_Z [110; 111; 112; 101])) world0
  = (complained (received (handshaken 3 example_cred))
                "Connection reply indicated failure.",
     Exited (-1)).
Proof.
  unfold main. apply bind_exited.
  apply (rejected_handshake_reads_header_only zero_state
           (rejecting_server (map byte_of_Z [110; 111; 112; 101]))
           3 example_cred
           (Wire.header_bytes 0 11 0 1)
           eq_refl ltac:(lia) ltac:(simpl; lia) eq_refl ltac:(simpl; lia)
           eq_refl eq_refl eq_refl eq_refl eq_refl eq_refl).
Defined.

(** X4.  When the read of the credential file yields fewer than 16 bytes
    (an empty file included), the process writes the 12-byte connection
    request and the 20 bytes of the protocol name, and then takes its cookie
    from before the start of [xauth_cookie]: the run has no defined result
    from there on, and no diagnostic is printed. *)
Theorem short_credential_is_undefined state e fd content :
  socket_ret e = fd -> 0 <= fd -> 0 <= connect_ret e ->
  xauthority e = Some content ->
  (length content < 16)%nat ->
  write_complete e 0 fd 12 ->
  write_complete e 1 fd 20 ->
  x11_init state e world0
  = ({| writes := [(fd, request_header); (fd, auth_proto_name)];
        recvs := 0; errs := [] |},
     Undefined).
Proof.
  intros Hs Hfd Hc Hx Hlen W0 W1.
  unfold x11_init.
  unfold bind at 1. unfold socket at 1. rewrite Hs.
  cbn [set_socket_fd socket_fd].
  replace (fd <? 0) with false by (symmetry; zbool).
  unfold bind at 1. unfold connect at 1.
  replace (connect_ret e <? 0) with false by (symmetry; zbool).
  unfold bind at 1. unfold fopen at 1. rewrite Hx.
  cbv zeta. rewrite firstn_all2 by lia.
  rewrite size_t_of_id by lia.
  replace (Z.of_nat (length content) <? 0) with false by (symmetry; zbool).
  rewrite (bind_done _ _ _ _ _ _
             (fatal_write_ok fd _ 12 e world0 ltac:(lia) W0)).
  rewrite (bind_done _ _ _ _ _ _
             (fatal_write_ok fd _ 20 e (wrote world0 fd _ 12)
                             ltac:(lia) W1)).
  unfold bytes_at.
  replace (0 <=? Z.of_nat (length content) - 16) with false
    by (symmetry; zbool).
  reflexivity.
Qed.

Lemma short_credential_is_undefined_witness :
  snd (main (mock_server 3 [] [] []) world0) = Undefined
  /\ length (sent (fst (main (mock_server 3 [] [] []) world0))) = 32%nat.
Proof.
  pose proof (short_credential_is_undefined zero_state
                (mock_server 3 [] [] []) 3 [] eq_refl ltac:(lia)
                ltac:(simpl; lia) eq_refl ltac:(simpl; lia) eq_refl eq_refl)
    as H.
  unfold main, bind. rewrite H. split; reflexivity.
Defined.

(** X5.  [fread] fills at most the 4096 bytes of [xauth_cookie], so for a
    credential file of 4096 bytes or more the cookie sent is bytes 4080 to
    4095 of the file, whatever follows them in the file. *)
Theorem long_credential_is_cut state e fd content :
  socket_ret e = fd -> 0 <= fd -> 0 <= connect_ret e ->
  xauthority e = Some content ->
  (4096 <= length content)%nat ->
  write_complete e 0 fd 12 ->
  write_complete e 1 fd 20 ->
  write_complete e 2 fd 16 ->
  writes (fst (x11_init state e world0))
  = [(fd, request_header); (fd, auth_proto_name);
     (fd, take 16 (drop 4080 content))].
Proof.
  intros Hs Hfd Hc Hx Hlen W0 W1 W2.
  assert (Hread : length (credential_read content) = 4096%nat)
    by (unfold credential_read; rewrite length_take; lia).
  rewrite (x11_init_handshake state e fd content)
    by (try assumption; lia).
  rewrite quiet_x11_init_reply. cbn [handshaken writes].
  do 3 f_equal. unfold cookie_of. rewrite Hread.
  change (4096 - 16)%nat with 4080%nat.
  unfold credential_read. rewrite skipn_firstn_comm.
  change (4096 - 4080)%nat with 16%nat. reflexivity.
Qed.

Lemma long_credential_is_cut_witness :
  let content := replicate 4080 Byte.x00 ++ example_cred ++ example_cred in
  writes (fst (x11_init zero_state (mock_server 3 content [] []) world0))
  = [(3, request_header); (3, auth_proto_name);
     (3, take 16 example_cred)].
Proof.
  intros content.
  rewrite (long_credential_is_cut zero_state (mock_server 3 content [] [])
             3 content eq_refl ltac:(lia) ltac:(simpl; lia) eq_refl
             ltac:(vm_compute; lia) eq_refl eq_refl eq_refl).
  vm_compute. reflexivity.
Defined.

Lemma rd8_outside m off :
  Z.of_nat (length m) <= off -> rd8 m off = None.
Proof.
  intros H. unfold rd8. replace (off <? 0) with false by (symmetry; zbool).
  rewrite lookup_ge_None_2 by lia. reflexivity.
Qed.

Lemma rd16_outside m off :
  Z.of_nat (length m) < off + 2 -> rd16 m off = None.
Proof.
  intros H. unfold rd16.
  rewrite (rd8_outside m (off + 1)) by lia.
  destruct (rd8 m off); reflexivity.
Qed.

(** X6.  The bootstrap reads the vendor length and the format count at
    bytes 16 to 21 of the body without looking at the length the header
    announced.  When the server announces a success body of fewer than 22
    bytes (a length field of 5 or less, 0 included) and sends just that, the
    process reads outside the block it allocated: the run has no defined
    result, after the handshake and two reads, and nothing is printed. *)
Theorem truncated_body_is_undefined state e fd cred hdr body h :
  served e fd cred hdr body ->
  (16 <= length (credential_read cred))%nat ->
  length hdr = 8%nat ->
  connection_reply_header_of_bytes hdr = Some h ->
  success h <> 0 ->
  len h * 4 = Z.of_nat (length body) ->
  len h <= 5 ->
  x11_init state e world0
  = (received (received (handshaken fd cred)), Undefined).
Proof.
  intros [Hs Hfd Hc Hx Hw Hh Hb] Hcred Hhl Hdec Hsucc Hlen Hshort.
  pose proof (header_len_range _ _ Hdec) as Hrange. unfold is_u16 in Hrange.
  rewrite (x11_init_handshake state e fd cred) by (try apply Hw; assumption).
  unfold x11_init_reply. cbn [set_socket_fd socket_fd].
  rewrite (bind_done _ _ _ _ _ _
             (fatal_read_ok fd 8 hdr e (handshaken fd cred)
                            ltac:(lia) Hh ltac:(lia))).
  rewrite (lift_some _ _ _ _ _ Hdec).
  cbn [set_connection_reply_header connection_reply_header socket_fd].
  replace (success h =? 0) with false by (symmetry; zbool).
  rewrite size_t_of_id by lia.
  rewrite Hlen.
  rewrite (bind_done _ _ _ _ _ _
             (fatal_read_ok fd (Z.of_nat (length body)) body e
                            (received (handshaken fd cred))
                            ltac:(lia) Hb eq_refl)).
  cbn [set_connection_reply_success_body connection_reply_success_body].
  unfold bind at 1. unfold lift at 1.
  destruct (vendor_len body) as [vl|] eqn:Evl; [|reflexivity].
  cbn [set_pixmap_formats connection_reply_success_body].
  unfold bind at 1. unfold lift at 1.
  unfold num_pixmap_formats, off_num_pixmap_formats.
  cbn [connection_reply_success_body set_connection_reply_success_body
       set_pixmap_formats].
  rewrite (rd8_outside body 21) by lia. reflexivity.
Qed.

Lemma truncated_body_is_undefined_witness :
  main (mock_server 3 example_cred (Wire.header_bytes 1 11 0 0) []) world0
  = (received (received (handshaken 3 example_cred)), Undefined).
Proof.
  unfold main, bind.
  rewrite (truncated_body_is_undefined zero_state
             (mock_server 3 example_cred (Wire.header_bytes 1 11 0 0) [])
             3 example_cred (Wire.header_bytes 1 11 0 0) []
             {| success := 1; pad := 0; major_version := 11;
                minor_version := 0; len := 0 |}
             (mock_server_served 3 example_cred _ _ ltac:(lia))
             ltac:(simpl; lia) eq_refl eq_refl ltac:(cbn [success]; lia)
             eq_refl ltac:(cbn [len]; lia)).
  reflexivity.
Defined.

(** ** Value lists that do not match the mask *)

(** The copying loop never looks past the first [i + todo] values. *)
Lemma store_values_take base : forall todo value_list i packet,
  0 <= i ->
  store_values base value_list i todo packet
  = store_values base (take (Z.to_nat i + todo) value_list) i todo packet.
Proof.
  induction todo as [|todo IH]; intros value_list i packet Hi; [reflexivity|].
  cbn [store_values].
  replace (i <? 0) with false by (symmetry; zbool).
  rewrite lookup_take_lt by lia.
  destruct (value_list !! Z.to_nat i) as [v|]; [|reflexivity].
  cbn [mbind option_bind].
  destruct (store packet (base + i) v) as [packet'|]; [|reflexivity].
  cbn [mbind option_bind].
  rewrite (IH value_list) by lia.
  rewrite (IH (take (Z.to_nat i + S todo) value_list)) by lia.
  rewrite take_take. do 2 f_equal. lia.
Qed.

(** With too few values the loop reads past the end of the list. *)
Lemma store_values_short base value_list : forall todo i packet,
  0 <= i ->
  (Z.to_nat i <= length value_list < Z.to_nat i + todo)%nat ->
  store_values base value_list i todo packet = None.
Proof.
  induction todo as [|todo IH]; intros i packet Hi Hl; [lia|].
  cbn [store_values].
  replace (i <? 0) with false by (symmetry; zbool).
  destruct (value_list !! Z.to_nat i) as [v|] eqn:Ev; [|reflexivity].
  apply lookup_lt_Some in Ev.
  cbn [mbind option_bind].
  destruct (store packet (base + i) v) as [packet'|]; [|reflexivity].
  cbn [mbind option_bind]. apply IH; lia.
Qed.

Lemma init_gc_packet_take state value_mask value_list :
  is_u32 value_mask ->
  init_gc_packet state value_mask value_list
  = init_gc_packet state value_mask
      (take (Z.to_nat (bit_count value_mask)) value_list).
Proof.
  intros HM. pose proof (bit_count_bounds value_mask) as Hk.
  unfold init_gc_packet.
  rewrite (popcnt_terminates _ HM). cbn [mbind option_bind].
  rewrite (u16_id (bit_count value_mask)) by (unfold is_u16; lia).
  repeat match goal with
         | |- (?o ≫= _) = (?o ≫= _) =>
             destruct o; cbn [mbind option_bind]; [|reflexivity]
         end.
  rewrite store_values_take by lia. reflexivity.
Qed.

Lemma init_window_packet_take state x y w h window_parent visual value_mask
  value_list :
  is_u32 value_mask ->
  init_window_packet state x y w h window_parent visual value_mask value_list
  = init_window_packet state x y w h window_parent visual value_mask
      (take (Z.to_nat (bit_count value_mask)) value_list).
Proof.
  intros HM. pose proof (bit_count_bounds value_mask) as Hk.
  unfold init_window_packet.
  rewrite (popcnt_terminates _ HM). cbn [mbind option_bind].
  rewrite (u16_id (bit_count value_mask)) by (unfold is_u16; lia).
  repeat match goal with
         | |- (?o ≫= _) = (?o ≫= _) =>
             destruct o; cbn [mbind option_bind]; [|reflexivity]
         end.
  rewrite store_values_take by lia. reflexivity.
Qed.

(** X7.  [init_gc] and [init_window] read exactly as many values as the
    mask has bits: values beyond that number are never looked at, so a list
    that is too long gives the same run, request and state as the list cut
    to the popcount of the mask. *)
Theorem surplus_values_are_ignored state value_mask value_list
  x y w h window_parent visual e wd :
  is_u32 value_mask ->
  init_gc state value_mask value_list e wd
  = init_gc state value_mask
            (take (Z.to_nat (bit_count value_mask)) value_list) e wd
  /\ init_window state x y w h window_parent visual value_mask value_list
                 e wd
     = init_window state x y w h window_parent visual value_mask
                   (take (Z.to_nat (bit_count value_mask)) value_list) e wd.
Proof.
  intros HM. split.
  - unfold init_gc. destruct (generate_id state) as [id state1].
    rewrite (init_gc_packet_take _ _ value_list HM). reflexivity.
  - unfold init_window. destruct (generate_id state) as [id state1].
    rewrite (init_window_packet_take _ _ _ _ _ _ _ _ value_list HM).
    reflexivity.
Qed.

Lemma surplus_values_are_ignored_witness :
  init_gc example_state X11_GC_GRAPHICS_EXPOSURES [0; 7; 8; 9]
          (example_server []) (handshaken 3 example_cred)
  = init_gc example_state X11_GC_GRAPHICS_EXPOSURES [0]
            (example_server []) (handshaken 3 example_cred).
Proof.
  apply (surplus_values_are_ignored example_state X11_GC_GRAPHICS_EXPOSURES
           [0; 7; 8; 9] 0 0 0 0 0 0 (example_server [])
           (handshaken 3 example_cred)).
  vm_compute. split; congruence.
Defined.

(** X8.  When the value list is shorter than the popcount of the mask,
    [init_gc] and [init_window] read past its end while they build the
    request: the run has no defined result, and nothing has been written,
    read or printed by the call. *)
Theorem missing_values_are_undefined state value_mask value_list
  x y w h window_parent visual e wd :
  is_u32 value_mask ->
  Z.of_nat (length value_list) < bit_count value_mask ->
  init_gc state value_mask value_list e wd = (wd, Undefined)
  /\ init_window state x y w h window_parent visual value_mask value_list
                 e wd
     = (wd, Undefined).
Proof.
  intros HM Hshort. pose proof (bit_count_bounds value_mask) as Hk.
  split.
  - unfold init_gc. destruct (generate_id state) as [id state1].
    replace (init_gc_packet _ value_mask value_list) with
      (@None (Z * packet_t)); [reflexivity|].
    symmetry. unfold init_gc_packet.
    rewrite (popcnt_terminates _ HM). cbn [mbind option_bind].
    rewrite (u16_id (bit_count value_mask)) by (unfold is_u16; lia).
    do 5 match goal with
           | |- (?o ≫= _) = None =>
               destruct o; cbn [mbind option_bind]; [|reflexivity]
           end.
    rewrite store_values_short by lia. reflexivity.
  - unfold init_window. destruct (generate_id state) as [id state1].
    replace (init_window_packet _ _ _ _ _ _ _ value_mask value_list) with
      (@None (Z * packet_t)); [reflexivity|].
    symmetry. unfold init_window_packet.
    rewrite (popcnt_terminates _ HM). cbn [mbind option_bind].
    rewrite (u16_id (bit_count value_mask)) by (unfold is_u16; lia).
    do 8 match goal with
           | |- (?o ≫= _) = None =>
               destruct o; cbn [mbind option_bind]; [|reflexivity]
           end.
    rewrite store_values_short by lia. reflexivity.
Qed.

Lemma missing_values_are_undefined_witness :
  init_window example_state 0 0 320 240 100 200
              (Z.lor X11_CW_BACK_PIXEL X11_CW_EVENT_MASK) [0xFF00FF]
              (example_server []) (handshaken 3 example_cred)
  = (handshaken 3 example_cred, Undefined).
Proof.
  apply (missing_values_are_undefined example_state
           (Z.lor X11_CW_BACK_PIXEL X11_CW_EVENT_MASK) [0xFF00FF]
           0 0 320 240 100 200 (example_server [])
           (handshaken 3 example_cred)).
  - vm_compute. split; congruence.
  - vm_compute. reflexivity.
Defined.

(** ** What a return of the transport wrappers means *)

Lemma size_t_of_match r count :
  0 <= count < 2 ^ 63 -> -1 <= r <= count -> size_t_of r = count ->
  r = count.
Proof.
  intros Hc Hr H. destruct (Z.eq_dec r count) as [|Hne]; [assumption|].
  exfalso. revert H. apply size_t_of_mismatch; lia.
Qed.

Lemma fatal_write_returns fd buf count e w w' :
  0 <= count < 2 ^ 63 -> posix_write e ->
  fatal_write fd buf count e w = (w', Done tt) ->
  write_complete e (length (writes w)) fd count
  /\ w' = wrote w fd buf count.
Proof.
  intros Hc Hp. unfold fatal_write, bind, write.
  destruct (write_ret e (length (writes w)) fd count) as [r|] eqn:Er;
    [|discriminate].
  destruct (size_t_of r =? count) eqn:E; cbn [negb]; [|discriminate].
  apply Z.eqb_eq in E.
  apply size_t_of_match in E; [|exact Hc|eapply Hp; [|exact Er]; lia].
  subst r. intros [= <-]. split; [exact Er|reflexivity].
Qed.

Lemma fatal_read_returns fd count e w w' bs :
  0 <= count < 2 ^ 63 ->
  fatal_read fd count e w = (w', Done bs) ->
  w' = received w
  /\ Z.of_nat (length bs) = count
  /\ exists delivered,
       recv_ret e (recvs w) fd count = Some delivered
       /\ bs = take (Z.to_nat count) delivered.
Proof.
  intros Hc. unfold fatal_read, bind, recvfrom.
  destruct (recv_ret e (recvs w) fd count) as [delivered|]; cbn [fst snd].
  - destruct (size_t_of _ =? count) eqn:E; cbn [negb]; [|discriminate].
    apply Z.eqb_eq in E. intros [= <- <-].
    split; [reflexivity|]. split; [|eexists; split; reflexivity].
    rewrite size_t_of_id in E; [exact E|].
    rewrite length_take. lia.
  - replace (size_t_of (-1) =? count) with false; [discriminate|].
    symmetry. apply Z.eqb_neq. apply size_t_of_mismatch; lia.
Qed.

(** X9.  The two transport wrappers return only after an exact transfer:
    when [fatal_write] returns, one [write] has moved the first [count]
    bytes of the buffer and nothing else has changed; when [fatal_read]
    returns, one [recvfrom] has delivered exactly [count] bytes, which are
    the bytes handed back. *)
Theorem wrappers_return_after_exact_transfer fd buf count e w w' :
  0 <= count < 2 ^ 63 ->
  posix_write e ->
  (fatal_write fd buf count e w = (w', Done tt) ->
   writes w' = writes w ++ [(fd, take (Z.to_nat count) buf)]
   /\ recvs w' = recvs w /\ errs w' = errs w)
  /\ (forall bs,
        fatal_read fd count e w = (w', Done bs) ->
        Z.of_nat (length bs) = count
        /\ writes w' = writes w /\ recvs w' = S (recvs w)
        /\ errs w' = errs w
        /\ exists delivered,
             recv_ret e (recvs w) fd count = Some delivered
             /\ bs = take (Z.to_nat count) delivered).
Proof.
  intros Hc Hp. split.
  - intros H. apply fatal_write_returns in H; [|assumption..].
    destruct H as [_ ->]. repeat split.
  - intros bs H. apply fatal_read_returns in H; [|assumption].
    destruct H as (-> & Hl & Hd). repeat split; assumption.
Qed.

Lemma wrappers_return_after_exact_transfer_witness :
  fatal_read 3 8 (example_server []) (handshaken 3 example_cred)
  = (received (handshaken 3 example_cred), Done (Wire.header_bytes 1 11 0 18))
  /\ length (Wire.header_bytes 1 11 0 18) = 8%nat.
Proof.
  assert (H : fatal_read 3 8 (example_server []) (handshaken 3 example_cred)
              = (received (handshaken 3 example_cred),
                 Done (Wire.header_bytes 1 11 0 18))) by reflexivity.
  split; [exact H|].
  destruct (wrappers_return_after_exact_transfer 3 [] 8 (example_server [])
              (handshaken 3 example_cred)
              (received (handshaken 3 example_cred))
              ltac:(lia) ltac:(intros k fd count r Hc [= <-]; lia))
    as [_ Hr].
  destruct (Hr _ H) as (Hl & _). apply Nat2Z.inj. exact Hl.
Defined.

(** ** The error stream *)

Lemma tidy_ret {A} (a : A) : tidy (ret a).
Proof. intros e w Hw. exact Hw. Qed.

Lemma tidy_lift {A} (o : option A) : tidy (lift o).
Proof. intros e w Hw. unfold lift. destruct o; exact Hw. Qed.

Lemma tidy_FATAL_ERROR {A} msg : In msg diagnostics -> tidy (@FATAL_ERROR A msg).
Proof.
  intros Hin e w Hw. unfold FATAL_ERROR, complained. cbn [errs].
  split; [reflexivity|]. exists msg. rewrite Hw. split; [exact Hin|reflexivity].
Qed.

Lemma tidy_bind {A B} (m : M A) (k : A -> M B) :
  tidy m -> (forall a, tidy (k a)) -> tidy (bind m k).
Proof.
  intros Hm Hk e w Hw. unfold bind. specialize (Hm e w Hw).
  destruct (m e w) as [w' [a| | |]]; [|exact Hm..].
  apply Hk, Hm.
Qed.

Lemma tidy_if {A} (c : bool) (m1 m2 : M A) :
  tidy m1 -> tidy m2 -> tidy (if c then m1 else m2).
Proof. destruct c; auto. Qed.

Lemma tidy_socket : tidy socket.
Proof. intros e w Hw. exact Hw. Qed.

Lemma tidy_connect fd : tidy (connect fd).
Proof. intros e w Hw. exact Hw. Qed.

Lemma tidy_fopen : tidy fopen.
Proof. intros e w Hw. exact Hw. Qed.

Lemma tidy_fatal_write fd buf count : tidy (fatal_write fd buf count).
Proof.
  unfold fatal_write. apply tidy_bind.
  - intros e w Hw. unfold write.
    destruct (write_ret e (length (writes w)) fd count); exact Hw.
  - intros r. apply tidy_if; [|apply tidy_ret].
    apply tidy_FATAL_ERROR. cbn. tauto.
Qed.

Lemma tidy_fatal_read fd count : tidy (fatal_read fd count).
Proof.
  unfold fatal_read. apply tidy_bind.
  - intros e w Hw. unfold recvfrom.
    destruct (recv_ret e (recvs w) fd count); exact Hw.
  - intros rb. apply tidy_if; [|apply tidy_ret].
    apply tidy_FATAL_ERROR. cbn. tauto.
Qed.

Lemma tidy_x11_init state : tidy (x11_init state).
Proof.
  unfold x11_init.
  apply tidy_bind; [apply tidy_socket|intros fd]. cbv zeta.
  apply tidy_if; [apply tidy_FATAL_ERROR; cbn; tauto|].
  apply tidy_bind; [apply tidy_connect|intros c].
  apply tidy_if; [apply tidy_FATAL_ERROR; cbn; tauto|].
  apply tidy_bind; [apply tidy_fopen|intros [content|]];
    [|apply tidy_FATAL_ERROR; cbn; tauto].
  (* the guard on the result of fread never fires *)
  replace (size_t_of (Z.of_nat (length (take 4096 content))) <? 0)
    with false.
  2:{ symmetry. apply Z.ltb_ge. unfold size_t_of.
      apply Z.mod_pos_bound. lia. }
  apply tidy_bind; [apply tidy_fatal_write|intros _].
  apply tidy_bind; [apply tidy_fatal_write|intros _].
  apply tidy_bind; [apply tidy_lift|intros cookie].
  apply tidy_bind; [apply tidy_fatal_write|intros _].
  apply tidy_bind; [apply tidy_fatal_read|intros hdr_bytes].
  apply tidy_bind; [apply tidy_lift|intros hdr].
  apply tidy_if; [apply tidy_FATAL_ERROR; cbn; tauto|].
  apply tidy_bind; [apply tidy_fatal_read|intros body].
  repeat (apply tidy_bind; [apply tidy_lift|intros ?]).
  apply tidy_ret.
Qed.

Lemma tidy_send {A} (o : option (Z * packet_t)) fd (a : A) :
  tidy (lp <- lift o ;;
        let (len, packet) := (lp : Z * packet_t) in
        ws <- lift (packet_words packet len) ;;
        fatal_write fd (bytes_of_words ws) (size_t_of (s32 (len * 4))) ;;;
        ret a).
Proof.
  apply tidy_bind; [apply tidy_lift|intros [len packet]].
  apply tidy_bind; [apply tidy_lift|intros ws].
  apply tidy_bind; [apply tidy_fatal_write|intros _]. apply tidy_ret.
Qed.

Lemma tidy_init_gc state value_mask value_list :
  tidy (init_gc state value_mask value_list).
Proof. unfold init_gc, generate_id. apply tidy_send. Qed.

Lemma tidy_init_window state x y w h window_parent visual value_mask
  value_list :
  tidy (init_window state x y w h window_parent visual value_mask
                    value_list).
Proof. unfold init_window, generate_id. apply tidy_send. Qed.

Lemma tidy_map_window state : tidy (map_window state).
Proof.
  unfold map_window.
  apply tidy_bind; [apply tidy_lift|intros [len packet]].
  apply tidy_bind; [apply tidy_lift|intros ws].
  apply tidy_bind; [apply tidy_fatal_write|intros _]. apply tidy_ret.
Qed.

(** X10.  In every run, whatever the system and the server do, the process
    prints nothing unless it exits, and when it exits it has called
    [exit(-1)] after printing exactly one line, one of six: the messages of
    the failures of [socket], [connect] and [fopen], of a short write, of a
    short read and of a rejected handshake.  The seventh message in the
    source, ["Couldn't read from .Xauthority."], is never printed: its guard
    tests an unsigned count for being negative. *)
Theorem one_diagnostic_per_exit e :
  match main e world0 with
  | (w', Exited code) =>
      code = -1 /\ exists msg, In msg diagnostics /\ errs w' = [msg]
  | (w', _) => errs w' = []
  end
  /\ ~ In "Couldn't read from .Xauthority."%string diagnostics.
Proof.
  split.
  - assert (Hmain : tidy main).
    { unfold main.
      apply tidy_bind; [apply tidy_x11_init|intros state].
      apply tidy_bind; [apply tidy_init_gc|intros state1].
      apply tidy_bind; [apply tidy_lift|intros parent].
      apply tidy_bind; [apply tidy_lift|intros visual].
      apply tidy_bind; [apply tidy_init_window|intros state2].
      apply tidy_map_window. }
    apply Hmain. reflexivity.
  - cbn. intros H. repeat (destruct H as [H|H]; [discriminate H|]). exact H.
Qed.

(** ** The budget of transport calls *)

Lemma within_weaken {A} nw nr nw' nr' (m : M A) :
  (nw <= nw')%nat -> (nr <= nr')%nat -> within nw nr m -> within nw' nr' m.
Proof.
  intros Hw Hr H e w. destruct (H e w) as [(more & Hm & Hl) Hrc].
  split; [exists more; split; [exact Hm|lia]|lia].
Qed.

Lemma within_pure {A} (m : M A) :
  (forall e w, fst (m e w) = w) -> within 0 0 m.
Proof.
  intros H e w. rewrite H. split; [|lia].
  exists []. rewrite app_nil_r. split; [reflexivity|simpl; lia].
Qed.

Lemma within_ret {A} (a : A) : within 0 0 (ret a).
Proof. apply within_pure. reflexivity. Qed.

Lemma within_lift {A} (o : option A) : within 0 0 (lift o).
Proof. apply within_pure. intros e w. destruct o; reflexivity. Qed.

Lemma within_FATAL_ERROR {A} msg : within 0 0 (@FATAL_ERROR A msg).
Proof.
  intros e w. cbn. split; [|lia].
  exists []. rewrite app_nil_r. split; [reflexivity|simpl; lia].
Qed.

Lemma within_bind {A B} nw nr nw' nr' (m : M A) (k : A -> M B) :
  within nw nr m -> (forall a, within nw' nr' (k a)) ->
  within (nw + nw') (nr + nr') (bind m k).
Proof.
  intros Hm Hk e w. unfold bind.
  destruct (Hm e w) as [(more & Hmore & Hl) Hr].
  destruct (m e w) as [w1 [a| | |]]; cbn [fst] in *.
  - destruct (Hk a e w1) as [(more' & Hmore' & Hl') Hr'].
    split; [|lia].
    exists (more ++ more'). rewrite Hmore', Hmore, app_assoc, length_app.
    split; [reflexivity|lia].
  - split; [exists more; split; [exact Hmore|lia]|lia].
  - split; [exists more; split; [exact Hmore|lia]|lia].
  - split; [exists more; split; [exact Hmore|lia]|lia].
Qed.

Lemma within_if {A} nw nr (c : bool) (m1 m2 : M A) :
  within nw nr m1 -> within nw nr m2 -> within nw nr (if c then m1 else m2).
Proof. destruct c; auto. Qed.

Lemma within_fatal_write fd buf count : within 1 0 (fatal_write fd buf count).
Proof.
  intros e w. unfold fatal_write, bind, write.
  destruct (write_ret e (length (writes w)) fd count) as [r|];
    [destruct (negb _)|]; cbn; (split; [|lia]);
    eexists; (split; [reflexivity|simpl; lia]).
Qed.

Lemma within_fatal_read fd count : within 0 1 (fatal_read fd count).
Proof.
  intros e w. unfold fatal_read, bind, recvfrom.
  destruct (recv_ret e (recvs w) fd count); cbn [fst snd];
    destruct (negb _); cbn; (split; [|lia]);
    exists []; rewrite app_nil_r; (split; [reflexivity|simpl; lia]).
Qed.

(** A step that touches nothing, in front of a budget. *)
Lemma within_then {A B} nw nr (m : M A) (k : A -> M B) :
  within 0 0 m -> (forall a, within nw nr (k a)) -> within nw nr (bind m k).
Proof. intros Hm Hk. apply (within_bind 0 0 nw nr); assumption. Qed.

Lemma within_send {A} (o : option (Z * packet_t)) fd (a : A) :
  within 1 0
    (lp <- lift o ;;
     let (len, packet) := (lp : Z * packet_t) in
     ws <- lift (packet_words packet len) ;;
     fatal_write fd (bytes_of_words ws) (size_t_of (s32 (len * 4))) ;;;
     ret a).
Proof.
  apply within_then; [apply within_lift|intros [len packet]].
  apply within_then; [apply within_lift|intros ws].
  apply (within_bind 1 0 0 0); [apply within_fatal_write|intros _].
  apply within_ret.
Qed.

Lemma within_init_gc state value_mask value_list :
  within 1 0 (init_gc state value_mask value_list).
Proof. unfold init_gc, generate_id. apply within_send. Qed.

Lemma within_init_window state x y w h window_parent visual value_mask
  value_list :
  within 1 0 (init_window state x y w h window_parent visual value_mask
                          value_list).
Proof. unfold init_window, generate_id. apply within_send. Qed.

Lemma within_map_window state : within 1 0 (map_window state).
Proof.
  unfold map_window.
  apply within_then; [apply within_lift|intros [len packet]].
  apply within_then; [apply within_lift|intros ws].
  apply (within_bind 1 0 0 0); [apply within_fatal_write|intros _].
  apply within_ret.
Qed.

Lemma within_x11_init state : within 3 2 (x11_init state).
Proof.
  unfold x11_init.
  apply within_then; [apply within_pure; reflexivity|intros fd]. cbv zeta.
  apply within_if;
    [eapply within_weaken; [| |apply within_FATAL_ERROR]; lia|].
  apply within_then; [apply within_pure; reflexivity|intros c].
  apply within_if;
    [eapply within_weaken; [| |apply within_FATAL_ERROR]; lia|].
  apply within_then; [apply within_pure; reflexivity|intros [content|]];
    [|eapply within_weaken; [| |apply within_FATAL_ERROR]; lia].
  apply within_if;
    [eapply within_weaken; [| |apply within_FATAL_ERROR]; lia|].
  apply (within_bind 1 0 2 2); [apply within_fatal_write|intros _].
  apply (within_bind 1 0 1 2); [apply within_fatal_write|intros _].
  apply within_then; [apply within_lift|intros cookie].
  apply (within_bind 1 0 0 2); [apply within_fatal_write|intros _].
  apply (within_bind 0 1 0 1); [apply within_fatal_read|intros hdr_bytes].
  apply within_then; [apply within_lift|intros hdr].
  apply within_if;
    [eapply within_weaken; [| |apply within_FATAL_ERROR]; lia|].
  apply (within_bind 0 1 0 0); [apply within_fatal_read|intros body].
  repeat (apply within_then; [apply within_lift|intros ?]).
  apply within_ret.
Qed.

(** X11.  In every run the process makes at most six writes and at most two
    reads, and never takes back what it wrote: the bootstrap makes at most
    three writes and two reads, and [init_gc], [init_window] and
    [map_window] make at most one write each and no read, so no request
    waits for an answer of the server. *)
Theorem transport_call_budget :
  within 6 2 main
  /\ (forall state, within 3 2 (x11_init state))
  /\ (forall state value_mask value_list,
        within 1 0 (init_gc state value_mask value_list))
  /\ (forall state x y w h window_parent visual value_mask value_list,
        within 1 0 (init_window state x y w h window_parent visual
                                value_mask value_list))
  /\ (forall state, within 1 0 (map_window state)).
Proof.
  split; [|split; [|split; [|split]]].
  - unfold main.
    apply (within_bind 3 2 3 0); [apply within_x11_init|intros state].
    apply (within_bind 1 0 2 0); [apply within_init_gc|intros state1].
    apply within_then; [apply within_lift|intros parent].
    apply within_then; [apply within_lift|intros visual].
    apply (within_bind 1 0 1 0); [apply within_init_window|intros state2].
    apply within_map_window.
  - apply within_x11_init.
  - apply within_init_gc.
  - apply within_init_window.
  - apply within_map_window.
Qed.

(** ** Runs that reach the idle loop *)

Lemma bind_returns {A B} (m : M A) (k : A -> M B) e w w' b :
  bind m k e w = (w', Done b) ->
  exists w1 a, m e w = (w1, Done a) /\ k a e w1 = (w', Done b).
Proof.
  unfold bind. destruct (m e w) as [w1 [a| | |]]; [|discriminate..].
  intros H. exists w1, a. split; [reflexivity|exact H].
Qed.

Lemma lift_returns {A B} (o : option A) (k : A -> M B) e w w' b :
  bind (lift o) k e w = (w', Done b) ->
  exists a, o = Some a /\ k a e w = (w', Done b).
Proof.
  unfold bind, lift. destruct o as [a|]; [|discriminate].
  intros H. exists a. split; [reflexivity|exact H].
Qed.

Lemma write_returns {B} fd buf count (k : unit -> M B) e w w' b :
  0 <= count < 2 ^ 63 -> posix_write e ->
  bind (fatal_write fd buf count) k e w = (w', Done b) ->
  write_complete e (length (writes w)) fd count
  /\ k tt e (wrote w fd buf count) = (w', Done b).
Proof.
  intros Hc Hp H. apply bind_returns in H.
  destruct H as (w1 & [] & Hw & Hk).
  apply fatal_write_returns in Hw; [|assumption..].
  destruct Hw as [Hw ->]. split; assumption.
Qed.

Lemma read_returns {B} fd count (k : list byte -> M B) e w w' b :
  0 <= count < 2 ^ 63 ->
  bind (fatal_read fd count) k e w = (w', Done b) ->
  exists bs,
    Z.of_nat (length bs) = count /\ k bs e (received w) = (w', Done b).
Proof.
  intros Hc H. apply bind_returns in H.
  destruct H as (w1 & bs & Hr & Hk).
  apply fatal_read_returns in Hr; [|assumption].
  destruct Hr as (-> & Hl & _). exists bs. split; assumption.
Qed.

Lemma x11_init_reply_returns state e w w1 state1 :
  x11_init_reply state e w = (w1, Done state1) ->
  exists h body vl npf base,
    w1 = received (received w)
    /\ state1 = bootstrapped state h body vl npf base
    /\ success h <> 0
    /\ Z.of_nat (length body) = len h * 4
    /\ vendor_len body = Some vl
    /\ num_pixmap_formats body = Some npf
    /\ id_base body = Some base.
Proof.
  unfold x11_init_reply. intros H.
  apply read_returns in H;
    [|unfold sizeof_connection_reply_header_t; lia].
  destruct H as (hdr_bytes & Hhl & H).
  apply lift_returns in H. destruct H as (h & Hdec & H).
  cbn [set_connection_reply_header connection_reply_header socket_fd] in H.
  destruct (success h =? 0) eqn:Es; [discriminate|].
  apply Z.eqb_neq in Es.
  pose proof (header_len_range _ _ Hdec) as Hrange. unfold is_u16 in Hrange.
  rewrite size_t_of_id in H by lia.
  apply read_returns in H; [|lia]. destruct H as (body & Hbl & H).
  cbn [set_connection_reply_success_body connection_reply_success_body] in H.
  apply lift_returns in H. destruct H as (vl & Hvl & H).
  cbn [set_pixmap_formats connection_reply_success_body pixmap_formats] in H.
  apply lift_returns in H. destruct H as (npf & Hnpf & H).
  cbn [set_screens connection_reply_success_body] in H.
  apply lift_returns in H. destruct H as (base & Hbase & H).
  unfold ret in H. injection H as <- <-.
  exists h, body, vl, npf, base. repeat split; assumption.
Qed.

Lemma guard_returns {B} (c : bool) msg (m : M B) e w w' b :
  (if c then FATAL_ERROR msg else m) e w = (w', Done b) ->
  c = false /\ m e w = (w', Done b).
Proof. destruct c; [discriminate|]. intros H. split; [reflexivity|exact H]. Qed.

Lemma opened_returns {A B} (o : option A) msg (k : A -> M B) e w w' b :
  match o with
  | None => FATAL_ERROR msg
  | Some a => k a
  end e w = (w', Done b) ->
  exists a, o = Some a /\ k a e w = (w', Done b).
Proof.
  destruct o as [a|]; [|discriminate].
  intros H. exists a. split; [reflexivity|exact H].
Qed.

Lemma bytes_at_tail buf cookie :
  bytes_at buf (size_t_of (Z.of_nat (length buf)) - 16) 16 = Some cookie ->
  (length buf <= 4096)%nat -> (16 <= length buf)%nat.
Proof.
  intros H Hmax. rewrite size_t_of_id in H by lia. unfold bytes_at in H.
  destruct (0 <=? Z.of_nat (length buf) - 16) eqn:E; [|discriminate].
  apply Z.leb_le in E. lia.
Qed.

Lemma x11_init_returns state e w1 state1 :
  posix_write e ->
  x11_init state e world0 = (w1, Done state1) ->
  exists content h body vl npf base,
    0 <= socket_ret e
    /\ xauthority e = Some content
    /\ (16 <= length (credential_read content))%nat
    /\ w1 = received (received (handshaken (socket_ret e) content))
    /\ state1 = bootstrapped (set_socket_fd (socket_ret e) state) h body
                             vl npf base
    /\ vendor_len body = Some vl
    /\ num_pixmap_formats body = Some npf
    /\ id_base body = Some base.
Proof.
  intros Hp H0. pose proof H0 as H. unfold x11_init in H.
  apply bind_returns in H. destruct H as (w & fd & Hsock & H).
  unfold socket in Hsock. injection Hsock as <- <-.
  cbv zeta in H. cbn [set_socket_fd socket_fd] in H.
  apply guard_returns in H. destruct H as [Es H]. apply Z.ltb_ge in Es.
  apply bind_returns in H. destruct H as (w & c & Hconn & H).
  unfold connect in Hconn. injection Hconn as <- <-.
  apply guard_returns in H. destruct H as [Ec H]. apply Z.ltb_ge in Ec.
  apply bind_returns in H. destruct H as (w & xauth_file & Hopen & H).
  unfold fopen in Hopen. injection Hopen as <- <-.
  apply opened_returns in H. destruct H as (content & Ex & H).
  apply guard_returns in H. destruct H as [_ H].
  apply write_returns in H;
    [|unfold sizeof_connection_request_t; lia|assumption].
  destruct H as [W0 H].
  apply write_returns in H; [|lia|assumption]. destruct H as [W1 H].
  apply lift_returns in H. destruct H as (cookie & Hcookie & H).
  apply write_returns in H; [|lia|assumption]. destruct H as [W2 _].
  assert (Hlen : (16 <= length (credential_read content))%nat).
  { apply bytes_at_tail in Hcookie; [exact Hcookie|].
    apply length_credential_read. }
  clear Hcookie.
  change (write_complete e 0 (socket_ret e) 12) in W0.
  change (write_complete e 1 (socket_ret e) 20) in W1.
  change (write_complete e 2 (socket_ret e) 16) in W2.
  rewrite (x11_init_handshake state e (socket_ret e) content eq_refl
             Es Ec Ex Hlen W0 W1 W2) in H0.
  apply x11_init_reply_returns in H0.
  destruct H0 as (h & body & vl & npf & base & -> & -> & _ & _ & Hvl & Hnpf
                  & Hbase).
  exists content, h, body, vl, npf, base. repeat split; assumption.
Qed.

Lemma init_gc_returns state value_mask value_list e w w1 state1 :
  state_ok state -> is_u32 value_mask -> Forall is_u32 value_list ->
  Z.of_nat (length value_list) = bit_count value_mask ->
  posix_write e ->
  init_gc state value_mask value_list e w = (w1, Done state1) ->
  exists root,
    root_id (connection_reply_success_body state) (screens state) 0
    = Some root
    /\ w1 = sent_more w (socket_fd state)
              (bytes_of_words (create_gc_words (next_resource_id state) root
                                               value_mask value_list))
    /\ state1 = after_init_gc state.
Proof.
  intros Hst HM Hvl Hlen Hp H.
  pose proof (bit_count_bounds value_mask) as Hk.
  destruct (root_id (connection_reply_success_body state) (screens state) 0)
    as [root|] eqn:Er.
  - exists root. split; [reflexivity|]. pose proof H as H'.
    rewrite (init_gc_run state Hst value_mask HM value_list Hvl
               ltac:(lia) root e w Er) in H'.
    apply write_returns in H'; [|lia|assumption].
    destruct H' as [Hw _].
    rewrite (init_gc_sends state value_mask value_list root e w
               Hst HM Hvl Hlen Er Hw) in H.
    injection H as <- <-. split; reflexivity.
  - exfalso. unfold init_gc, generate_id in H.
    replace (init_gc_packet _ value_mask value_list)
      with (@None (Z * packet_t)) in H; [discriminate|].
    symmetry. unfold init_gc_packet.
    rewrite (popcnt_terminates _ HM). cbn [mbind option_bind].
    do 2 match goal with
         | |- (?o ≫= _) = None =>
             destruct o; cbn [mbind option_bind]; [|reflexivity]
         end.
    cbn [set_graphics_context_id set_next_resource_id
         connection_reply_success_body screens].
    rewrite Er. reflexivity.
Qed.

Lemma init_window_returns state x y width height window_parent visual
  value_mask value_list e w w1 state1 :
  state_ok state ->
  is_u16 x -> is_u16 y -> is_u16 width -> is_u16 height ->
  is_u32 window_parent -> is_u32 visual ->
  is_u32 value_mask -> Forall is_u32 value_list ->
  Z.of_nat (length value_list) = bit_count value_mask ->
  posix_write e ->
  init_window state x y width height window_parent visual value_mask
              value_list e w = (w1, Done state1) ->
  w1 = sent_more w (socket_fd state)
         (bytes_of_words (create_window_words (next_resource_id state)
                            window_parent x y width height visual value_mask
                            value_list))
  /\ state1 = after_init_window state.
Proof.
  intros Hst Hx Hy Hwd Hht Hpa Hv HM Hvl Hlen Hp H.
  pose proof (bit_count_bounds value_mask) as Hk.
  pose proof H as H'.
  rewrite (init_window_run state Hst value_mask HM value_list Hvl
             ltac:(lia) x y width height window_parent visual
             Hx Hy Hwd Hht Hpa Hv e w) in H'.
  apply write_returns in H'; [|lia|assumption].
  destruct H' as [Hw _].
  rewrite (init_window_sends state x y width height window_parent visual
             value_mask value_list e w Hst Hx Hy Hwd Hht Hpa Hv HM Hvl
             Hlen Hw) in H.
  injection H as <- <-. split; reflexivity.
Qed.

Lemma map_window_returns state e w w1 state1 :
  state_ok state -> posix_write e ->
  map_window state e w = (w1, Done state1) ->
  w1 = sent_more w (socket_fd state)
         (bytes_of_words (map_window_words (window_id state)))
  /\ state1 = state.
Proof.
  intros Hst Hp H. pose proof H as H'.
  rewrite (map_window_run state Hst e w) in H'.
  apply write_returns in H'; [|lia|assumption].
  destruct H' as [Hw _].
  rewrite (map_window_sends state e w Hst Hw) in H.
  injection H as <- <-. split; reflexivity.
Qed.

Lemma next_id_differs base : is_u32 base -> u32 (base + 1) <> base.
Proof.
  unfold is_u32, u32. intros H.
  change (2 ^ 32) with 4294967296 in *.
  Z.div_mod_to_equations. lia.
Qed.

(** X12.  Whenever the process reaches the idle loop, on a system whose
    [write] keeps its contract, the whole exchange has taken place: the
    socket and the connection were obtained, the credential file gave at
    least 16 bytes, and the six writes were complete and are, in order, the
    three parts of the handshake, the create-GC request, the create-window
    request and the map-window request, 112 bytes in all, after two reads
    and nothing printed.  The graphics context has the ID base the body
    carries, the window the next ID (in 32-bit arithmetic), the two IDs
    differ, and both requests name the root window read at the place the
    bootstrap computed for the first screen. *)
Theorem idle_loop_means_full_exchange e w' state' :
  posix_write e ->
  main e world0 = (w', Done state') ->
  exists content body vl npf base root visual,
    let fd := socket_ret e in
    let scr := off_vendor_string + vl + npf * sizeof_pixmap_format_t in
    0 <= fd
    /\ xauthority e = Some content
    /\ (16 <= length (credential_read content))%nat
    /\ connection_reply_success_body state' = body
    /\ socket_fd state' = fd
    /\ vendor_len body = Some vl
    /\ num_pixmap_formats body = Some npf
    /\ id_base body = Some base
    /\ screens state' = scr
    /\ root_id body scr 0 = Some root
    /\ root_visual_id body scr 0 = Some visual
    /\ graphics_context_id state' = base
    /\ window_id state' = u32 (base + 1)
    /\ next_resource_id state' = u32 (u32 (base + 1) + 1)
    /\ graphics_context_id state' <> window_id state'
    /\ writes w'
       = [(fd, request_header); (fd, auth_proto_name);
          (fd, cookie_of content);
          (fd, bytes_of_words (create_gc_words base root (Z.shiftl 1 16)
                                               [0]));
          (fd, bytes_of_words
                 (create_window_words (u32 (base + 1)) root 0 0 320 240
                                      visual (Z.shiftl 1 1) [0xff00ff]));
          (fd, bytes_of_words (map_window_words (u32 (base + 1))))]
    /\ length (sent w') = 112%nat
    /\ recvs w' = 2%nat
    /\ errs w' = [].
Proof.
  intros Hp H. unfold main in H.
  apply bind_returns in H. destruct H as (w1 & st1 & Hinit & H).
  apply x11_init_returns in Hinit; [|exact Hp].
  destruct Hinit as (content & h & body & vl & npf & base & Hfd & Hx & Hlen
                     & -> & -> & Hvl & Hnpf & Hbase).
  set (fd := socket_ret e) in *.
  set (st0 := bootstrapped (set_socket_fd fd zero_state) h body vl npf base)
    in *.
  pose proof (rd32_range _ _ _ Hbase) as HB.
  assert (Hst0 : state_ok st0).
  { split; cbn; [exact HB|unfold is_u32; lia..]. }
  assert (Hst1 : state_ok (after_init_gc st0)).
  { split; cbn; [apply u32_range|exact HB|unfold is_u32; lia]. }
  assert (Hst2 : state_ok (after_init_window (after_init_gc st0))).
  { split; cbn; [apply u32_range|exact HB|apply u32_range]. }
  destruct driver_requests_u32 as [Hv0 Hv1].
  apply bind_returns in H. destruct H as (w2 & st2 & Hgc & H).
  apply init_gc_returns in Hgc;
    [|exact Hst0|unfold is_u32; vm_compute; split; congruence|exact Hv0
     |reflexivity|exact Hp].
  destruct Hgc as (root & Hroot & -> & ->).
  apply lift_returns in H. destruct H as (parent & Hparent & H).
  change (root_id body (screens st0) 0 = Some parent) in Hparent.
  change (root_id body (screens st0) 0 = Some root) in Hroot.
  rewrite Hroot in Hparent. injection Hparent as <-.
  apply lift_returns in H. destruct H as (visual & Hvis & H).
  change (root_visual_id body (screens st0) 0 = Some visual) in Hvis.
  pose proof (rd32_range _ _ _ Hroot) as HR.
  pose proof (rd32_range _ _ _ Hvis) as HV.
  apply bind_returns in H. destruct H as (w3 & st3 & Hwin & H).
  apply init_window_returns in Hwin;
    [|exact Hst1|unfold is_u16; lia|unfold is_u16; lia|unfold is_u16; lia
     |unfold is_u16; lia|exact HR|exact HV
     |unfold is_u32; vm_compute; split; congruence|exact Hv1|reflexivity
     |exact Hp].
  destruct Hwin as [-> ->].
  apply map_window_returns in H; [|exact Hst2|exact Hp].
  destruct H as [-> ->].
  exists content, body, vl, npf, base, root, visual. cbv zeta.
  split; [exact Hfd|]. split; [exact Hx|]. split; [exact Hlen|].
  do 5 (split; [first [reflexivity|assumption]|]).
  split; [reflexivity|]. split; [exact Hroot|]. split; [exact Hvis|].
  do 3 (split; [reflexivity|]).
  split; [cbn; intros Heq; symmetry in Heq; revert Heq;
          apply next_id_differs, HB|].
  split; [reflexivity|]. split; [|split; reflexivity].
  unfold sent. cbn [sent_more received handshaken writes app map snd concat].
  rewrite !length_app, !length_bytes_of_words, length_cookie_of by exact Hlen.
  reflexivity.
Qed.

Lemma idle_loop_means_full_exchange_witness :
  exists w' state',
    main (example_server vendor_xorg) world0 = (w', Done state')
    /\ length (sent w') = 112%nat
    /\ graphics_context_id state' <> window_id state'.
Proof.
  destruct (main (example_server vendor_xorg) world0) as [w' out] eqn:E.
  assert (Hout : exists state', out = Done state').
  { vm_compute in E. injection E as _ <-. eexists. reflexivity. }
  destruct Hout as [state' ->].
  destruct (idle_loop_means_full_exchange (example_server vendor_xorg)
              w' state'
              ltac:(intros k fd count r Hc [= <-]; lia) E)
    as (content & body & vl & npf & base & root & visual & H).
  cbv zeta in H.
  destruct H as (_ & _ & _ & _ & _ & _ & _ & _ & _ & _ & _ & _ & _ & _
                 & Hne & _ & Hsent & _).
  exists w', state'. split; [reflexivity|]. split; assumption.
Defined.

(** X13.  [init_gc] reads the root window through the screen view of the
    session.  On a session whose view does not point at four readable bytes
    of the reply body (the zero-initialised session before the bootstrap,
    whose pointers are null, in particular) the read is outside the body:
    the run has no defined result and the call has written nothing. *)
Theorem init_gc_needs_a_screen state value_mask value_list e w :
  is_u32 value_mask ->
  root_id (connection_reply_success_body state) (screens state) 0 = None ->
  init_gc state value_mask value_list e w = (w, Undefined).
Proof.
  intros HM Hroot. unfold init_gc, generate_id.
  replace (init_gc_packet _ value_mask value_list)
    with (@None (Z * packet_t)); [reflexivity|].
  symmetry. unfold init_gc_packet.
  rewrite (popcnt_terminates _ HM). cbn [mbind option_bind].
  do 2 match goal with
       | |- (?o ≫= _) = None =>
           destruct o; cbn [mbind option_bind]; [|reflexivity]
       end.
  cbn [set_graphics_context_id set_next_resource_id
       connection_reply_success_body screens].
  rewrite Hroot. reflexivity.
Qed.

Lemma init_gc_needs_a_screen_witness :
  init_gc zero_state X11_GC_GRAPHICS_EXPOSURES [X11_EXPOSURES_NOT_ALLOWED]
          (example_server []) world0
  = (world0, Undefined).
Proof.
  apply init_gc_needs_a_screen.
  - vm_compute. split; congruence.
  - reflexivity.
Defined.
